(** * Min-Meet: the session transcript engine of [app.py]

    A shallow embedding of the class [MeetingStore]: speaker resolution
    ([get_or_create_speaker]), utterance classification ([is_question],
    [detect_decision], [detect_action_item]), conversational threading
    ([add_utterance]) and minutes synthesis ([get_minutes_structure]).

    Modelling conventions.
    - Python [str] values are [string]s; a character is a code point below
      256, so [lower], [strip] and [split] follow Python on Latin-1 text.
    - Python numbers are binary64 floats, the kernel's [float] with the
      IEEE 754 operations that Python's [float] uses: every sum, product,
      quotient and comparison rounds and orders as in the source.  A JSON
      number is read as a float; for a JSON integer this is the float of the
      same value, on which the arithmetic of the source agrees with Python's
      below 2^53 in magnitude.
    - A [dict] iterated in insertion order is an association list; the
      per-participant and per-entry dicts, whose keys are fixed, are records.
      A key that the code only ever sets to [True] ([is_decision],
      [is_action_item]) is a [bool], [false] standing for the absent key.
    - A transcript entry placed in an output list is the entry object itself;
      it is represented by its position in the transcript paired with its
      contents.
    - [uuid.uuid4()] and [datetime.now()] are inputs (the record [World], the
      argument [now] of [get_minutes_structure]).
    - [re.search] and [datetime.fromisoformat] of the standard library are
      parameters ([re_search], applied to the source's pattern strings, and
      [fromisoformat], which returns a naive or an aware [datetime]);
      [timedelta.total_seconds] and [int] are written out on the floats.
    - A function that can raise returns an [option]; in a route, the
      exception that [except Exception] catches is one of the replies. *)

From Stdlib Require Import Floats ZArith String Ascii List Bool Arith Lia.
From Stdlib Require Import DecimalString Sorted.
From Stdlib Require DecimalNat DecimalFacts.
Set Warnings "-inexact-float".
Import ListNotations.
Open Scope string_scope.

(** ** Python built-ins used by the source *)

Module Py.

Local Open Scope nat_scope.

(** [str.isspace] on one character (code points below 256). *)
Definition isspace (c : ascii) : bool :=
  let n := nat_of_ascii c in
  ((9 <=? n) && (n <=? 13)) || ((28 <=? n) && (n <=? 32))
  || (n =? 133) || (n =? 160).

Definition lower_char (c : ascii) : ascii :=
  let n := nat_of_ascii c in
  if ((65 <=? n) && (n <=? 90))
     || ((192 <=? n) && (n <=? 222) && negb (n =? 215))
  then ascii_of_nat (n + 32) else c.

Fixpoint lower (s : string) : string :=
  match s with
  | EmptyString => EmptyString
  | String c s' => String (lower_char c) (lower s')
  end.

Fixpoint drop_space (l : list ascii) : list ascii :=
  match l with
  | c :: l' => if isspace c then drop_space l' else l
  | [] => []
  end.

Definition strip (s : string) : string :=
  string_of_list_ascii
    (rev (drop_space (rev (drop_space (list_ascii_of_string s))))).

Definition startswith (s pre : string) : bool := String.prefix pre s.

Definition endswith (s suf : string) : bool :=
  String.prefix
    (string_of_list_ascii (rev (list_ascii_of_string suf)))
    (string_of_list_ascii (rev (list_ascii_of_string s))).

(** [sub in s] *)
Fixpoint contains (sub s : string) : bool :=
  String.prefix sub s
  || match s with
     | EmptyString => false
     | String _ s' => contains sub s'
     end.

(** [s.split()]: the maximal runs of non-whitespace characters. *)
Fixpoint split_from (cur : list ascii) (l : list ascii) : list string :=
  match l with
  | [] =>
      match cur with
      | [] => []
      | _ => [string_of_list_ascii (rev cur)]
      end
  | c :: l' =>
      if isspace c then
        match cur with
        | [] => split_from [] l'
        | _ => string_of_list_ascii (rev cur) :: split_from [] l'
        end
      else split_from (c :: cur) l'
  end.

Definition split (s : string) : list string :=
  split_from [] (list_ascii_of_string s).

Definition len (s : string) : nat := String.length s.

(** [x in xs] for a list of strings. *)
Definition str_in (x : string) (xs : list string) : bool :=
  existsb (String.eqb x) xs.

(** [str(n)] for a non-negative integer. *)
Definition str_nat (n : nat) : string :=
  NilEmpty.string_of_uint (Nat.to_uint n).

(** [str(z)] for an integer. *)
Definition str_Z (z : Z) : string :=
  match z with
  | Zneg p => "-" ++ str_nat (Pos.to_nat p)
  | _ => str_nat (Z.to_nat z)
  end.

(** [d.get(key, default)] on an optional field. *)
Definition get {A : Type} (field : option A) (default : A) : A :=
  match field with
  | Some v => v
  | None => default
  end.

(** [d[k]] on an insertion-ordered dict; [None] is [KeyError]. *)
Fixpoint dict_get {V : Type} (d : list (string * V)) (k : string)
  : option V :=
  match d with
  | [] => None
  | (k', v) :: d' => if String.eqb k' k then Some v else dict_get d' k
  end.

(** [d[k] = v]: an existing key keeps its place, a new one goes last. *)
Fixpoint dict_set {V : Type} (d : list (string * V)) (k : string) (v : V)
  : list (string * V) :=
  match d with
  | [] => [(k, v)]
  | (k', v') :: d' =>
      if String.eqb k' k then (k, v) :: d'
      else (k', v') :: dict_set d' k v
  end.

(** [l[-1]] when [l] is not empty. *)
Fixpoint last_item {A : Type} (l : list A) : option A :=
  match l with
  | [] => None
  | [x] => Some x
  | _ :: l' => last_item l'
  end.

(** [s.add(x)] on a set kept as a duplicate-free list. *)
Definition set_add (s : list string) (x : string) : list string :=
  if str_in x s then s else (s ++ [x])%list.

(** [x < y] on floats: false as soon as one side is not a number. *)
Definition lt (x y : float) : bool := PrimFloat.ltb x y.

(** [float('inf')] *)
Definition inf : float := infinity.

(** [a / b] on Python integers: the quotient rounded to the nearest float,
    ties to even. *)
Definition int_to_spec (z : Z) : spec_float :=
  match z with
  | Z0 => S754_zero false
  | Zpos p => S754_finite false p 0
  | Zneg p => S754_finite true p 0
  end.

Definition true_div (a b : Z) : float :=
  SF2Prim (SFdiv prec emax (int_to_spec a) (int_to_spec b)).

(** [int(x)] on a float: truncation towards zero; [None] stands for the
    [OverflowError] on an infinity and the [ValueError] on a NaN. *)
Definition int (x : float) : option Z :=
  match Prim2SF x with
  | S754_zero _ => Some 0%Z
  | S754_finite s m e =>
      let v :=
        match e with
        | Zneg k => Z.shiftr (Zpos m) (Zpos k)
        | _ => Z.shiftl (Zpos m) e
        end in
      Some (if s then Z.opp v else v)
  | _ => None
  end.

(** Truth value of a string: the empty string is false. *)
Definition truthy (s : string) : bool :=
  match s with
  | EmptyString => false
  | _ => true
  end.

End Py.

(** ** Data model *)

(** [voice_features]: the dict sent with an utterance; any key may be absent. *)
Module Features.
Record t : Type := mk {
  avg_pitch : option float;
  words_per_minute : option float;
  energy : option float;
  channel : option string
}.
End Features.

(** A value of [self.participants]. *)
Module Profile.
Record t : Type := mk {
  name : string;
  avg_pitch : float;
  avg_pace : float;
  avg_energy : float;
  voice_id : string;
  audio_source : string;
  is_remote : bool;
  samples_count : nat;
  first_seen : string
}.

Definition set_avg_pitch (v : float) (p : t) : t :=
  mk (name p) v (avg_pace p) (avg_energy p) (voice_id p) (audio_source p)
     (is_remote p) (samples_count p) (first_seen p).

Definition set_avg_pace (v : float) (p : t) : t :=
  mk (name p) (avg_pitch p) v (avg_energy p) (voice_id p) (audio_source p)
     (is_remote p) (samples_count p) (first_seen p).

Definition set_samples_count (v : nat) (p : t) : t :=
  mk (name p) (avg_pitch p) (avg_pace p) (avg_energy p) (voice_id p)
     (audio_source p) (is_remote p) v (first_seen p).
End Profile.

(** An element of [self.transcript]. *)
Module Entry.
Inductive kind : Type :=
| statement
| question
| answer.

Definition kind_eqb (a b : kind) : bool :=
  match a, b with
  | statement, statement | question, question | answer, answer => true
  | _, _ => false
  end.

Record t : Type := mk {
  timestamp : string;
  speaker_id : string;
  speaker_name : string;
  text : string;
  type : kind;
  audio_source : string;
  is_remote : bool;
  voice_features : option float * option float * option float;
  question_id : option nat;
  answers_question : option nat;
  is_decision : bool;
  is_action_item : bool;
  assignee : option string
}.

Definition set_question (qid : nat) (e : t) : t :=
  mk (timestamp e) (speaker_id e) (speaker_name e) (text e) question
     (audio_source e) (is_remote e) (voice_features e) (Some qid)
     (answers_question e) (is_decision e) (is_action_item e) (assignee e).

Definition set_answer (q : nat) (e : t) : t :=
  mk (timestamp e) (speaker_id e) (speaker_name e) (text e) answer
     (audio_source e) (is_remote e) (voice_features e) (question_id e)
     (Some q) (is_decision e) (is_action_item e) (assignee e).

Definition set_is_decision (e : t) : t :=
  mk (timestamp e) (speaker_id e) (speaker_name e) (text e) (type e)
     (audio_source e) (is_remote e) (voice_features e) (question_id e)
     (answers_question e) true (is_action_item e) (assignee e).

Definition set_is_action_item (who : string) (e : t) : t :=
  mk (timestamp e) (speaker_id e) (speaker_name e) (text e) (type e)
     (audio_source e) (is_remote e) (voice_features e) (question_id e)
     (answers_question e) (is_decision e) true (Some who).
End Entry.

(** An element of [self.unanswered_questions]. *)
Module Pending.
Record t : Type := mk {
  index : nat;
  timestamp : string;
  speaker : string
}.
End Pending.

Record MeetingStore : Type := mkStore {
  meeting_type : string;
  participants : list (string * Profile.t);
  speaker_counter : nat;
  transcript : list Entry.t;
  unanswered_questions : list Pending.t;
  start_time : option string;
  end_time : option string;
  meeting_title : string;
  audio_sources : list string
}.

(** The document returned by [get_minutes_structure]. *)
Module Minutes.
Record participant_info : Type := mk_info {
  name : string;
  source : string;
  speaking_time : nat
}.

(** A transcript entry held by the document: its position and contents. *)
Definition ref : Type := nat * Entry.t.

Record qa : Type := mk_qa {
  question : ref;
  answers : list ref;
  follow_up_questions : list ref
}.

Record t : Type := mk {
  title : string;
  date : string;
  meeting_type : string;
  duration : string;
  participants : list participant_info;
  remote_participants : list participant_info;
  qa_pairs : list qa;
  key_discussion_points : list ref;
  decisions : list ref;
  action_items : list ref;
  audio_sources : list string
}.
End Minutes.

(** What one call of [add_utterance] reads from outside the store: the eight
    hexadecimal digits kept of [uuid.uuid4()] and the three clock readings. *)
Record World : Type := mkWorld {
  uuid_hex : string;
  now_first_seen : string;
  now_timestamp : string;
  now_pending : string
}.

(** [MeetingStore.__init__]; [title_date] is the formatted clock reading. *)
Definition init (meeting_type : string) (title_date : string) : MeetingStore :=
  mkStore meeting_type [] 0 [] [] None None ("Meeting - " ++ title_date) [].

Definition set_participants (ps : list (string * Profile.t))
  (self : MeetingStore) : MeetingStore :=
  mkStore (meeting_type self) ps (speaker_counter self) (transcript self)
    (unanswered_questions self) (start_time self) (end_time self)
    (meeting_title self) (audio_sources self).

Definition set_speaker_counter (n : nat) (self : MeetingStore)
  : MeetingStore :=
  mkStore (meeting_type self) (participants self) n (transcript self)
    (unanswered_questions self) (start_time self) (end_time self)
    (meeting_title self) (audio_sources self).

(** ** Speaker resolution: [get_or_create_speaker] *)

Definition score (data : Profile.t) (voice_features : Features.t) : float :=
  let pitch_diff :=
    abs (Profile.avg_pitch data
         - Py.get (Features.avg_pitch voice_features) 0)%float in
  let pace_diff :=
    (abs (Profile.avg_pace data
          - Py.get (Features.words_per_minute voice_features) 0) / 10)%float
  in
  let energy_diff :=
    (abs (Profile.avg_energy data
          - Py.get (Features.energy voice_features) 0) / 50)%float in
  ((pitch_diff * 0.5) + (pace_diff * 0.3) + (energy_diff * 0.2))%float.

Definition threshold (meeting_type : string) : float :=
  if String.eqb meeting_type "hybrid" then 25%float else 20%float.

(** One iteration of the loop over [search_space]; the accumulator is
    [(best_match, best_score)]. *)
Definition search_step (meeting_type : string) (voice_features : Features.t)
  (acc : option string * float) (item : string * Profile.t)
  : option string * float :=
  let '(best_match, best_score) := acc in
  let '(speaker_id, data) := item in
  let sc := score data voice_features in
  if Py.lt sc (threshold meeting_type) && Py.lt sc best_score
  then (Some speaker_id, sc)
  else (best_match, best_score).

Definition search (meeting_type : string) (voice_features : Features.t)
  (search_space : list (string * Profile.t))
  : option string * float :=
  fold_left (search_step meeting_type voice_features) search_space
    (None, Py.inf).

Definition remote_sources : list string :=
  ["tab_audio"; "system_audio"; "screen_share"].

(** The branch taken when [best_match] is truthy. *)
Definition update_speaker (self : MeetingStore) (voice_features : Features.t)
  (best_match : string) : option (MeetingStore * string) :=
  let old_count :=
    length (filter (fun t => String.eqb (Entry.speaker_id t) best_match)
              (transcript self)) in
  match Py.dict_get (participants self) best_match with
  | None => None
  | Some speaker_data =>
      let alpha : float := 0.3%float in
      let speaker_data :=
        Profile.set_avg_pitch
          (alpha * Py.get (Features.avg_pitch voice_features) 100
           + (1 - alpha) * Profile.avg_pitch speaker_data)%float
          speaker_data in
      let speaker_data :=
        Profile.set_avg_pace
          (alpha * Py.get (Features.words_per_minute voice_features) 120
           + (1 - alpha) * Profile.avg_pace speaker_data)%float
          speaker_data in
      let speaker_data :=
        Profile.set_samples_count (old_count + 1) speaker_data in
      Some (set_participants
              (Py.dict_set (participants self) best_match speaker_data) self,
            best_match)
  end.

(** The branch that creates a profile. *)
Definition create_speaker (w : World) (self : MeetingStore)
  (voice_features : Features.t) (audio_source : string)
  : MeetingStore * string :=
  let self := set_speaker_counter (speaker_counter self + 1) self in
  let speaker_id := "speaker_" ++ uuid_hex w in
  let is_remote := Py.str_in audio_source remote_sources in
  let data :=
    Profile.mk
      ("Participant " ++ Py.str_nat (speaker_counter self)
       ++ (if is_remote then " (Remote)" else EmptyString))
      (Py.get (Features.avg_pitch voice_features) 100%float)
      (Py.get (Features.words_per_minute voice_features) 120%float)
      (Py.get (Features.energy voice_features) 5000%float)
      speaker_id audio_source is_remote 1 (now_first_seen w) in
  (set_participants (Py.dict_set (participants self) speaker_id data) self,
   speaker_id).

(** [source_key] is computed by the source and never read; it is left out.
    The profiles are read with [data.get(key, 0)], and every profile holds
    the three keys, so the default is never taken on that side. *)
Definition get_or_create_speaker (w : World) (self : MeetingStore)
  (voice_features : Features.t) (audio_source : string)
  : option (MeetingStore * string) :=
  let search_space := participants self in
  let '(best_match, _) :=
    search (meeting_type self) voice_features search_space in
  match best_match with
  | Some id =>
      if Py.truthy id then update_speaker self voice_features id
      else Some (create_speaker w self voice_features audio_source)
  | None => Some (create_speaker w self voice_features audio_source)
  end.

(** [re_search pattern s] is [bool(re.search(pattern, s))]. *)
Class Regex : Type := re_search : string -> string -> bool.

(** A [datetime]: its reading in microseconds, and for an aware value the
    offset of its time zone from UTC, in microseconds. *)
Record datetime : Type := mk_datetime {
  reading : Z;
  utcoffset : option Z
}.

(** [datetime.fromisoformat]: [None] when the string does not parse
    ([ValueError]). *)
Class IsoParser : Type := fromisoformat : string -> option datetime.

(** [end - start], a [timedelta] counted in microseconds; [None] is the
    [TypeError] raised for a naive and an aware value. *)
Definition datetime_sub (end_ start : datetime) : option Z :=
  match utcoffset end_, utcoffset start with
  | None, None => Some (reading end_ - reading start)%Z
  | Some off_end, Some off_start =>
      Some ((reading end_ - off_end) - (reading start - off_start))%Z
  | _, _ => None
  end.

(** [duration.total_seconds()]: the microseconds divided by [10**6]. *)
Definition total_seconds (duration : Z) : float :=
  Py.true_div duration 1000000.

(** ** Sample inputs, for the concrete runs *)

(** A [re.search] that finds nothing, and a [fromisoformat] that parses
    nothing; the sample texts match none of the source's patterns. *)
Definition no_match : Regex := fun _ _ => false.

Definition no_parse : IsoParser := fun _ => None.

Definition sample_world (hex : string) : World :=
  mkWorld hex "2026-01-05T10:00:00" "2026-01-05T10:00:01"
    "2026-01-05T10:00:02".

Definition voice (pitch pace energy : float) : Features.t :=
  Features.mk (Some pitch) (Some pace) (Some energy) (Some "mono").

Definition no_features : Features.t := Features.mk None None None None.

Definition sample_profile (id : string) (pitch pace energy : float)
  : Profile.t :=
  Profile.mk "Participant 1" pitch pace energy id "microphone" false 1
    "2026-01-05T10:00:00".

(** A store holding one profile [speaker_0a1b2c3d] and nothing else. *)
Definition one_speaker (meeting_type : string) (pitch pace energy : float)
  : MeetingStore :=
  mkStore meeting_type
    [("speaker_0a1b2c3d", sample_profile "speaker_0a1b2c3d" pitch pace energy)]
    1 [] [] (Some "2026-01-05T10:00:00") None "Meeting - 2026-01-05 10:00"
    [].

(** A question by one speaker, a remark by the same speaker, then an answer
    by a second speaker. *)
Definition late_answer_calls : list (World * string * Features.t * string) :=
  [(sample_world "0a1b2c3d", "What is the deadline?",
    voice 100 120 5000, "microphone");
   (sample_world "11111111", "The sky is blue",
    voice 100 120 5000, "microphone");
   (sample_world "22222222", "Friday works",
    voice 200 120 5000, "microphone")].

(** Two questions in a row by one speaker, then a remark by another. *)
Definition two_question_calls : list (World * string * Features.t * string) :=
  [(sample_world "0a1b2c3d", "What is the deadline?",
    voice 100 120 5000, "microphone");
   (sample_world "11111111", "Why?",
    voice 100 120 5000, "microphone");
   (sample_world "22222222", "Friday works",
    voice 200 120 5000, "microphone")].

(** A [fromisoformat] that reads four instants, counted in microseconds
    from the first; the last one is aware, at UTC. *)
Definition sample_clock : IsoParser :=
  fun s =>
    if String.eqb s "2026-01-05T10:00:00"
    then Some (mk_datetime 0 None)
    else if String.eqb s "2026-01-05T10:01:05"
    then Some (mk_datetime 65000000 None)
    else if String.eqb s "2026-01-05T09:59:54.500000"
    then Some (mk_datetime (-5500000) None)
    else if String.eqb s "2026-01-05T10:01:05+00:00"
    then Some (mk_datetime 65000000 (Some 0%Z))
    else None.

(** ** Classification, threading and synthesis *)

Section Engine.

Context {regex : Regex} {iso : IsoParser}.

Definition question_starters : list string :=
  ["what"; "where"; "when"; "why"; "who"; "how"; "is"; "are"; "can";
   "could"; "would"; "should"; "will"; "do"; "does"; "did"; "have";
   "has"; "am"; "was"; "were"].

Definition question_patterns : list string :=
  ["\b(what|where|when|why|how|who)\s+(is|are|was|were|do|does|did|can|could|would)";
   "\b(can you|could you|would you|will you)\s+\w+";
   "\b(let me know|tell me|i\'m wondering|i was wondering)\b";
   "\b(any idea|do you know|have you heard)\b"].

Definition is_question (text : string) : bool :=
  let text := Py.strip text in
  let text_lower := Py.lower text in
  if Py.endswith text "?" then true
  else
    let words := Py.split text_lower in
    if match words with
       | [] => false
       | w0 :: _ => Py.str_in w0 question_starters
       end
    then true
    else existsb (fun pattern => re_search pattern text_lower)
           question_patterns.

Definition decision_indicators : list string :=
  ["decided"; "decision"; "agreed"; "conclusion"; "finalized";
   "resolved"; "approved"; "confirmed"; "consensus"; "settled on";
   "moving forward with"; "we will"; "let's go with"; "approved"].

Definition detect_decision (text : string) : bool :=
  let text_lower := Py.lower text in
  existsb (fun ind => Py.contains ind text_lower) decision_indicators.

Definition assign_patterns : list string :=
  ["(i will|i\'ll|i am going to|i\'m going to)\s+(.+)";
   "(let me|i can|i should)\s+(.+)";
   "(will you|can you|could you)\s+(.+)";
   "(action item|todo|task|follow up|follow-up)"].

Definition deadline_words : list string :=
  ["by tomorrow"; "by friday"; "by monday"; "by next";
   "by the end of"; "asap"; "soon"; "this week"; "next week"].

Definition detect_action_item (text : string) (speaker : string) : bool :=
  let text_lower := Py.lower text in
  if existsb (fun pattern => re_search pattern text_lower) assign_patterns
  then true
  else existsb (fun d => Py.contains d text_lower) deadline_words.

Definition answer_starters : list string :=
  ["yes"; "no"; "absolutely"; "definitely"; "correct"; "right";
   "exactly"; "sure"; "well"; "i think"; "in my opinion"].

(** The test [is_answer] of [add_utterance], for the utterance [text] by
    [speaker_id] about to be appended at position [index], against the
    pending question [last_q]. *)
Definition is_answer_to (last_q : Pending.t) (index : nat)
  (speaker_id text : string) : bool :=
  let time_since_q := (Z.of_nat index - Z.of_nat (Pending.index last_q))%Z in
  let is_answer :=
    (time_since_q <=? 4)%Z
    && negb (String.eqb (Pending.speaker last_q) speaker_id)
    && negb (Py.endswith text "?") in
  if existsb (fun starter => Py.startswith (Py.lower text) starter)
       answer_starters
  then true
  else is_answer.

(** The test that guards [self.unanswered_questions.pop()]. *)
Definition pops (last_q : Pending.t) (index : nat) (text : string) : bool :=
  let time_since_q := (Z.of_nat index - Z.of_nat (Pending.index last_q))%Z in
  (2 <=? time_since_q)%Z || Py.endswith text "." || (100 <? Py.len text)%nat.

(** The [if self.is_question(text): ... else: ...] block: the entry and the
    pending stack after it. *)
Definition thread (w : World) (self : MeetingStore) (speaker_id text : string)
  (entry : Entry.t) : Entry.t * list Pending.t :=
  let pending := unanswered_questions self in
  let index := length (transcript self) in
  if is_question text then
    (Entry.set_question index entry,
     (pending ++ [Pending.mk index (now_pending w) speaker_id])%list)
  else
    match Py.last_item pending with
    | None => (entry, pending)
    | Some last_q =>
        if is_answer_to last_q index speaker_id text then
          (Entry.set_answer (Pending.index last_q) entry,
           if pops last_q index text then removelast pending else pending)
        else (entry, pending)
    end.

(** The two blocks [if self.detect_decision(text)] and
    [if self.detect_action_item(text, speaker_id)]. *)
Definition mark_flags (text speaker_id : string) (speaker_data : Profile.t)
  (entry : Entry.t) : Entry.t :=
  let entry :=
    if detect_decision text then Entry.set_is_decision entry else entry in
  if detect_action_item text speaker_id
  then Entry.set_is_action_item (Profile.name speaker_data) entry
  else entry.

(** The body of [add_utterance] after the speaker has been resolved to
    [speaker_id], whose profile is [speaker_data]. *)
Definition append_entry (w : World) (self : MeetingStore)
  (speaker_id : string) (speaker_data : Profile.t) (text : string)
  (voice_features : Features.t) (audio_source : string)
  : MeetingStore * Entry.t :=
  let entry :=
    Entry.mk (now_timestamp w) speaker_id (Profile.name speaker_data)
      text Entry.statement audio_source (Profile.is_remote speaker_data)
      (Features.avg_pitch voice_features,
       Features.words_per_minute voice_features,
       Features.energy voice_features)
      None None false false None in
  let '(entry, pending) := thread w self speaker_id text entry in
  let entry := mark_flags text speaker_id speaker_data entry in
  (mkStore (meeting_type self) (participants self) (speaker_counter self)
     (transcript self ++ [entry])%list pending (start_time self)
     (end_time self) (meeting_title self)
     (Py.set_add (audio_sources self) audio_source),
   entry).

Definition add_utterance (w : World) (self : MeetingStore) (text : string)
  (voice_features : Features.t) (audio_source : string)
  : option (MeetingStore * Entry.t) :=
  match get_or_create_speaker w self voice_features audio_source with
  | None => None
  | Some (self, speaker_id) =>
      match Py.dict_get (participants self) speaker_id with
      | None => None
      | Some speaker_data =>
          Some (append_entry w self speaker_id speaker_data text
                  voice_features audio_source)
      end
  end.

(** The first four lines of the [try] block of [calculate_duration], which
    compute [total_seconds]; [None] when one of them raises. *)
Definition elapsed_seconds (start_time end_time : string) : option Z :=
  match fromisoformat start_time with
  | None => None
  | Some start =>
      match fromisoformat end_time with
      | None => None
      | Some end_ =>
          match datetime_sub end_ start with
          | None => None
          | Some duration => Py.int (total_seconds duration)
          end
      end
  end.

(** The rest of the [try] block. *)
Definition format_duration (total_seconds : Z) : string :=
  let hours := (total_seconds / 3600)%Z in
  let minutes := ((total_seconds mod 3600) / 60)%Z in
  let seconds := (total_seconds mod 60)%Z in
  if (0 <? hours)%Z then
    Py.str_Z hours ++ "h " ++ Py.str_Z minutes ++ "m "
    ++ Py.str_Z seconds ++ "s"
  else if (0 <? minutes)%Z then
    Py.str_Z minutes ++ "m " ++ Py.str_Z seconds ++ "s"
  else Py.str_Z seconds ++ "s".

Definition calculate_duration (self : MeetingStore) : string :=
  match start_time self, end_time self with
  | Some st, Some en =>
      if negb (Py.truthy en) || negb (Py.truthy st) then "In progress"
      else
        match elapsed_seconds st en with
        | None => "Unknown"
        | Some total_seconds => format_duration total_seconds
        end
  | _, _ => "In progress"
  end.

(** [next_entry.get('answers_question') == i] *)
Definition answers (next_entry : Entry.t) (i : nat) : bool :=
  match Entry.answers_question next_entry with
  | Some k => (k =? i)%nat
  | None => false
  end.

(** The loop [for pid, pdata in self.participants.items()]; the accumulator
    is [(minutes['participants'], minutes['remote_participants'])]. *)
Definition participant_step (self : MeetingStore)
  (acc : list Minutes.participant_info * list Minutes.participant_info)
  (item : string * Profile.t)
  : list Minutes.participant_info * list Minutes.participant_info :=
  let '(local, remote) := acc in
  let '(pid, pdata) := item in
  let participant_info :=
    Minutes.mk_info (Profile.name pdata) (Profile.audio_source pdata)
      (length (filter (fun t => String.eqb (Entry.speaker_id t) pid)
                 (transcript self))) in
  if Profile.is_remote pdata then (local, (remote ++ [participant_info])%list)
  else ((local ++ [participant_info])%list, remote).

(** The loop [while j < len(self.transcript)] for the group opened at [i] by
    [entry]: [rest] is [self.transcript[j:]], [n] is [len(self.transcript)],
    [used] is the set [used_indices], read only through membership. *)
Fixpoint forward_scan (i : nat) (entry : Entry.t) (n j : nat)
  (rest : list Entry.t) (ans follow : list Minutes.ref) (used : list nat)
  : list Minutes.ref * list Minutes.ref * list nat :=
  match rest with
  | [] => (ans, follow, used)
  | next_entry :: rest' =>
      if answers next_entry i then
        forward_scan i entry n (j + 1) rest'
          (ans ++ [(j, next_entry)])%list follow (j :: used)
      else if Entry.kind_eqb (Entry.type next_entry) Entry.question
              && (j <? n - 1)%nat
      then
        if String.eqb (Entry.speaker_id next_entry) (Entry.speaker_id entry)
        then (ans, (follow ++ [(j, next_entry)])%list, j :: used)
        else (ans, follow, used)
      else (ans, follow, used)
  end.

(** The first loop [for i, entry in enumerate(self.transcript)]: [rest] is
    [self.transcript[i:]]. *)
Fixpoint qa_loop (n i : nat) (rest : list Entry.t)
  (qa_pairs : list Minutes.qa) (used : list nat)
  : list Minutes.qa * list nat :=
  match rest with
  | [] => (qa_pairs, used)
  | entry :: rest' =>
      if Entry.kind_eqb (Entry.type entry) Entry.question then
        let '(ans, follow, used) :=
          forward_scan i entry n (i + 1) rest' [] [] (i :: used) in
        qa_loop n (i + 1) rest'
          (qa_pairs ++ [Minutes.mk_qa (i, entry) ans follow])%list used
      else qa_loop n (i + 1) rest' qa_pairs used
  end.

Definition enumerate {A : Type} (l : list A) : list (nat * A) :=
  combine (seq 0 (length l)) l.

(** The second loop; the accumulator is
    [(decisions, action_items, key_discussion_points)]. *)
Definition bucket_step (used : list nat)
  (acc : list Minutes.ref * list Minutes.ref * list Minutes.ref)
  (item : nat * Entry.t)
  : list Minutes.ref * list Minutes.ref * list Minutes.ref :=
  let '(decisions, action_items, key_points) := acc in
  let '(i, entry) := item in
  if existsb (Nat.eqb i) used then acc
  else if Entry.is_decision entry
  then ((decisions ++ [item])%list, action_items, key_points)
  else if Entry.is_action_item entry
  then (decisions, (action_items ++ [item])%list, key_points)
  else if Entry.kind_eqb (Entry.type entry) Entry.statement
          && (50 <? Py.len (Entry.text entry))%nat
  then (decisions, action_items, (key_points ++ [item])%list)
  else acc.

(** [now] is the reading of [datetime.now().isoformat()]. *)
Definition get_minutes_structure (now : string) (self : MeetingStore)
  : Minutes.t :=
  let date :=
    match start_time self with
    | Some st => if Py.truthy st then st else now
    | None => now
    end in
  let '(local, remote) :=
    fold_left (participant_step self) (participants self) ([], []) in
  let '(qa_pairs, used_indices) :=
    qa_loop (length (transcript self)) 0 (transcript self) [] [] in
  let '(decisions, action_items, key_points) :=
    fold_left (bucket_step used_indices) (enumerate (transcript self))
      ([], [], []) in
  Minutes.mk (meeting_title self) date (meeting_type self)
    (calculate_duration self) local remote qa_pairs key_points decisions
    action_items (audio_sources self).

(** ** Sessions

    The operations that change a store: [add_utterance], and the two routes
    that record [start_time] and [end_time]. *)

Definition set_start_time (t : string) (self : MeetingStore) : MeetingStore :=
  mkStore (meeting_type self) (participants self) (speaker_counter self)
    (transcript self) (unanswered_questions self) (Some t) (end_time self)
    (meeting_title self) (audio_sources self).

Definition set_end_time (t : string) (self : MeetingStore) : MeetingStore :=
  mkStore (meeting_type self) (participants self) (speaker_counter self)
    (transcript self) (unanswered_questions self) (start_time self) (Some t)
    (meeting_title self) (audio_sources self).

(** The stores a session goes through, when every call of [add_utterance]
    is made in a world allowed by [ok]. *)
Inductive reachable_with (ok : World -> MeetingStore -> Prop)
  : MeetingStore -> Prop :=
| reach_init : forall meeting_type title_date,
    reachable_with ok (init meeting_type title_date)
| reach_start : forall self t,
    reachable_with ok self -> reachable_with ok (set_start_time t self)
| reach_stop : forall self t,
    reachable_with ok self -> reachable_with ok (set_end_time t self)
| reach_add : forall self w text voice_features audio_source self' entry,
    reachable_with ok self ->
    ok w self ->
    add_utterance w self text voice_features audio_source
    = Some (self', entry) ->
    reachable_with ok self'.

Definition reachable : MeetingStore -> Prop :=
  reachable_with (fun _ _ => True).

(** The identifier drawn from [uuid.uuid4()] is not one already in use. *)
Definition fresh_id (w : World) (self : MeetingStore) : Prop :=
  Py.dict_get (participants self) ("speaker_" ++ uuid_hex w) = None.

Definition reachable_fresh : MeetingStore -> Prop :=
  reachable_with fresh_id.

(** A list of calls of [add_utterance], from first to last. *)
Fixpoint run (self : MeetingStore)
  (calls : list (World * string * Features.t * string))
  : option MeetingStore :=
  match calls with
  | [] => Some self
  | (w, text, voice_features, audio_source) :: calls' =>
      match add_utterance w self text voice_features audio_source with
      | Some (self', _) => run self' calls'
      | None => None
      end
  end.

(** The store after a list of calls on a new physical session. *)
Definition session (calls : list (World * string * Features.t * string))
  : MeetingStore :=
  let start := init "physical" "2026-01-05 10:00" in
  match run start calls with
  | Some self => self
  | None => start
  end.

(** Every call of the list draws an identifier that is not in use. *)
Fixpoint all_fresh (self : MeetingStore)
  (calls : list (World * string * Features.t * string)) : Prop :=
  match calls with
  | [] => True
  | (w, text, voice_features, audio_source) :: calls' =>
      fresh_id w self
      /\ match add_utterance w self text voice_features audio_source with
         | Some (self', _) => all_fresh self' calls'
         | None => True
         end
  end.

(** ** Notions used in the statements *)

(** Some profile of the store scores under the threshold of the session. *)
Definition some_profile_matches (self : MeetingStore)
  (voice_features : Features.t) : Prop :=
  exists id data,
    In (id, data) (participants self)
    /\ Py.lt (score data voice_features) (threshold (meeting_type self))
       = true.

(** No key of [self.participants] is the empty string. *)
Definition ids_nonempty (self : MeetingStore) : Prop :=
  forall id data, In (id, data) (participants self) -> id <> EmptyString.

(** What the loop over the profiles has established once it has gone through
    [seen]: no profile seen that scores under the threshold scores under
    [best_score], which is the score of the profile selected, if any. *)
Definition search_inv (meeting_type : string) (voice_features : Features.t)
  (seen : list (string * Profile.t)) (acc : option string * float) : Prop :=
  let '(best_match, best_score) := acc in
  (forall id data, In (id, data) seen ->
     Py.lt (score data voice_features) (threshold meeting_type) = true ->
     Py.lt (score data voice_features) best_score = false)
  /\ match best_match with
     | None => best_score = Py.inf
     | Some id =>
         Py.lt best_score (threshold meeting_type) = true
         /\ exists data,
              In (id, data) seen /\ score data voice_features = best_score
     end.

(** The profile written by the branch taken on a match. *)
Definition smoothed (self : MeetingStore) (vf : Features.t) (id : string)
  (old : Profile.t) : Profile.t :=
  Profile.mk (Profile.name old)
    (0.3 * Py.get (Features.avg_pitch vf) 100
     + (1 - 0.3) * Profile.avg_pitch old)%float
    (0.3 * Py.get (Features.words_per_minute vf) 120
     + (1 - 0.3) * Profile.avg_pace old)%float
    (Profile.avg_energy old) (Profile.voice_id old)
    (Profile.audio_source old) (Profile.is_remote old)
    (length (filter (fun t => String.eqb (Entry.speaker_id t) id)
               (transcript self)) + 1)
    (Profile.first_seen old).

(** The entry at position [k] is a question carrying [question_id = k]. *)
Definition is_question_at (t : list Entry.t) (k : nat) : Prop :=
  exists q,
    nth_error t k = Some q
    /\ Entry.type q = Entry.question
    /\ Entry.question_id q = Some k.

(** Every answer points back to a question, and so does every pending
    record. *)
Definition threaded (self : MeetingStore) : Prop :=
  (forall j e k,
      nth_error (transcript self) j = Some e ->
      Entry.answers_question e = Some k ->
      (k < j)%nat /\ is_question_at (transcript self) k)
  /\ forall p, In p (unanswered_questions self) ->
       is_question_at (transcript self) (Pending.index p).

(** [len([t for t in self.transcript if t['speaker_id'] == id])] *)
Definition utterances_of (id : string) (t : list Entry.t) : nat :=
  length (filter (fun e => String.eqb (Entry.speaker_id e) id) t).

(** Each profile counts the entries of its speaker, each entry has the
    profile of its speaker, and no profile key is empty. *)
Definition counted (self : MeetingStore) : Prop :=
  (forall id p, Py.dict_get (participants self) id = Some p ->
     Profile.samples_count p = utterances_of id (transcript self))
  /\ (forall e, In e (transcript self) ->
        Py.dict_get (participants self) (Entry.speaker_id e) <> None)
  /\ ids_nonempty self.

(** The entries right after a question at [i] that answer it, up to the
    first entry that does not: [rest] is [self.transcript[j:]]. *)
Fixpoint answer_run (i j : nat) (rest : list Entry.t) : list Minutes.ref :=
  match rest with
  | [] => []
  | next_entry :: rest' =>
      if answers next_entry i
      then (j, next_entry) :: answer_run i (j + 1) rest'
      else []
  end.

(** The follow-up question recorded after that run, if any. *)
Fixpoint follow_up_after (i : nat) (entry : Entry.t) (n j : nat)
  (rest : list Entry.t) : list Minutes.ref :=
  match rest with
  | [] => []
  | next_entry :: rest' =>
      if answers next_entry i then follow_up_after i entry n (j + 1) rest'
      else if Entry.kind_eqb (Entry.type next_entry) Entry.question
              && (j <? n - 1)%nat
              && String.eqb (Entry.speaker_id next_entry)
                   (Entry.speaker_id entry)
      then [(j, next_entry)]
      else []
  end.

(** The groups opened over [rest = self.transcript[i:]]. *)
Fixpoint groups (n i : nat) (rest : list Entry.t) : list Minutes.qa :=
  match rest with
  | [] => []
  | entry :: rest' =>
      if Entry.kind_eqb (Entry.type entry) Entry.question
      then Minutes.mk_qa (i, entry) (answer_run i (i + 1) rest')
             (follow_up_after i entry n (i + 1) rest')
           :: groups n (i + 1) rest'
      else groups n (i + 1) rest'
  end.

(** Positions of the entries held by a Q&A group, and by each bucket. *)
Definition qa_indices (g : Minutes.qa) : list nat :=
  fst (Minutes.question g)
  :: (map fst (Minutes.answers g)
      ++ map fst (Minutes.follow_up_questions g))%list.

Definition qa_bucket (m : Minutes.t) : list nat :=
  flat_map qa_indices (Minutes.qa_pairs m).

Definition decision_bucket (m : Minutes.t) : list nat :=
  map fst (Minutes.decisions m).

Definition action_bucket (m : Minutes.t) : list nat :=
  map fst (Minutes.action_items m).

Definition discussion_bucket (m : Minutes.t) : list nat :=
  map fst (Minutes.key_discussion_points m).

(** What the second loop has established once it has gone through [seen]:
    where each collected entry comes from and which tests it passed. *)
Definition bucket_inv (used : list nat) (seen : list (nat * Entry.t))
  (acc : list Minutes.ref * list Minutes.ref * list Minutes.ref) : Prop :=
  let '(decisions, action_items, key_points) := acc in
  (forall ie, In ie decisions ->
     In ie seen /\ existsb (Nat.eqb (fst ie)) used = false
     /\ Entry.is_decision (snd ie) = true)
  /\ (forall ie, In ie action_items ->
        In ie seen /\ existsb (Nat.eqb (fst ie)) used = false
        /\ Entry.is_decision (snd ie) = false
        /\ Entry.is_action_item (snd ie) = true)
  /\ (forall ie, In ie key_points ->
        In ie seen /\ existsb (Nat.eqb (fst ie)) used = false
        /\ Entry.is_decision (snd ie) = false
        /\ Entry.is_action_item (snd ie) = false).

(** Positions of the entries of type [question]. *)
Definition question_indices (t : list Entry.t) : list nat :=
  map fst
    (filter (fun ie => Entry.kind_eqb (Entry.type (snd ie)) Entry.question)
       (enumerate t)).

(** The forward scan as the specification words it: collect every entry that
    answers [i], pass over the other entries that are not questions, stop at
    a question or at the end. *)
Fixpoint scan_as_specified (i j : nat) (rest : list Entry.t)
  : list Minutes.ref :=
  match rest with
  | [] => []
  | next_entry :: rest' =>
      if answers next_entry i
      then (j, next_entry) :: scan_as_specified i (j + 1) rest'
      else if Entry.kind_eqb (Entry.type next_entry) Entry.question then []
      else scan_as_specified i (j + 1) rest'
  end.

End Engine.

(** ** The routes

    The module-level dict [meetings] is an association list from meeting
    identifiers to stores, passed in and returned.  A route takes what it
    reads from the request (the body as [request.get_json()] finds it, the
    query argument) and returns a reply: the JSON payload, the status and
    the message of an error, or the exception that the handler
    [except Exception] of the route answers with status 500.

    A body is told apart as far as the routes do: no JSON at all, JSON that
    is no object, or an object; in an object the text and the voice features
    may hold a value of another type than the one the code relies on.  The
    other fields that are present have their types: [meeting_type],
    [audio_source] and [channel] are strings, and the three voice features
    are numbers. *)

(** The exceptions met in a [try] block of a route. *)
Inductive exn : Type :=
| HTTPException
| AttributeError
| TypeError
| KeyError.

Inductive reply (A : Type) : Type :=
| Ok (body : A)
| Error (status : nat) (error : string)
| Raised (e : exn).

Arguments Ok {A} body.
Arguments Error {A} status error.
Arguments Raised {A} e.

(** The status line of a reply. *)
Definition status_of {A : Type} (r : reply A) : nat :=
  match r with
  | Ok _ => 200
  | Error status _ => status
  | Raised _ => 500
  end.

Definition registry : Type := list (string * MeetingStore).

(** What [request.get_json()] does: it raises when the request does not
    announce JSON or its body does not parse; otherwise it returns the
    value, which is an object or not, and then true or false as a
    condition ([null], [false], [0], the empty string and the empty array
    are false). *)
Inductive request (A : Type) : Type :=
| no_json
| not_an_object (truthy : bool)
| object (fields : A).

Arguments no_json {A}.
Arguments not_an_object {A} truthy.
Arguments object {A} fields.

(** A key of an object whose value the code uses at one type. *)
Inductive field (A : Type) : Type :=
| absent
| other_type
| present (v : A).

Arguments absent {A}.
Arguments other_type {A}.
Arguments present {A} v.

(** [d.get(key, default)] on such a key, when the value has its type. *)
Definition field_get {A : Type} (f : field A) (default : A) : option A :=
  match f with
  | absent => Some default
  | other_type => None
  | present v => Some v
  end.

(** The object sent to the start route. *)
Record StartBody : Type := mkStartBody {
  start_meeting_type : option string
}.

(** The object sent to the audio route; [other_keys] tells whether it holds
    any key besides the four that are read. *)
Record AudioBody : Type := mkAudioBody {
  body_text : field string;
  body_voice_features : field Features.t;
  body_audio_source : option string;
  body_channel : option string;
  body_other_keys : bool
}.

(** [not data] for an object: it has no key. *)
Definition body_is_empty (d : AudioBody) : bool :=
  match body_text d, body_voice_features d, body_audio_source d,
        body_channel d with
  | absent, absent, None, None => negb (body_other_keys d)
  | _, _, _, _ => false
  end.

Record StartReply : Type := mkStartReply {
  started_id : string;
  started_type : string;
  started_status : string;
  started_timestamp : string;
  started_message : string
}.

Record AudioReply : Type := mkAudioReply {
  reply_entry : Entry.t;
  reply_speaker_count : nat;
  reply_audio_sources : list string
}.

Record StatusReply : Type := mkStatusReply {
  status_entries : list Entry.t;
  status_total_count : nat;
  status_participants : list (string * (string * bool * string));
  status_audio_sources : list string;
  status_is_active : bool;
  status_meeting_type : string;
  status_unanswered_questions : nat
}.

Record StopReply : Type := mkStopReply {
  stopped_status : string;
  stopped_duration : string
}.

Definition get_setup_message (meeting_type : string) : string :=
  Py.get
    (Py.dict_get
       [("physical",
         "Place your device centrally in the room. All voices will be captured via microphone.");
        ("online",
         "Share your meeting tab/window when prompted. System audio will be captured automatically.");
        ("hybrid",
         "Dual-mode active: Microphone captures room audio while screen share captures remote participants.")]
       meeting_type)
    "Meeting started.".

(** [l[recent:]]: a negative offset counts from the end. *)
Definition slice_from {A : Type} (l : list A) (recent : Z) : list A :=
  if (0 <=? recent)%Z then skipn (Z.to_nat recent) l
  else skipn (Z.to_nat (Z.max 0 (Z.of_nat (length l) + recent))) l.

Section Routes.

Context {regex : Regex} {iso : IsoParser}.

(** The part of [start_meeting] that follows [data = ... or {}]. *)
Definition register_meeting (uuid title_date now : string)
  (meetings : registry) (data : StartBody) : registry * reply StartReply :=
  let meeting_type := Py.get (start_meeting_type data) "physical" in
  let meeting_id := uuid in
  let meeting := set_start_time now (init meeting_type title_date) in
  (Py.dict_set meetings meeting_id meeting,
   Ok (mkStartReply meeting_id meeting_type "started" now
         (get_setup_message meeting_type))).

(** [start_meeting]: [uuid] is [str(uuid.uuid4())], [title_date] and [now]
    are the clock readings of [__init__] and of the route.  A value that is
    false is replaced by the empty object; on one that is true and is no
    object, [data.get] raises. *)
Definition start_meeting (uuid title_date now : string) (meetings : registry)
  (data : request StartBody) : registry * reply StartReply :=
  match data with
  | no_json => (meetings, Raised HTTPException)
  | not_an_object true => (meetings, Raised AttributeError)
  | not_an_object false =>
      register_meeting uuid title_date now meetings (mkStartBody None)
  | object data => register_meeting uuid title_date now meetings data
  end.

(** [receive_audio].  [text.strip()] raises on a text that is no string,
    and [voice_features['channel'] = channel] on voice features that are no
    object; the [KeyError] of [add_utterance] comes last. *)
Definition receive_audio (w : World) (meetings : registry)
  (meeting_id : string) (data : request AudioBody)
  : registry * reply AudioReply :=
  match Py.dict_get meetings meeting_id with
  | None => (meetings, Error 404 "Meeting not found")
  | Some meeting =>
      match data with
      | no_json => (meetings, Raised HTTPException)
      | not_an_object false => (meetings, Error 400 "No data provided")
      | not_an_object true => (meetings, Raised AttributeError)
      | object d =>
          if body_is_empty d then (meetings, Error 400 "No data provided")
          else
            match field_get (body_text d) EmptyString with
            | None => (meetings, Raised AttributeError)
            | Some text =>
                let text := Py.strip text in
                let voice_features :=
                  field_get (body_voice_features d)
                    (Features.mk (Some 100%float) (Some 120%float)
                       (Some 5000%float) None) in
                let audio_source :=
                  Py.get (body_audio_source d) "microphone" in
                let channel := Py.get (body_channel d) "mono" in
                if negb (Py.truthy text)
                then (meetings, Error 400 "No text provided")
                else
                  match voice_features with
                  | None => (meetings, Raised TypeError)
                  | Some voice_features =>
                      let voice_features :=
                        Features.mk (Features.avg_pitch voice_features)
                          (Features.words_per_minute voice_features)
                          (Features.energy voice_features) (Some channel) in
                      match add_utterance w meeting text voice_features
                              audio_source with
                      | None => (meetings, Raised KeyError)
                      | Some (meeting, entry) =>
                          (Py.dict_set meetings meeting_id meeting,
                           Ok (mkAudioReply entry
                                 (length (participants meeting))
                                 (audio_sources meeting)))
                      end
                  end
            end
      end
  end.

(** [get_status]: [since] is the query argument, absent when it is missing
    or is not an integer. *)
Definition get_status (meetings : registry) (meeting_id : string)
  (since : option Z) : reply StatusReply :=
  match Py.dict_get meetings meeting_id with
  | None => Error 404 "Meeting not found"
  | Some meeting =>
      let recent := Py.get since 0%Z in
      let new_entries := slice_from (transcript meeting) recent in
      Ok (mkStatusReply new_entries (length (transcript meeting))
            (map (fun kv =>
                    (fst kv,
                     (Profile.name (snd kv), Profile.is_remote (snd kv),
                      Profile.audio_source (snd kv))))
               (participants meeting))
            (audio_sources meeting)
            (match end_time meeting with None => true | Some _ => false end)
            (meeting_type meeting)
            (length (unanswered_questions meeting)))
  end.

Definition stop_meeting (now : string) (meetings : registry)
  (meeting_id : string) : registry * reply StopReply :=
  match Py.dict_get meetings meeting_id with
  | None => (meetings, Error 404 "Meeting not found")
  | Some meeting =>
      let meeting := set_end_time now meeting in
      (Py.dict_set meetings meeting_id meeting,
       Ok (mkStopReply "stopped" (calculate_duration meeting)))
  end.

(** The registries the routes produce, the clock never reading as the
    empty string. *)
Inductive served : registry -> Prop :=
| served_nothing : served []
| served_start : forall uuid title_date now meetings data,
    served meetings ->
    now <> EmptyString ->
    served (fst (start_meeting uuid title_date now meetings data))
| served_audio : forall w meetings meeting_id data,
    served meetings ->
    served (fst (receive_audio w meetings meeting_id data))
| served_stop : forall now meetings meeting_id,
    served meetings ->
    now <> EmptyString ->
    served (fst (stop_meeting now meetings meeting_id)).

End Routes.

(** What the routes keep true of every meeting: it is a session of the
    engine, its start timestamp is recorded, and every text it holds is
    stripped and not empty. *)
Definition well_served {regex : Regex} (meeting : MeetingStore) : Prop :=
  reachable meeting
  /\ (exists st, start_time meeting = Some st /\ st <> EmptyString)
  /\ forall e, In e (transcript meeting) ->
       Entry.text e <> EmptyString
       /\ Py.strip (Entry.text e) = Entry.text e.

(** Sample requests: a meeting started under the identifier [m-1] by a
    request with an empty object, then one utterance sent to it. *)
Definition started : registry :=
  fst (start_meeting "m-1" "2026-01-05 10:00" "2026-01-05T10:00:00" []
         (object (mkStartBody None))).

Definition ship_it : AudioBody :=
  mkAudioBody (present "  Ship it?  ") absent None None false.

Definition fed : registry :=
  fst (receive_audio (regex := no_match) (sample_world "0a1b2c3d") started
         "m-1" (object ship_it)).

(** One decision, by one speaker. *)
Definition decision_calls : list (World * string * Features.t * string) :=
  [(sample_world "0a1b2c3d", "We decided to launch next Monday",
    voice 100 120 5000, "microphone")].

(** ** Further invariants of a session *)

(** The base entry built by [add_utterance] before classification. *)
Definition base_entry (w : World) (speaker_id : string)
  (speaker_data : Profile.t) (text : string) (voice_features : Features.t)
  (audio_source : string) : Entry.t :=
  Entry.mk (now_timestamp w) speaker_id (Profile.name speaker_data) text
    Entry.statement audio_source (Profile.is_remote speaker_data)
    (Features.avg_pitch voice_features,
     Features.words_per_minute voice_features,
     Features.energy voice_features)
    None None false false None.

(** The entry at position [i] carries [question_id], equal to [i], exactly
    when it is a question, and [answers_question] exactly when it is an
    answer. *)
Definition typed_at (i : nat) (e : Entry.t) : Prop :=
  match Entry.type e with
  | Entry.question =>
      Entry.question_id e = Some i /\ Entry.answers_question e = None
  | Entry.answer =>
      Entry.question_id e = None
      /\ exists k, Entry.answers_question e = Some k
  | Entry.statement =>
      Entry.question_id e = None /\ Entry.answers_question e = None
  end.

Definition well_typed (self : MeetingStore) : Prop :=
  forall i e, nth_error (transcript self) i = Some e -> typed_at i e.

(** The pending records are in increasing order of index, and each points
    to a question asked by the speaker it records. *)
Definition stack_ordered (self : MeetingStore) : Prop :=
  StronglySorted lt (map Pending.index (unanswered_questions self))
  /\ forall p, In p (unanswered_questions self) ->
       exists q,
         nth_error (transcript self) (Pending.index p) = Some q
         /\ Entry.type q = Entry.question
         /\ Entry.speaker_id q = Pending.speaker p.

(** [self.audio_sources] holds, once each, the sources of the entries. *)
Definition sources_recorded (self : MeetingStore) : Prop :=
  NoDup (audio_sources self)
  /\ forall src,
       In src (audio_sources self)
       <-> exists e, In e (transcript self) /\ Entry.audio_source e = src.

(** The profiles are numbered in order of creation, under distinct keys. *)
Definition profiles_numbered (self : MeetingStore) : Prop :=
  speaker_counter self = length (participants self)
  /\ NoDup (map fst (participants self))
  /\ forall i id p,
       nth_error (participants self) i = Some (id, p) ->
       Profile.name p
       = "Participant " ++ Py.str_nat (i + 1)
         ++ (if Profile.is_remote p then " (Remote)" else EmptyString)
       /\ Profile.voice_id p = id
       /\ Profile.is_remote p
          = Py.str_in (Profile.audio_source p) remote_sources.

(** Each entry repeats the name and the remote flag of its speaker's
    profile. *)
Definition entries_denormalised (self : MeetingStore) : Prop :=
  forall e, In e (transcript self) ->
    exists p,
      Py.dict_get (participants self) (Entry.speaker_id e) = Some p
      /\ Profile.name p = Entry.speaker_name e
      /\ Profile.is_remote p = Entry.is_remote e.

(** The sum of the contribution counts of a list of participants. *)
Definition total_speaking_time (l : list Minutes.participant_info) : nat :=
  list_sum (map Minutes.speaking_time l).

(** The profile stored by the branch that creates a speaker. *)
Definition created_profile (w : World) (self : MeetingStore)
  (voice_features : Features.t) (audio_source : string) : Profile.t :=
  Profile.mk
    ("Participant " ++ Py.str_nat (speaker_counter self + 1)
     ++ (if Py.str_in audio_source remote_sources
         then " (Remote)" else EmptyString))
    (Py.get (Features.avg_pitch voice_features) 100%float)
    (Py.get (Features.words_per_minute voice_features) 120%float)
    (Py.get (Features.energy voice_features) 5000%float)
    ("speaker_" ++ uuid_hex w) audio_source
    (Py.str_in audio_source remote_sources) 1 (now_first_seen w).

(** The entry of [minutes['participants']] or
    [minutes['remote_participants']] made for one profile. *)
Definition participant_info_of (self : MeetingStore)
  (item : string * Profile.t) : Minutes.participant_info :=
  Minutes.mk_info (Profile.name (snd item)) (Profile.audio_source (snd item))
    (utterances_of (fst item) (transcript self)).

(** The tests of the second loop of [get_minutes_structure], one per
    bucket, for an enumerated entry. *)
Definition goes_to_decisions (used : list nat) (ie : nat * Entry.t) : bool :=
  negb (existsb (Nat.eqb (fst ie)) used) && Entry.is_decision (snd ie).

Definition goes_to_action_items (used : list nat) (ie : nat * Entry.t)
  : bool :=
  negb (existsb (Nat.eqb (fst ie)) used)
  && negb (Entry.is_decision (snd ie))
  && Entry.is_action_item (snd ie).

Definition goes_to_key_points (used : list nat) (ie : nat * Entry.t)
  : bool :=
  negb (existsb (Nat.eqb (fst ie)) used)
  && negb (Entry.is_decision (snd ie))
  && negb (Entry.is_action_item (snd ie))
  && (Entry.kind_eqb (Entry.type (snd ie)) Entry.statement
      && (50 <? Py.len (Entry.text (snd ie)))%nat).

(** A list of characters that does not start with whitespace. *)
Definition headed (l : list ascii) : Prop :=
  match l with
  | [] => True
  | c :: _ => Py.isspace c = false
  end.

(** Each answer either opens with one of the answer starters, or comes at
    most four entries after its question, from another speaker than the
    question's, and does not end with a question mark. *)
Definition answers_justified (self : MeetingStore) : Prop :=
  forall k e i,
    nth_error (transcript self) k = Some e ->
    Entry.answers_question e = Some i ->
    existsb (fun starter => Py.startswith (Py.lower (Entry.text e)) starter)
      answer_starters = true
    \/ ((k - i <= 4)%nat
        /\ Py.endswith (Entry.text e) "?" = false
        /\ exists q,
             nth_error (transcript self) i = Some q
             /\ Entry.speaker_id q <> Entry.speaker_id e).

(** A word: a string that is not empty and holds no whitespace. *)
Definition is_word (s : string) : Prop :=
  s <> EmptyString
  /\ Forall (fun c => Py.isspace c = false) (list_ascii_of_string s).

(** What may follow a word: nothing, or text that starts with whitespace. *)
Definition word_end (tail : string) : Prop :=
  match tail with
  | EmptyString => True
  | String c _ => Py.isspace c = true
  end.

(** The entries [generate_pdf] prints under its additional discussion:
    [[e for e in meeting.transcript if e['type'] == 'statement' and
    len(e['text']) > 30 and not e.get('is_decision') and not
    e.get('is_action_item')]]. *)
Definition other_entries (meeting : MeetingStore) : list Entry.t :=
  filter
    (fun e =>
       Entry.kind_eqb (Entry.type e) Entry.statement
       && (30 <? Py.len (Entry.text e))%nat
       && negb (Entry.is_decision e)
       && negb (Entry.is_action_item e))
    (transcript meeting).

(** One long remark, with no marker of a question, a decision or an action
    item. *)
Definition long_remark_calls : list (World * string * Features.t * string) :=
  [(sample_world "0a1b2c3d",
    "The vendor contract still needs a review from the legal team",
    voice 100 120 5000, "microphone")].

(** ** Facts about the built-ins, the profiles and the loops *)

(** The order of the floats, from the specification of [<]: it is
    transitive and irreflexive, also on infinities and next to a NaN. *)
Lemma SFltb_trans (x y z : spec_float) :
  SFltb x y = true -> SFltb y z = true -> SFltb x z = true.
Proof.
  unfold SFltb, SFcompare.
  destruct x as [sx|sx| |sx mx ex], y as [sy|sy| |sy my ey],
    z as [sz|sz| |sz mz ez];
    repeat match goal with s : bool |- _ => destruct s end;
    try discriminate; try reflexivity;
    rewrite ?Pos.compare_cont_spec; cbn [Pos.switch_Eq];
    destruct (Z.compare_spec ex ey), (Z.compare_spec ey ez),
      (Z.compare_spec ex ez);
    destruct (Pos.compare_spec mx my), (Pos.compare_spec my mz),
      (Pos.compare_spec mx mz);
    simpl; try discriminate; try reflexivity; intros; exfalso; lia.
Qed.

Lemma SFltb_irrefl (x : spec_float) : SFltb x x = false.
Proof.
  unfold SFltb, SFcompare.
  destruct x as [s|s| |s m e]; try destruct s; try reflexivity;
    rewrite Z.compare_refl, Pos.compare_cont_spec, Pos.compare_refl;
    reflexivity.
Qed.

Lemma lt_trans (x y z : float) :
  Py.lt x y = true -> Py.lt y z = true -> Py.lt x z = true.
Proof. unfold Py.lt. rewrite !ltb_spec. apply SFltb_trans. Qed.

Lemma lt_irrefl (x : float) : Py.lt x x = false.
Proof. unfold Py.lt. rewrite ltb_spec. apply SFltb_irrefl. Qed.

(** A score under the threshold is under [float('inf')]. *)
Lemma lt_threshold_inf mt (x : float) :
  Py.lt x (threshold mt) = true -> Py.lt x Py.inf = true.
Proof.
  intros H. apply (lt_trans _ _ _ H). unfold threshold.
  destruct (String.eqb mt "hybrid"); reflexivity.
Qed.

(** No score is both under [y] and not under something above [y]. *)
Lemma lt_false_trans (x y z : float) :
  Py.lt x z = false -> Py.lt y z = true -> Py.lt x y = false.
Proof.
  intros Hxz Hyz. destruct (Py.lt x y) eqn:E; [|reflexivity].
  rewrite (lt_trans _ _ _ E Hyz) in Hxz. discriminate.
Qed.

Lemma dict_get_set {V : Type} (d : list (string * V)) (k k' : string)
  (v : V) :
  Py.dict_get (Py.dict_set d k v) k'
  = if String.eqb k k' then Some v else Py.dict_get d k'.
Proof.
  induction d as [|[k0 v0] d IH]; simpl.
  - reflexivity.
  - destruct (String.eqb k0 k) eqn:E0; simpl.
    + apply String.eqb_eq in E0. subst k0.
      destruct (String.eqb k k'); reflexivity.
    + rewrite IH. destruct (String.eqb k0 k') eqn:E1; [|reflexivity].
      apply String.eqb_eq in E1. subst k0. rewrite String.eqb_sym, E0.
      reflexivity.
Qed.

Lemma dict_get_In {V : Type} (d : list (string * V)) (k : string) (v : V) :
  Py.dict_get d k = Some v -> In (k, v) d.
Proof.
  induction d as [|[k0 v0] d IH]; simpl; [discriminate|].
  destruct (String.eqb k0 k) eqn:E.
  - apply String.eqb_eq in E. intros [= ->]. left. now subst.
  - intros H. right. auto.
Qed.

Lemma In_dict_get {V : Type} (d : list (string * V)) (k : string) (v : V) :
  In (k, v) d -> exists v', Py.dict_get d k = Some v'.
Proof.
  induction d as [|[k0 v0] d IH]; simpl; [tauto|].
  intros [H|H].
  - inversion H; subst. rewrite String.eqb_refl. eauto.
  - destruct (String.eqb k0 k); eauto.
Qed.

Lemma append_empty_r (s : string) : s ++ EmptyString = s.
Proof. induction s as [|c s IH]; simpl; [reflexivity|now rewrite IH]. Qed.

Lemma truthy_nonempty (s : string) : s <> EmptyString -> Py.truthy s = true.
Proof. destruct s; [congruence|reflexivity]. Qed.

Lemma search_step_inv mt vf seen acc item :
  search_inv mt vf seen acc ->
  search_inv mt vf (seen ++ [item]) (search_step mt vf acc item).
Proof.
  destruct acc as [bm bs], item as [id data]. unfold search_step.
  intros (Hmin & Hbest).
  destruct (Py.lt (score data vf) (threshold mt)) eqn:Ethr; simpl.
  - destruct (Py.lt (score data vf) bs) eqn:Ebest; simpl.
    + split.
      * intros id' data' Hin Hthr. apply in_app_or in Hin.
        destruct Hin as [Hin|[Hin|[]]].
        -- exact (lt_false_trans _ _ _ (Hmin _ _ Hin Hthr) Ebest).
        -- inversion Hin; subst. apply lt_irrefl.
      * split; [exact Ethr|]. exists data. split; [|reflexivity].
        apply in_or_app. right. now left.
    + split.
      * intros id' data' Hin Hthr. apply in_app_or in Hin.
        destruct Hin as [Hin|[Hin|[]]]; [eauto|].
        inversion Hin; subst. exact Ebest.
      * destruct bm as [b|]; [|exact Hbest].
        destruct Hbest as (Hlt & d & Hd & Hs). split; [exact Hlt|].
        exists d. split; [|exact Hs]. apply in_or_app. now left.
  - split.
    + intros id' data' Hin Hthr. apply in_app_or in Hin.
      destruct Hin as [Hin|[Hin|[]]]; [eauto|].
      inversion Hin; subst. congruence.
    + destruct bm as [b|]; [|exact Hbest].
      destruct Hbest as (Hlt & d & Hd & Hs). split; [exact Hlt|].
      exists d. split; [|exact Hs]. apply in_or_app. now left.
Qed.

Lemma search_fold_inv mt vf items : forall seen acc,
  search_inv mt vf seen acc ->
  search_inv mt vf (seen ++ items)
    (fold_left (search_step mt vf) items acc).
Proof.
  induction items as [|item items IH]; intros seen acc Hinv; simpl.
  - now rewrite app_nil_r.
  - replace (seen ++ item :: items)%list
      with ((seen ++ [item]) ++ items)%list
      by (rewrite <- app_assoc; reflexivity).
    apply IH. now apply search_step_inv.
Qed.

Lemma search_correct mt vf items :
  search_inv mt vf items (search mt vf items).
Proof.
  unfold search. apply (search_fold_inv mt vf items [] (None, Py.inf)).
  simpl. split; [intros ? ? []|reflexivity].
Qed.

Lemma dict_set_keys {V : Type} (d : list (string * V)) (k : string)
  (v v' : V) :
  Py.dict_get d k = Some v -> map fst (Py.dict_set d k v') = map fst d.
Proof.
  induction d as [|[k0 v0] d IH]; simpl; [discriminate|].
  destruct (String.eqb k0 k) eqn:E; simpl.
  - apply String.eqb_eq in E. now subst.
  - intros H. now rewrite IH.
Qed.

(** The two outcomes of [get_or_create_speaker]. *)
Lemma resolve_cases w self vf src :
  (exists id, fst (search (meeting_type self) vf (participants self))
              = Some id
              /\ id <> EmptyString
              /\ get_or_create_speaker w self vf src
                 = update_speaker self vf id)
  \/ ((fst (search (meeting_type self) vf (participants self)) = None
       \/ fst (search (meeting_type self) vf (participants self)) = Some EmptyString)
      /\ get_or_create_speaker w self vf src
         = Some (create_speaker w self vf src)).
Proof.
  unfold get_or_create_speaker.
  destruct (search (meeting_type self) vf (participants self))
    as [[id|] bs]; simpl.
  - destruct id as [|c id'].
    + right. split; [now right|reflexivity].
    + left. exists (String c id'). repeat split. discriminate.
  - right. split; [now left|reflexivity].
Qed.

(** When the loop selects [id], it is the key of a profile under the
    threshold, and no profile scores under it. *)
Lemma search_some mt vf items id :
  fst (search mt vf items) = Some id ->
  exists data,
    In (id, data) items
    /\ Py.lt (score data vf) (threshold mt) = true
    /\ forall id' data', In (id', data') items ->
         Py.lt (score data' vf) (score data vf) = false.
Proof.
  intros H. pose proof (search_correct mt vf items) as Hinv.
  destruct (search mt vf items) as [bm bs]. simpl in H. subst bm.
  destruct Hinv as (Hmin & Hlt & data & Hin & Hsc). subst bs.
  exists data. split; [exact Hin|]. split; [exact Hlt|].
  intros id' data' Hin'.
  destruct (Py.lt (score data' vf) (threshold mt)) eqn:E; [eauto|].
  exact (lt_false_trans _ _ _ E Hlt).
Qed.

(** When it selects none, no profile scores under the threshold. *)
Lemma search_none mt vf items :
  fst (search mt vf items) = None ->
  forall id data, In (id, data) items ->
    Py.lt (score data vf) (threshold mt) = false.
Proof.
  intros H. pose proof (search_correct mt vf items) as Hinv.
  destruct (search mt vf items) as [bm bs]. simpl in H. subst bm.
  destruct Hinv as (Hmin & ->). intros id data Hin.
  destruct (Py.lt (score data vf) (threshold mt)) eqn:E; [|reflexivity].
  specialize (Hmin _ _ Hin E). rewrite (lt_threshold_inf _ _ E) in Hmin.
  discriminate.
Qed.

Lemma update_speaker_eq self vf id old :
  Py.dict_get (participants self) id = Some old ->
  update_speaker self vf id
  = Some (set_participants
            (Py.dict_set (participants self) id (smoothed self vf id old))
            self, id).
Proof.
  intros H. unfold update_speaker. rewrite H. reflexivity.
Qed.

(** On a store without an empty key, a profile under the threshold leads to
    the branch that updates the selected profile. *)
Lemma resolve_match w self vf src :
  ids_nonempty self ->
  some_profile_matches self vf ->
  exists id data old,
    In (id, data) (participants self)
    /\ Py.lt (score data vf) (threshold (meeting_type self)) = true
    /\ (forall id' data', In (id', data') (participants self) ->
          Py.lt (score data' vf) (score data vf) = false)
    /\ Py.dict_get (participants self) id = Some old
    /\ get_or_create_speaker w self vf src
       = Some (set_participants
                 (Py.dict_set (participants self) id
                    (smoothed self vf id old)) self, id).
Proof.
  intros Hids (id0 & d0 & Hin0 & Hlt0).
  destruct (resolve_cases w self vf src)
    as [(id & Hs & Hne & Heq)|([Hs|Hs] & Heq)].
  - destruct (search_some _ _ _ _ Hs) as (data & Hin & Hlt & Hmin).
    destruct (In_dict_get _ _ _ Hin) as (old & Hold).
    exists id, data, old. repeat split; auto.
    rewrite Heq. now apply update_speaker_eq.
  - exfalso. pose proof (search_none _ _ _ Hs _ _ Hin0) as Hge.
    congruence.
  - exfalso. destruct (search_some _ _ _ _ Hs) as (data & Hin & _).
    exact (Hids _ _ Hin eq_refl).
Qed.

Lemma resolve_create w self vf src :
  ~ some_profile_matches self vf ->
  get_or_create_speaker w self vf src
  = Some (create_speaker w self vf src).
Proof.
  intros Hno.
  destruct (resolve_cases w self vf src)
    as [(id & Hs & Hne & Heq)|(_ & Heq)]; [|exact Heq].
  exfalso. apply Hno.
  destruct (search_some _ _ _ _ Hs) as (data & Hin & Hlt & _).
  now exists id, data.
Qed.

(** [get_or_create_speaker] raises no [KeyError]. *)
Lemma get_or_create_speaker_total w self vf src :
  exists self' id, get_or_create_speaker w self vf src = Some (self', id).
Proof.
  destruct (resolve_cases w self vf src)
    as [(id & Hs & Hne & Heq)|(_ & Heq)].
  - destruct (search_some _ _ _ _ Hs) as (data & Hin & _).
    destruct (In_dict_get _ _ _ Hin) as (old & Hold).
    rewrite Heq, (update_speaker_eq _ _ _ _ Hold). eauto.
  - rewrite Heq. destruct (create_speaker w self vf src). eauto.
Qed.

(** C1.  On a store whose profile keys are non-empty: the score of a profile
    against a complete feature vector is, in binary64 arithmetic,
    |pitch diff|*0.5 + (|pace diff|/10)*0.3 + (|energy diff|/50)*0.2; the
    threshold is 20 for physical and online sessions and 25 for hybrid ones;
    when some profile scores strictly under the threshold, the id returned is
    that of a profile under the threshold that no profile scores under, and
    no profile is created; otherwise a profile is created under the new id,
    named "Participant {counter}" with the suffix " (Remote)" exactly when
    the audio source is tab_audio, system_audio or screen_share, and the new
    id is returned. *)
Theorem get_or_create_speaker_resolves w self vf src :
  ids_nonempty self ->
  (forall data p c e ch,
      score data (Features.mk (Some p) (Some c) (Some e) ch)
      = (abs (Profile.avg_pitch data - p) * 0.5
         + abs (Profile.avg_pace data - c) / 10 * 0.3
         + abs (Profile.avg_energy data - e) / 50 * 0.2)%float)
  /\ threshold "physical" = 20%float
  /\ threshold "online" = 20%float
  /\ threshold "hybrid" = 25%float
  /\ (some_profile_matches self vf ->
      exists self' id data,
        get_or_create_speaker w self vf src = Some (self', id)
        /\ In (id, data) (participants self)
        /\ Py.lt (score data vf) (threshold (meeting_type self)) = true
        /\ (forall id' data', In (id', data') (participants self) ->
              Py.lt (score data' vf) (score data vf) = false)
        /\ speaker_counter self' = speaker_counter self
        /\ map fst (participants self') = map fst (participants self))
  /\ (~ some_profile_matches self vf ->
      exists self' data,
        get_or_create_speaker w self vf src
        = Some (self', "speaker_" ++ uuid_hex w)
        /\ speaker_counter self' = (speaker_counter self + 1)%nat
        /\ Py.dict_get (participants self') ("speaker_" ++ uuid_hex w)
           = Some data
        /\ (src = "tab_audio" \/ src = "system_audio"
            \/ src = "screen_share" ->
            Profile.name data
            = "Participant " ++ Py.str_nat (speaker_counter self')
              ++ " (Remote)")
        /\ (~ (src = "tab_audio" \/ src = "system_audio"
               \/ src = "screen_share") ->
            Profile.name data
            = "Participant " ++ Py.str_nat (speaker_counter self'))).
Proof.
  intros Hids. split; [|split; [|split; [|split; [|split]]]];
    try reflexivity.
  - intros Hm.
    destruct (resolve_match w self vf src Hids Hm)
      as (id & data & old & Hin & Hlt & Hmin & Hold & Heq).
    eexists _, id, data. split; [exact Heq|].
    repeat split; auto. simpl. now apply dict_set_keys with (v := old).
  - intros Hno. rewrite (resolve_create w self vf src Hno).
    unfold create_speaker. simpl. eexists _, _. split; [reflexivity|].
    split; [reflexivity|]. simpl. rewrite dict_get_set, String.eqb_refl.
    split; [reflexivity|]. simpl. unfold Py.str_in, remote_sources. simpl.
    split.
    + intros [-> | [-> | ->]]; reflexivity.
    + intros Hn.
      destruct (String.eqb src "tab_audio") eqn:E1;
        [apply String.eqb_eq in E1; tauto|].
      destruct (String.eqb src "system_audio") eqn:E2;
        [apply String.eqb_eq in E2; tauto|].
      destruct (String.eqb src "screen_share") eqn:E3;
        [apply String.eqb_eq in E3; tauto|].
      simpl. now rewrite append_empty_r.
Qed.

(** Speaker resolution touches the profiles and the counter only. *)
Lemma resolve_frame w self vf src self1 sid :
  get_or_create_speaker w self vf src = Some (self1, sid) ->
  transcript self1 = transcript self
  /\ unanswered_questions self1 = unanswered_questions self
  /\ meeting_type self1 = meeting_type self
  /\ start_time self1 = start_time self
  /\ end_time self1 = end_time self.
Proof.
  destruct (resolve_cases w self vf src)
    as [(id & Hs & Hne & Heq)|(_ & Heq)]; rewrite Heq.
  - unfold update_speaker.
    destruct (Py.dict_get (participants self) id); [|discriminate].
    intros [= <- <-]. repeat split.
  - unfold create_speaker. intros [= <- <-]. repeat split.
Qed.

(** The speaker returned has a profile in the store returned. *)
Lemma resolve_profile w self vf src self1 sid :
  get_or_create_speaker w self vf src = Some (self1, sid) ->
  exists data, Py.dict_get (participants self1) sid = Some data.
Proof.
  destruct (resolve_cases w self vf src)
    as [(id & Hs & Hne & Heq)|(_ & Heq)]; rewrite Heq.
  - unfold update_speaker.
    destruct (Py.dict_get (participants self) id); [|discriminate].
    intros [= <- <-]. simpl. rewrite dict_get_set, String.eqb_refl. eauto.
  - unfold create_speaker. intros [= <- <-]. simpl.
    rewrite dict_get_set, String.eqb_refl. eauto.
Qed.

Lemma endswith_qmark (s : string) :
  Py.endswith s "?" = true
  <-> exists r, rev (list_ascii_of_string s) = "?"%char :: r.
Proof.
  unfold Py.endswith.
  destruct (rev (list_ascii_of_string s)) as [|c r]; cbn -[ascii_dec].
  - split; [discriminate|]. intros (r & H). discriminate.
  - destruct (ascii_dec "?" c) as [<-|Hne].
    + split; [eauto|]. intros _. now destruct (string_of_list_ascii r).
    + split; [discriminate|]. intros (r' & [= H _]). congruence.
Qed.

Lemma drop_space_last (l : list ascii) (x : ascii) :
  Py.isspace x = false ->
  exists m, Py.drop_space (l ++ [x]) = (m ++ [x])%list.
Proof.
  intros Hx. induction l as [|c l IH]; simpl.
  - rewrite Hx. now exists [].
  - destruct (Py.isspace c); [exact IH|]. now exists (c :: l).
Qed.

(** Stripping a text that ends with a question mark leaves one that does. *)
Lemma strip_keeps_qmark (text : string) :
  Py.endswith text "?" = true -> Py.endswith (Py.strip text) "?" = true.
Proof.
  rewrite !endswith_qmark. intros (r & Hr). unfold Py.strip.
  rewrite list_ascii_of_string_of_list_ascii, rev_involutive.
  assert (Hl : list_ascii_of_string text = (rev r ++ ["?"%char])%list).
  { rewrite <- (rev_involutive (list_ascii_of_string text)), Hr.
    reflexivity. }
  rewrite Hl.
  destruct (drop_space_last (rev r) "?"%char eq_refl) as (m & Hm).
  rewrite Hm, rev_app_distr. simpl. eauto.
Qed.

Lemma last_item_app {A : Type} (l : list A) (x : A) :
  Py.last_item (l ++ [x]) = Some x.
Proof.
  induction l as [|a l IH]; [reflexivity|].
  simpl. rewrite IH. now destruct (l ++ [x])%list eqn:E;
    [destruct l; discriminate|].
Qed.

Lemma is_answer_to_spec q index sid text :
  is_answer_to q index sid text = true
  <-> (((Z.of_nat index - Z.of_nat (Pending.index q) <= 4)%Z
        /\ sid <> Pending.speaker q
        /\ Py.endswith text "?" = false)
       \/ exists starter,
            In starter answer_starters
            /\ Py.startswith (Py.lower text) starter = true).
Proof.
  unfold is_answer_to.
  destruct (existsb _ answer_starters) eqn:E.
  - apply existsb_exists in E. split; [now right|reflexivity].
  - rewrite !andb_true_iff, !negb_true_iff, Z.leb_le, String.eqb_neq.
    split.
    + intros [[H1 H2] H3]. left. repeat split; auto.
    + intros [(H1 & H2 & H3)|Hs].
      * repeat split; auto.
      * assert (X : existsb
                      (fun starter => Py.startswith (Py.lower text) starter)
                      answer_starters = true)
          by (apply existsb_exists; exact Hs).
        rewrite X in E. discriminate.
Qed.

Lemma pops_spec q index text :
  pops q index text = true
  <-> ((Z.of_nat index - Z.of_nat (Pending.index q) >= 2)%Z
       \/ Py.endswith text "." = true
       \/ (Py.len text > 100)%nat).
Proof.
  unfold pops. rewrite !orb_true_iff, Z.leb_le, Nat.ltb_lt.
  intuition lia.
Qed.

Lemma app_last_neq {A : Type} (l : list A) (x : A) : (l ++ [x])%list <> l.
Proof.
  intros H. apply (f_equal (@length A)) in H.
  rewrite length_app in H. simpl in H. lia.
Qed.

Lemma is_question_at_app t e k :
  is_question_at t k -> is_question_at (t ++ [e]) k.
Proof.
  intros (q & Hq & Hty & Hid). exists q. repeat split; auto.
  rewrite nth_error_app1; [exact Hq|].
  apply nth_error_Some. congruence.
Qed.

Lemma is_question_at_lt t k : is_question_at t k -> (k < length t)%nat.
Proof.
  intros (q & Hq & _). apply nth_error_Some. congruence.
Qed.

Lemma In_removelast {A : Type} (l : list A) (x : A) :
  In x (removelast l) -> In x l.
Proof.
  induction l as [|a l IH]; simpl; [tauto|].
  destruct l as [|b l]; [tauto|]. intros [H|H]; [now left|right; auto].
Qed.

Lemma last_item_In {A : Type} (l : list A) (x : A) :
  Py.last_item l = Some x -> In x l.
Proof.
  induction l as [|a l IH]; simpl; [discriminate|].
  destruct l as [|b l]; [intros [= ->]; now left|]. intros H. right. auto.
Qed.

Lemma utterances_of_app id t e :
  utterances_of id (t ++ [e])
  = (utterances_of id t
     + if String.eqb (Entry.speaker_id e) id then 1 else 0)%nat.
Proof.
  unfold utterances_of. rewrite filter_app, length_app. simpl.
  now destruct (String.eqb (Entry.speaker_id e) id).
Qed.

Lemma utterances_of_unknown (ps : list (string * Profile.t)) id t :
  (forall e, In e t -> Py.dict_get ps (Entry.speaker_id e) <> None) ->
  Py.dict_get ps id = None ->
  utterances_of id t = 0%nat.
Proof.
  intros Hall Hnone. unfold utterances_of.
  induction t as [|e t IH]; [reflexivity|]. simpl.
  destruct (String.eqb (Entry.speaker_id e) id) eqn:E.
  - apply String.eqb_eq in E. exfalso.
    apply (Hall e (or_introl eq_refl)). now rewrite E.
  - apply IH. intros e' He'. apply Hall. now right.
Qed.

Lemma In_dict_set {V : Type} (d : list (string * V)) (k k' : string)
  (v v' : V) :
  In (k', v') (Py.dict_set d k v) -> k' = k \/ In (k', v') d.
Proof.
  induction d as [|[k0 v0] d IH]; simpl.
  - intros [[= <- <-]|[]]. now left.
  - destruct (String.eqb k0 k); simpl.
    + intros [[= <- <-]|H]; [now left|right; now right].
    + intros [H|H]; [right; now left|].
      destruct (IH H); [now left|right; now right].
Qed.

(** The store and the speaker after resolution, in the two cases. *)
Lemma resolve_outcome w self vf src self1 sid :
  get_or_create_speaker w self vf src = Some (self1, sid) ->
  (exists old,
      sid <> EmptyString
      /\ Py.dict_get (participants self) sid = Some old
      /\ self1
         = set_participants
             (Py.dict_set (participants self) sid (smoothed self vf sid old))
             self)
  \/ (self1, sid) = create_speaker w self vf src.
Proof.
  destruct (resolve_cases w self vf src)
    as [(id & Hs & Hne & Heq)|(_ & Heq)]; rewrite Heq.
  - destruct (search_some _ _ _ _ Hs) as (data & Hin & _).
    destruct (In_dict_get _ _ _ Hin) as (old & Hold).
    rewrite (update_speaker_eq _ _ _ _ Hold). intros [= <- <-].
    left. now exists old.
  - intros H. right. congruence.
Qed.

Lemma create_speaker_eq w self vf src :
  exists p,
    Profile.samples_count p = 1%nat
    /\ create_speaker w self vf src
       = (set_participants
            (Py.dict_set (participants self) ("speaker_" ++ uuid_hex w) p)
            (set_speaker_counter (speaker_counter self + 1) self),
          "speaker_" ++ uuid_hex w).
Proof.
  unfold create_speaker. eexists. split; [|reflexivity]. reflexivity.
Qed.

(** C7, as the code has it.  On a match, the pitch and the pace of the
    matched profile become 0.3*sample + 0.7*old, computed in binary64 (the
    weight [1 - 0.3] of the source is the float 0.7; an absent sample
    counts as 100, respectively 120); its energy is left as it was. *)
Theorem match_smooths_pitch_and_pace w self vf src :
  ids_nonempty self ->
  some_profile_matches self vf ->
  exists self' id old new,
    get_or_create_speaker w self vf src = Some (self', id)
    /\ Py.dict_get (participants self) id = Some old
    /\ Py.dict_get (participants self') id = Some new
    /\ Profile.avg_pitch new
       = (0.3 * Py.get (Features.avg_pitch vf) 100
          + 0.7 * Profile.avg_pitch old)%float
    /\ Profile.avg_pace new
       = (0.3 * Py.get (Features.words_per_minute vf) 120
          + 0.7 * Profile.avg_pace old)%float
    /\ Profile.avg_energy new = Profile.avg_energy old.
Proof.
  intros Hids Hm.
  destruct (resolve_match w self vf src Hids Hm)
    as (id & _ & old & _ & _ & _ & Hold & Hget).
  eexists _, id, old, (smoothed self vf id old).
  split; [exact Hget|]. split; [exact Hold|]. simpl.
  rewrite dict_get_set, String.eqb_refl. split; [reflexivity|].
  split; [reflexivity|]. split; reflexivity.
Qed.

Lemma answers_spec e i :
  answers e i = true <-> Entry.answers_question e = Some i.
Proof.
  unfold answers. destruct (Entry.answers_question e) as [k|].
  - rewrite Nat.eqb_eq. split; congruence.
  - split; discriminate.
Qed.

(** The loop [while j < len(self.transcript)] computes the run of answers
    and the follow-up, and marks their positions. *)
Lemma forward_scan_eq i entry n rest : forall j ans follow used,
  let r := forward_scan i entry n j rest ans follow used in
  fst (fst r) = (ans ++ answer_run i j rest)%list
  /\ snd (fst r) = (follow ++ follow_up_after i entry n j rest)%list
  /\ forall x,
       In x (snd r)
       <-> In x used
           \/ In x (map fst (answer_run i j rest))
           \/ In x (map fst (follow_up_after i entry n j rest)).
Proof.
  induction rest as [|next rest IH]; intros j ans follow used; simpl.
  - rewrite !app_nil_r. split; [reflexivity|]. split; [reflexivity|].
    intros x. simpl. tauto.
  - destruct (answers next i).
    + destruct (IH (j + 1)%nat (ans ++ [(j, next)])%list follow (j :: used))
        as (H1 & H2 & H3).
      split; [|split].
      * rewrite H1, <- app_assoc. reflexivity.
      * exact H2.
      * intros x. rewrite H3. simpl. tauto.
    + destruct (Entry.kind_eqb (Entry.type next) Entry.question
                && (j <? n - 1)%nat); simpl.
      * destruct (String.eqb (Entry.speaker_id next)
                    (Entry.speaker_id entry)); simpl;
          rewrite ?app_nil_r; (split; [reflexivity|]);
          (split; [reflexivity|]); intros x; simpl; tauto.
      * rewrite !app_nil_r. split; [reflexivity|]. split; [reflexivity|].
        intros x. simpl. tauto.
Qed.

(** The first loop opens the groups of [groups] and marks their entries. *)
Lemma qa_loop_eq n rest : forall i qa_pairs used,
  let r := qa_loop n i rest qa_pairs used in
  fst r = (qa_pairs ++ groups n i rest)%list
  /\ forall x,
       In x (snd r)
       <-> In x used \/ In x (flat_map qa_indices (groups n i rest)).
Proof.
  induction rest as [|entry rest IH]; intros i qa_pairs used; simpl.
  - rewrite app_nil_r. split; [reflexivity|]. tauto.
  - destruct (Entry.kind_eqb (Entry.type entry) Entry.question).
    + pose proof (forward_scan_eq i entry n rest (i + 1)%nat [] []
                    (i :: used)) as (H1 & H2 & H3).
      destruct (forward_scan i entry n (i + 1) rest [] [] (i :: used))
        as [[ans follow] used'].
      simpl in H1, H2, H3. subst ans follow.
      destruct (IH (i + 1)%nat
                  (qa_pairs
                   ++ [Minutes.mk_qa (i, entry)
                         (answer_run i (i + 1) rest)
                         (follow_up_after i entry n (i + 1) rest)])%list
                  used') as (G1 & G2).
      split.
      * rewrite G1, <- app_assoc. reflexivity.
      * intros x. rewrite G2, H3. unfold qa_indices at 2. simpl.
        rewrite !in_app_iff. tauto.
    + apply IH.
Qed.

Lemma bucket_step_inv used seen acc item :
  bucket_inv used seen acc ->
  bucket_inv used (seen ++ [item]) (bucket_step used acc item).
Proof.
  destruct acc as [[ds acts] keys], item as [i entry].
  intros (Hd & Ha & Hk).
  assert (Hd' : forall ie, In ie ds ->
            In ie (seen ++ [(i, entry)])
            /\ existsb (Nat.eqb (fst ie)) used = false
            /\ Entry.is_decision (snd ie) = true).
  { intros ie Hin. destruct (Hd ie Hin) as (? & ? & ?).
    rewrite in_app_iff. auto. }
  assert (Ha' : forall ie, In ie acts ->
            In ie (seen ++ [(i, entry)])
            /\ existsb (Nat.eqb (fst ie)) used = false
            /\ Entry.is_decision (snd ie) = false
            /\ Entry.is_action_item (snd ie) = true).
  { intros ie Hin. destruct (Ha ie Hin) as (? & ? & ? & ?).
    rewrite in_app_iff. auto. }
  assert (Hk' : forall ie, In ie keys ->
            In ie (seen ++ [(i, entry)])
            /\ existsb (Nat.eqb (fst ie)) used = false
            /\ Entry.is_decision (snd ie) = false
            /\ Entry.is_action_item (snd ie) = false).
  { intros ie Hin. destruct (Hk ie Hin) as (? & ? & ? & ?).
    rewrite in_app_iff. auto. }
  assert (Hlast : In (i, entry) (seen ++ [(i, entry)]))
    by (rewrite in_app_iff; right; now left).
  pose proof (conj Hd' (conj Ha' Hk')) as Hkeep.
  unfold bucket_step.
  destruct (existsb (Nat.eqb i) used) eqn:Eu; [exact Hkeep|].
  destruct (Entry.is_decision entry) eqn:Ed.
  - split; [|split; [exact Ha'|exact Hk']].
    intros ie Hin. apply in_app_or in Hin.
    destruct Hin as [Hin|[<-|[]]]; auto.
  - destruct (Entry.is_action_item entry) eqn:Ea.
    + split; [exact Hd'|]. split; [|exact Hk'].
      intros ie Hin. apply in_app_or in Hin.
      destruct Hin as [Hin|[<-|[]]]; auto.
    + destruct (Entry.kind_eqb (Entry.type entry) Entry.statement
                && (50 <? Py.len (Entry.text entry))%nat).
      * split; [exact Hd'|]. split; [exact Ha'|].
        intros ie Hin. apply in_app_or in Hin.
        destruct Hin as [Hin|[<-|[]]]; auto.
      * exact Hkeep.
Qed.

Lemma bucket_fold_inv used items : forall seen acc,
  bucket_inv used seen acc ->
  bucket_inv used (seen ++ items) (fold_left (bucket_step used) items acc).
Proof.
  induction items as [|item items IH]; intros seen acc Hinv; simpl.
  - now rewrite app_nil_r.
  - replace (seen ++ item :: items)%list
      with ((seen ++ [item]) ++ items)%list
      by (rewrite <- app_assoc; reflexivity).
    apply IH. now apply bucket_step_inv.
Qed.

Lemma In_combine_seq {A : Type} (l : list A) : forall a i (e : A),
  In (i, e) (combine (seq a (length l)) l)
  <-> (a <= i)%nat /\ nth_error l (i - a) = Some e.
Proof.
  induction l as [|x l IH]; intros a i e; simpl.
  - split; [tauto|]. intros [_ H]. destruct (i - a)%nat; discriminate.
  - rewrite IH. split.
    + intros [[= <- <-]|[Hle Hn]].
      * rewrite Nat.sub_diag. auto.
      * split; [lia|]. replace (i - a)%nat with (S (i - S a)) by lia.
        exact Hn.
    + intros [Hle Hn]. destruct (Nat.eq_dec a i) as [<-|Hne].
      * rewrite Nat.sub_diag in Hn. left. simpl in Hn. congruence.
      * right. split; [lia|].
        replace (i - a)%nat with (S (i - S a)) in Hn by lia. exact Hn.
Qed.

Lemma In_enumerate {A : Type} (l : list A) (i : nat) (e : A) :
  In (i, e) (enumerate l) <-> nth_error l i = Some e.
Proof.
  unfold enumerate. rewrite In_combine_seq, Nat.sub_0_r.
  split; [tauto|]. split; [lia|assumption].
Qed.

Lemma groups_questions n rest : forall i,
  map (fun g => fst (Minutes.question g)) (groups n i rest)
  = map fst
      (filter (fun ie => Entry.kind_eqb (Entry.type (snd ie)) Entry.question)
         (combine (seq i (length rest)) rest)).
Proof.
  induction rest as [|entry rest IH]; intros i; simpl; [reflexivity|].
  rewrite Nat.add_1_r.
  destruct (Entry.kind_eqb (Entry.type entry) Entry.question); simpl;
    now rewrite IH.
Qed.

Lemma existsb_eqb_In (i : nat) (used : list nat) :
  existsb (Nat.eqb i) used = true <-> In i used.
Proof.
  rewrite existsb_exists. split.
  - intros (x & Hin & E). apply Nat.eqb_eq in E. now subst.
  - intros H. exists i. split; [exact H|apply Nat.eqb_refl].
Qed.

(** The run of answers is a block of consecutive entries: all of them answer
    [i], and the entry after the block, if any, does not. *)
Lemma answer_run_block i rest : forall j,
  exists m,
    (m <= length rest)%nat
    /\ answer_run i j rest = combine (seq j m) (firstn m rest)
    /\ (forall e, In e (firstn m rest) -> Entry.answers_question e = Some i)
    /\ forall e, nth_error rest m = Some e ->
         Entry.answers_question e <> Some i.
Proof.
  induction rest as [|next rest IH]; intros j; simpl.
  - exists 0%nat. split; [lia|]. split; [reflexivity|].
    split; [intros e []|intros e H; discriminate].
  - destruct (answers next i) eqn:E.
    + destruct (IH (j + 1)%nat) as (m & Hle & Hrun & Hall & Hstop).
      exists (S m). split; [lia|]. simpl. rewrite Hrun, Nat.add_1_r.
      split; [reflexivity|]. split; [|exact Hstop].
      intros e [<-|He]; [now apply answers_spec|auto].
    + exists 0%nat. split; [lia|]. split; [reflexivity|].
      split; [intros e []|]. simpl. intros e [= <-] H.
      apply answers_spec in H. congruence.
Qed.

Lemma In_groups n rest : forall i g,
  In g (groups n i rest) ->
  exists k entry,
    nth_error rest k = Some entry
    /\ Entry.type entry = Entry.question
    /\ Minutes.question g = ((i + k)%nat, entry)
    /\ Minutes.answers g
       = answer_run (i + k) (i + k + 1) (skipn (k + 1) rest).
Proof.
  induction rest as [|entry rest IH]; intros i g; simpl; [tauto|].
  assert (Hnext : In g (groups n (i + 1) rest) ->
            exists k entry0,
              nth_error (entry :: rest) k = Some entry0
              /\ Entry.type entry0 = Entry.question
              /\ Minutes.question g = ((i + k)%nat, entry0)
              /\ Minutes.answers g
                 = answer_run (i + k) (i + k + 1)
                     (skipn (k + 1) (entry :: rest))).
  { intros Hin. destruct (IH _ _ Hin) as (k & e & Hn & Hty & Hq & Ha).
    exists (S k), e. simpl.
    replace (i + S k)%nat with (i + 1 + k)%nat by lia. auto. }
  destruct (Entry.kind_eqb (Entry.type entry) Entry.question) eqn:E;
    [|exact Hnext].
  intros [<-|Hin]; [|auto].
  exists 0%nat, entry. simpl. rewrite Nat.add_0_r.
  repeat split. now destruct (Entry.type entry).
Qed.

(** ** Appending utterances *)

Section Threading.

Context {regex : Regex}.

Set Default Proof Using "Type".

(** [add_utterance] raises no [KeyError]: it resolves the speaker, then
    appends the entry built by [append_entry]. *)
Lemma add_utterance_eq w self text vf src :
  exists self1 sid data,
    get_or_create_speaker w self vf src = Some (self1, sid)
    /\ Py.dict_get (participants self1) sid = Some data
    /\ add_utterance w self text vf src
       = Some (append_entry w self1 sid data text vf src).
Proof.
  destruct (get_or_create_speaker_total w self vf src) as (self1 & sid & H).
  destruct (resolve_profile _ _ _ _ _ _ H) as (data & Hd).
  exists self1, sid, data. unfold add_utterance. now rewrite H, Hd.
Qed.

Lemma mark_flags_keeps text sid data entry :
  Entry.type (mark_flags text sid data entry) = Entry.type entry
  /\ Entry.answers_question (mark_flags text sid data entry)
     = Entry.answers_question entry
  /\ Entry.question_id (mark_flags text sid data entry)
     = Entry.question_id entry
  /\ Entry.speaker_id (mark_flags text sid data entry)
     = Entry.speaker_id entry.
Proof.
  unfold mark_flags.
  destruct (detect_decision text), (detect_action_item text sid);
    repeat split.
Qed.

(** The store and the entry produced by [append_entry], field by field. *)
Lemma append_entry_fields w self sid data text vf src :
  let base :=
    Entry.mk (now_timestamp w) sid (Profile.name data) text Entry.statement
      src (Profile.is_remote data)
      (Features.avg_pitch vf, Features.words_per_minute vf,
       Features.energy vf) None None false false None in
  let r := append_entry w self sid data text vf src in
  let th := thread w self sid text base in
  transcript (fst r) = (transcript self ++ [snd r])%list
  /\ participants (fst r) = participants self
  /\ unanswered_questions (fst r) = snd th
  /\ Entry.type (snd r) = Entry.type (fst th)
  /\ Entry.answers_question (snd r) = Entry.answers_question (fst th)
  /\ Entry.question_id (snd r) = Entry.question_id (fst th)
  /\ Entry.speaker_id (snd r) = Entry.speaker_id (fst th).
Proof.
  intros base r th. subst r. unfold append_entry. fold base. fold th.
  destruct th as [e pending]. simpl.
  pose proof (mark_flags_keeps text sid data e) as (H1 & H2 & H3 & H4).
  repeat split; assumption.
Qed.

Lemma thread_speaker w self sid text entry :
  Entry.speaker_id (fst (thread w self sid text entry))
  = Entry.speaker_id entry.
Proof.
  unfold thread. destruct (is_question text); [reflexivity|].
  destruct (Py.last_item (unanswered_questions self)) as [q|];
    [|reflexivity].
  destruct (is_answer_to q _ sid text); reflexivity.
Qed.

Lemma is_question_qmark (text : string) :
  Py.endswith text "?" = true -> is_question text = true.
Proof.
  intros H. unfold is_question. now rewrite (strip_keeps_qmark _ H).
Qed.

(** C9.  An utterance whose text ends with '?' is appended with type
    [question], whatever the rest of the text, the store, the features and
    the audio source. *)
Theorem question_mark_is_question w self text vf src :
  Py.endswith text "?" = true ->
  exists self' entry,
    add_utterance w self text vf src = Some (self', entry)
    /\ Entry.type entry = Entry.question.
Proof.
  intros Hq.
  destruct (add_utterance_eq w self text vf src)
    as (self1 & sid & data & _ & _ & Heq).
  rewrite Heq.
  destruct (append_entry w self1 sid data text vf src) as [self' entry]
    eqn:E.
  exists self', entry. split; [reflexivity|].
  pose proof (append_entry_fields w self1 sid data text vf src)
    as (_ & _ & _ & Hty & _).
  rewrite E in Hty. simpl in Hty. rewrite Hty. unfold thread.
  now rewrite (is_question_qmark _ Hq).
Qed.

(** C2.  With [q] on top of the pending stack, a non-question utterance
    appended at index [i] by speaker [s] gets type [answer] and
    [answers_question = q.index] if and only if ([i - q.index <= 4], [s]
    is not the asker of [q] and the text does not end with '?') or the
    lowercased text starts with one of the answer starters; when it is an
    answer, [q] leaves the stack exactly when [i - q.index >= 2], or the
    text ends with '.', or the text is longer than 100 characters, and stays
    on top otherwise; when it is not, the stack is unchanged. *)
Theorem answer_threading w self text vf src qs q :
  unanswered_questions self = (qs ++ [q])%list ->
  is_question text = false ->
  exists self' entry,
    add_utterance w self text vf src = Some (self', entry)
    /\ transcript self' = (transcript self ++ [entry])%list
    /\ let i := Z.of_nat (length (transcript self)) in
       let s := Entry.speaker_id entry in
       let distance := (i - Z.of_nat (Pending.index q))%Z in
       let is_answer :=
         ((distance <= 4)%Z
          /\ s <> Pending.speaker q
          /\ Py.endswith text "?" = false)
         \/ exists starter,
              In starter
                ["yes"; "no"; "absolutely"; "definitely"; "correct";
                 "right"; "exactly"; "sure"; "well"; "i think";
                 "in my opinion"]
              /\ Py.startswith (Py.lower text) starter = true in
       let popped :=
         (distance >= 2)%Z
         \/ Py.endswith text "." = true
         \/ (Py.len text > 100)%nat in
       ((Entry.type entry = Entry.answer
         /\ Entry.answers_question entry = Some (Pending.index q))
        <-> is_answer)
       /\ (~ is_answer ->
           Entry.type entry = Entry.statement
           /\ Entry.answers_question entry = None
           /\ unanswered_questions self' = (qs ++ [q])%list)
       /\ (is_answer ->
           (popped <-> unanswered_questions self' = qs)
           /\ (~ popped <-> unanswered_questions self' = (qs ++ [q])%list)).
Proof.
  intros Hstack Hnq.
  destruct (add_utterance_eq w self text vf src)
    as (self1 & sid & data & Hres & _ & Heq).
  destruct (resolve_frame _ _ _ _ _ _ Hres) as (Htr & Hpend & _).
  rewrite Heq.
  pose proof (append_entry_fields w self1 sid data text vf src)
    as (Ft & _ & Fp & Fty & Fans & _ & Fsp).
  destruct (append_entry w self1 sid data text vf src) as [self' entry].
  simpl in Ft, Fp, Fty, Fans, Fsp.
  rewrite thread_speaker in Fsp. simpl in Fsp.
  exists self', entry. split; [reflexivity|].
  split; [now rewrite <- Htr|].
  unfold thread in Fp, Fty, Fans.
  rewrite Hnq, Hpend, Hstack, last_item_app, Htr in Fp, Fty, Fans.
  rewrite Fsp. fold answer_starters.
  pose proof (is_answer_to_spec q (length (transcript self)) sid text)
    as Hans.
  pose proof (pops_spec q (length (transcript self)) text) as Hpop.
  destruct (is_answer_to q (length (transcript self)) sid text).
  - simpl in Fp, Fty, Fans. split; [|split].
    + split; [intros _; now apply Hans|intros _; now split].
    + intros Hn. exfalso. apply Hn. now apply Hans.
    + intros _.
      destruct (pops q (length (transcript self)) text).
      * rewrite removelast_last in Fp. split.
        -- split; [intros _; exact Fp|intros _; now apply Hpop].
        -- split; [intros Hn; exfalso; apply Hn; now apply Hpop|].
           intros Hx. rewrite Fp in Hx. symmetry in Hx.
           now apply app_last_neq in Hx.
      * split.
        -- split; [intros Hp; apply Hpop in Hp; discriminate|].
           intros Hx. rewrite Fp in Hx. now apply app_last_neq in Hx.
        -- split; [intros _; exact Fp|].
           intros _ Hp. apply Hpop in Hp. discriminate.
  - simpl in Fp, Fty, Fans. split; [|split].
    + split.
      * intros [Hty _]. rewrite Fty in Hty. discriminate.
      * intros Hx. apply Hans in Hx. discriminate.
    + intros _. auto.
    + intros Hx. apply Hans in Hx. discriminate.
Qed.

(** What [thread] does to the entry and to the stack, on a threaded store. *)
Lemma thread_threaded w self sid text base :
  threaded self ->
  Entry.answers_question base = None ->
  let th := thread w self sid text base in
  (forall k, Entry.answers_question (fst th) = Some k ->
     is_question_at (transcript self) k)
  /\ forall p, In p (snd th) ->
       is_question_at (transcript self) (Pending.index p)
       \/ (Pending.index p = length (transcript self)
           /\ Entry.type (fst th) = Entry.question
           /\ Entry.question_id (fst th) = Some (length (transcript self))).
Proof.
  intros [_ Hpend] Hbase. unfold thread.
  destruct (is_question text).
  - simpl. split; [intros k; rewrite Hbase; discriminate|].
    intros p Hin. apply in_app_or in Hin. destruct Hin as [Hin|[<-|[]]].
    + left. auto.
    + right. repeat split.
  - destruct (Py.last_item (unanswered_questions self)) as [q|] eqn:El.
    + apply last_item_In in El.
      destruct (is_answer_to q _ sid text); simpl.
      * split; [intros k [= <-]; auto|].
        intros p Hin. left. apply Hpend.
        destruct (pops q _ text); [now apply In_removelast|exact Hin].
      * split; [intros k; rewrite Hbase; discriminate|]. auto.
    + simpl. split; [intros k; rewrite Hbase; discriminate|]. auto.
Qed.

Lemma add_utterance_threaded w self text vf src self' entry :
  threaded self ->
  add_utterance w self text vf src = Some (self', entry) ->
  threaded self'.
Proof.
  intros Hthr Hadd.
  destruct (add_utterance_eq w self text vf src)
    as (self1 & sid & data & Hres & _ & Heq).
  rewrite Heq in Hadd. injection Hadd as Hadd.
  destruct (resolve_frame _ _ _ _ _ _ Hres) as (Htr & Hpend & _).
  assert (Hthr1 : threaded self1).
  { unfold threaded. now rewrite Htr, Hpend. }
  pose proof (append_entry_fields w self1 sid data text vf src)
    as (Ft & _ & Fp & Fty & Fans & Fid & _).
  rewrite Hadd in Ft, Fp, Fty, Fans, Fid. simpl in Ft, Fp, Fty, Fans, Fid.
  match type of Fty with
  | _ = Entry.type (fst (thread _ _ _ _ ?base)) =>
      pose proof (thread_threaded w self1 sid text base Hthr1 eq_refl)
        as [Hnew Hstack]
  end.
  simpl in Hnew, Hstack. rewrite <- Fans in Hnew.
  rewrite <- Fp, <- Fty, <- Fid in Hstack.
  destruct Hthr1 as [Hold _]. split.
  - intros j e k Hj Hk. rewrite Ft in Hj |- *.
    assert (Hlen : (j < length (transcript self1 ++ [entry]))%nat)
      by (apply nth_error_Some; congruence).
    rewrite length_app in Hlen. simpl in Hlen.
    destruct (Nat.eq_dec j (length (transcript self1))) as [->|Hne].
    + rewrite nth_error_app2, Nat.sub_diag in Hj by lia.
      injection Hj as <-. specialize (Hnew _ Hk). split.
      * now apply is_question_at_lt.
      * now apply is_question_at_app.
    + rewrite nth_error_app1 in Hj by lia.
      destruct (Hold _ _ _ Hj Hk). split; [assumption|].
      now apply is_question_at_app.
  - intros p Hin. rewrite Ft.
    destruct (Hstack _ Hin) as [H|(Hi & Hty & Hid)].
    + now apply is_question_at_app.
    + exists entry. rewrite Hi. split; [|now split].
      now rewrite nth_error_app2, Nat.sub_diag by lia.
Qed.

Lemma reachable_threaded ok self : reachable_with ok self -> threaded self.
Proof.
  induction 1 as [mt d|self t _ IH|self t _ IH
                 |self w text vf src self' entry _ IH _ Hadd].
  - split; simpl; [intros [|j] e k H; discriminate|intros p []].
  - exact IH.
  - exact IH.
  - eapply add_utterance_threaded; eassumption.
Qed.

(** C10.  In every store reachable by calls of [add_utterance], an entry at
    index [j] that carries [answers_question = k] has [k < j], and the entry
    at index [k] has type [question] and carries [question_id = k]. *)
Theorem answers_point_to_questions self j e k :
  reachable self ->
  nth_error (transcript self) j = Some e ->
  Entry.answers_question e = Some k ->
  (k < j)%nat
  /\ exists q,
       nth_error (transcript self) k = Some q
       /\ Entry.type q = Entry.question
       /\ Entry.question_id q = Some k.
Proof.
  intros Hr Hj Hk.
  destruct (reachable_threaded _ _ Hr) as [H _]. exact (H _ _ _ Hj Hk).
Qed.

Lemma add_utterance_counted w self text vf src self' entry :
  counted self ->
  fresh_id w self ->
  add_utterance w self text vf src = Some (self', entry) ->
  counted self'.
Proof.
  intros (Hcnt & Hknown & Hids) Hfresh Hadd.
  destruct (add_utterance_eq w self text vf src)
    as (self1 & sid & data & Hres & _ & Heq).
  rewrite Heq in Hadd. injection Hadd as Hadd.
  pose proof (append_entry_fields w self1 sid data text vf src)
    as (Ft & Fps & _ & _ & _ & _ & Fsp).
  rewrite Hadd in Ft, Fps, Fsp. rewrite thread_speaker in Fsp.
  simpl in Ft, Fps, Fsp.
  destruct (resolve_frame _ _ _ _ _ _ Hres) as (Htr & _).
  assert (Hps : exists p,
             participants self1 = Py.dict_set (participants self) sid p
             /\ Profile.samples_count p
                = (utterances_of sid (transcript self) + 1)%nat
             /\ sid <> EmptyString).
  { destruct (resolve_outcome _ _ _ _ _ _ Hres)
      as [(old & Hne & Hold & ->)|Hc].
    - eexists. split; [reflexivity|]. split; [reflexivity|exact Hne].
    - destruct (create_speaker_eq w self vf src) as (p & Hp1 & Hp).
      rewrite Hp in Hc. apply pair_equal_spec in Hc. destruct Hc as [-> ->].
      exists p. split; [reflexivity|]. split; [|discriminate].
      now rewrite (utterances_of_unknown _ _ _ Hknown Hfresh). }
  destruct Hps as (p & Hps & Hp & Hne).
  unfold counted, ids_nonempty.
  rewrite Ft, Fps, Hps, Htr. split; [|split].
  - intros id q. rewrite dict_get_set, utterances_of_app, Fsp.
    destruct (String.eqb sid id) eqn:E.
    + apply String.eqb_eq in E. subst id. intros [= <-]. exact Hp.
    + intros Hq. rewrite (Hcnt _ _ Hq). lia.
  - intros e Hin. rewrite dict_get_set.
    destruct (String.eqb sid (Entry.speaker_id e)) eqn:E; [discriminate|].
    apply in_app_or in Hin. destruct Hin as [Hin|[<-|[]]]; [auto|].
    rewrite Fsp, String.eqb_refl in E. discriminate.
  - intros id q Hin. apply In_dict_set in Hin.
    destruct Hin as [->|Hin]; [exact Hne|eauto].
Qed.

Lemma reachable_counted self : reachable_fresh self -> counted self.
Proof.
  induction 1 as [mt d|self t _ IH|self t _ IH
                 |self w text vf src self' entry _ IH Hok Hadd].
  - split; [intros id p; discriminate|].
    split; [intros e []|intros id data []].
  - exact IH.
  - exact IH.
  - eapply add_utterance_counted; eassumption.
Qed.

(** C8.  In a session built by [add_utterance] calls (each new identifier
    being unused), a call that matches an existing profile leaves that
    profile with a sample counter one above its value before the call; a
    call that creates a profile gives it the counter 1. *)
Theorem match_increments_samples_count self w text vf src self' entry :
  reachable_fresh self ->
  fresh_id w self ->
  add_utterance w self text vf src = Some (self', entry) ->
  (some_profile_matches self vf ->
   exists old new,
     Py.dict_get (participants self) (Entry.speaker_id entry) = Some old
     /\ Py.dict_get (participants self') (Entry.speaker_id entry) = Some new
     /\ Profile.samples_count new = (Profile.samples_count old + 1)%nat)
  /\ (~ some_profile_matches self vf ->
      Py.dict_get (participants self) (Entry.speaker_id entry) = None
      /\ exists new,
           Py.dict_get (participants self') (Entry.speaker_id entry)
           = Some new
           /\ Profile.samples_count new = 1%nat).
Proof.
  intros Hreach Hfresh Hadd.
  destruct (reachable_counted _ Hreach) as (Hcnt & _ & Hids).
  destruct (add_utterance_eq w self text vf src)
    as (self1 & sid & data & Hres & _ & Heq).
  rewrite Heq in Hadd. injection Hadd as Hadd.
  pose proof (append_entry_fields w self1 sid data text vf src)
    as (_ & Fps & _ & _ & _ & _ & Fsp).
  rewrite Hadd in Fps, Fsp. rewrite thread_speaker in Fsp.
  simpl in Fps, Fsp. rewrite Fps, Fsp. split.
  - intros Hm.
    destruct (resolve_match w self vf src Hids Hm)
      as (id & _ & old & _ & _ & _ & Hold & Hget).
    rewrite Hget in Hres. injection Hres as <- <-.
    exists old, (smoothed self vf id old). split; [exact Hold|].
    simpl. rewrite dict_get_set, String.eqb_refl. split; [reflexivity|].
    simpl. now rewrite (Hcnt _ _ Hold).
  - intros Hno. rewrite (resolve_create w self vf src Hno) in Hres.
    destruct (create_speaker_eq w self vf src) as (p & Hp1 & Hp).
    rewrite Hp in Hres. injection Hres as <- <-.
    split; [exact Hfresh|]. exists p. simpl.
    rewrite dict_get_set, String.eqb_refl. now split.
Qed.

Lemma run_total calls : forall self, exists self', run self calls = Some self'.
Proof.
  induction calls as [|[[[w text] vf] src] calls IH]; intros self; simpl.
  - eauto.
  - destruct (add_utterance_eq w self text vf src)
      as (self1 & sid & data & _ & _ & Heq).
    rewrite Heq.
    destruct (append_entry w self1 sid data text vf src) as [self2 e].
    apply IH.
Qed.

Lemma run_reachable_with ok calls : forall self self',
  reachable_with ok self ->
  (forall w s, ok w s) \/ (ok = fresh_id /\ all_fresh self calls) ->
  run self calls = Some self' ->
  reachable_with ok self'.
Proof.
  induction calls as [|[[[w text] vf] src] calls IH]; intros self self' Hr Hok;
    simpl.
  - now intros [= <-].
  - destruct (add_utterance w self text vf src) as [[self1 e]|] eqn:E;
      [|discriminate].
    apply IH.
    + eapply reach_add; [exact Hr| |exact E].
      destruct Hok as [Hall|[-> Hf]]; [apply Hall|].
      simpl in Hf. tauto.
    + destruct Hok as [Hall|[-> Hf]]; [now left|right].
      split; [reflexivity|]. simpl in Hf. rewrite E in Hf. tauto.
Qed.

Lemma session_reachable calls : reachable (session calls).
Proof.
  unfold session.
  destruct (run_total calls (init "physical" "2026-01-05 10:00"))
    as (self & Hrun).
  rewrite Hrun.
  eapply run_reachable_with; [apply reach_init|now left|exact Hrun].
Qed.

Lemma session_reachable_fresh calls :
  all_fresh (init "physical" "2026-01-05 10:00") calls ->
  reachable_fresh (session calls).
Proof.
  intros Hf. unfold session.
  destruct (run_total calls (init "physical" "2026-01-05 10:00"))
    as (self & Hrun).
  rewrite Hrun.
  eapply run_reachable_with; [apply reach_init| |exact Hrun].
  right. now split.
Qed.

End Threading.

(** ** Minutes synthesis *)

Section Synthesis.

Context {iso : IsoParser}.

Set Default Proof Using "Type".

(** The lists of the document, in terms of the two loops. *)
Lemma minutes_fields now self :
  let m := get_minutes_structure now self in
  let first := qa_loop (length (transcript self)) 0 (transcript self) [] [] in
  let second :=
    fold_left (bucket_step (snd first)) (enumerate (transcript self))
      ([], [], []) in
  Minutes.qa_pairs m = fst first
  /\ Minutes.decisions m = fst (fst second)
  /\ Minutes.action_items m = snd (fst second)
  /\ Minutes.key_discussion_points m = snd second.
Proof.
  unfold get_minutes_structure.
  destruct (fold_left (participant_step self) (participants self) ([], []))
    as [local remote].
  destruct (qa_loop (length (transcript self)) 0 (transcript self) [] [])
    as [qa_pairs used]. simpl.
  destruct (fold_left (bucket_step used) (enumerate (transcript self))
              ([], [], [])) as [[ds acts] keys].
  simpl. repeat split.
Qed.

(** C4, as the code has it.  A Q&A group is opened for every entry of type
    [question], in transcript order, whether or not an earlier group already
    holds that entry as a follow-up or an answer; and no position of the
    transcript is in two of the buckets Q&A groups, decisions, action items
    and key discussion points. *)
Theorem groups_opened_and_buckets_disjoint now self :
  let m := get_minutes_structure now self in
  map (fun g => fst (Minutes.question g)) (Minutes.qa_pairs m)
  = question_indices (transcript self)
  /\ forall i,
       (In i (qa_bucket m) ->
        ~ In i (decision_bucket m) /\ ~ In i (action_bucket m)
        /\ ~ In i (discussion_bucket m))
       /\ (In i (decision_bucket m) ->
           ~ In i (action_bucket m) /\ ~ In i (discussion_bucket m))
       /\ (In i (action_bucket m) -> ~ In i (discussion_bucket m)).
Proof.
  intros m.
  destruct (minutes_fields now self) as (Hqa & Hd & Ha & Hk).
  fold m in Hqa, Hd, Ha, Hk.
  pose proof (qa_loop_eq (length (transcript self)) (transcript self) 0
                [] []) as (Hg & Hused).
  simpl in Hg.
  set (first := qa_loop (length (transcript self)) 0 (transcript self)
                  [] []) in *.
  pose proof (bucket_fold_inv (snd first) (enumerate (transcript self)) []
                ([], [], [])) as Hinv.
  simpl in Hinv.
  destruct (fold_left (bucket_step (snd first))
              (enumerate (transcript self)) ([], [], []))
    as [[ds acts] keys].
  simpl in Hd, Ha, Hk.
  destruct Hinv as (Id & Ia & Ik);
    [split; [|split]; intros ? []|].
  split.
  - rewrite Hqa, Hg. apply groups_questions.
  - assert (Hsame : forall i e1 e2,
              In (i, e1) (enumerate (transcript self)) ->
              In (i, e2) (enumerate (transcript self)) -> e1 = e2).
    { intros i e1 e2 H1 H2. apply In_enumerate in H1, H2. congruence. }
    assert (Hqa_used : forall i, In i (qa_bucket m) -> In i (snd first)).
    { intros i Hi. apply Hused. right. unfold qa_bucket in Hi.
      now rewrite Hqa, Hg in Hi. }
    unfold decision_bucket, action_bucket, discussion_bucket.
    rewrite Hd, Ha, Hk. intros i. split; [|split].
    + intros Hi. apply Hqa_used, existsb_eqb_In in Hi.
      repeat split; intros Hx; apply in_map_iff in Hx;
        destruct Hx as ([i' e] & <- & Hin); simpl in Hi.
      * destruct (Id _ Hin) as (_ & Hu & _). simpl in Hu. congruence.
      * destruct (Ia _ Hin) as (_ & Hu & _). simpl in Hu. congruence.
      * destruct (Ik _ Hin) as (_ & Hu & _). simpl in Hu. congruence.
    + intros Hi. apply in_map_iff in Hi.
      destruct Hi as ([i' e] & <- & Hin).
      destruct (Id _ Hin) as (Hs & _ & Hdec). simpl in Hdec |- *.
      split; intros Hx; apply in_map_iff in Hx;
        destruct Hx as ([i2 e2] & Heq & Hin2); simpl in Heq; subst i2.
      * destruct (Ia _ Hin2) as (Hs2 & _ & Hdec2 & _). simpl in Hdec2.
        rewrite (Hsame _ _ _ Hs Hs2) in Hdec. congruence.
      * destruct (Ik _ Hin2) as (Hs2 & _ & Hdec2 & _). simpl in Hdec2.
        rewrite (Hsame _ _ _ Hs Hs2) in Hdec. congruence.
    + intros Hi. apply in_map_iff in Hi.
      destruct Hi as ([i' e] & <- & Hin).
      destruct (Ia _ Hin) as (Hs & _ & _ & Hact). simpl in Hact |- *.
      intros Hx. apply in_map_iff in Hx.
      destruct Hx as ([i2 e2] & Heq & Hin2). simpl in Heq. subst i2.
      destruct (Ik _ Hin2) as (Hs2 & _ & _ & Hact2). simpl in Hact2.
      rewrite (Hsame _ _ _ Hs Hs2) in Hact. congruence.
Qed.

(** C3, as the code has it.  The answers of the group opened at the question
    of index [i] are the entries of the maximal block of consecutive entries
    right after [i] that carry [answers_question = i]: the scan stops at the
    first entry that does not answer [i], question or not, or at the end of
    the transcript. *)
Theorem group_answers_are_the_adjacent_block now self g :
  In g (Minutes.qa_pairs (get_minutes_structure now self)) ->
  exists i entry m,
    Minutes.question g = (i, entry)
    /\ nth_error (transcript self) i = Some entry
    /\ Entry.type entry = Entry.question
    /\ (i + 1 + m <= length (transcript self))%nat
    /\ Minutes.answers g
       = combine (seq (i + 1) m)
           (firstn m (skipn (i + 1) (transcript self)))
    /\ (forall e, In e (firstn m (skipn (i + 1) (transcript self))) ->
          Entry.answers_question e = Some i)
    /\ forall e, nth_error (transcript self) (i + 1 + m) = Some e ->
         Entry.answers_question e <> Some i.
Proof.
  intros Hin.
  destruct (minutes_fields now self) as (Hqa & _).
  pose proof (qa_loop_eq (length (transcript self)) (transcript self) 0
                [] []) as (Hg & _).
  simpl in Hg. rewrite Hqa, Hg in Hin.
  destruct (In_groups _ _ _ _ Hin) as (i & entry & Hn & Hty & Hq & Ha).
  simpl in Hq, Ha.
  destruct (answer_run_block i (skipn (i + 1) (transcript self)) (i + 1))
    as (m & Hle & Hrun & Hall & Hstop).
  exists i, entry, m. rewrite Ha, Hrun.
  assert (Hi : (i < length (transcript self))%nat)
    by (apply nth_error_Some; congruence).
  rewrite length_skipn in Hle.
  repeat split; auto; [lia|].
  intros e He. apply Hstop. now rewrite nth_error_skipn.
Qed.

(** C5.  For a session state with its start timestamp, which the start
    route records before a meeting can be reached, synthesis is a function
    of the state alone: two runs over the same store, at whatever readings
    of the clock, return the same document, whose date is the start
    timestamp. *)
Theorem minutes_deterministic_once_started self st now1 now2 :
  start_time self = Some st ->
  st <> EmptyString ->
  get_minutes_structure now1 self = get_minutes_structure now2 self
  /\ Minutes.date (get_minutes_structure now1 self) = st.
Proof.
  intros Hst Hne. unfold get_minutes_structure.
  rewrite Hst, (truthy_nonempty _ Hne).
  destruct (fold_left (participant_step self) (participants self) ([], []))
    as [local remote].
  destruct (qa_loop (length (transcript self)) 0 (transcript self) [] [])
    as [qa_pairs used].
  destruct (fold_left (bucket_step used) (enumerate (transcript self))
              ([], [], [])) as [[ds acts] keys].
  split; reflexivity.
Qed.

End Synthesis.

(** ** Concrete runs *)

Lemma one_speaker_ids mt p c e : ids_nonempty (one_speaker mt p c e).
Proof.
  intros id data [[= <- _]|[]]. discriminate.
Qed.

(** A sample whose score against the one profile is, in binary64,
    19.999999999999996: under the threshold 20, so the profile is matched. *)
Lemma get_or_create_speaker_resolves_witness :
  ids_nonempty (one_speaker "physical" 100 120 5000)
  /\ score (sample_profile "speaker_0a1b2c3d" 100 120 5000)
       (voice 134 212 5060) = 19.999999999999996%float
  /\ exists self',
       get_or_create_speaker (sample_world "11111111")
         (one_speaker "physical" 100 120 5000) (voice 134 212 5060)
         "tab_audio"
       = Some (self', "speaker_0a1b2c3d").
Proof.
  split; [apply one_speaker_ids|]. split; [vm_compute; reflexivity|].
  destruct (get_or_create_speaker_resolves (sample_world "11111111")
              (one_speaker "physical" 100 120 5000) (voice 134 212 5060)
              "tab_audio" (one_speaker_ids _ _ _ _))
    as (_ & _ & _ & _ & Hmatch & _).
  destruct Hmatch as (self' & id & data & Heq & Hin & _).
  - exists "speaker_0a1b2c3d", (sample_profile "speaker_0a1b2c3d" 100 120 5000).
    split; [now left|]. vm_compute. reflexivity.
  - destruct Hin as [[= <- _]|[]]. now exists self'.
Defined.

(** C6, on the code.  With one profile at pitch 100, pace 120 and energy
    5000, a sample with no field scores 73.6 against it, because each absent
    field counts as 0 in the score; the sample is given a second profile,
    holding 100, 120 and 5000, while the same sample with the three values
    written out is matched to the first at score 0. *)
Lemma missing_features_scored_as_zero :
  let self := one_speaker "physical" 100 120 5000 in
  let w := sample_world "11111111" in
  score (sample_profile "speaker_0a1b2c3d" 100 120 5000) no_features
  = 73.6%float
  /\ score (sample_profile "speaker_0a1b2c3d" 100 120 5000)
       (voice 100 120 5000) = 0%float
  /\ option_map snd (get_or_create_speaker w self no_features "microphone")
     = Some "speaker_11111111"
  /\ option_map snd
       (get_or_create_speaker w self (voice 100 120 5000) "microphone")
     = Some "speaker_0a1b2c3d"
  /\ exists self' p,
       get_or_create_speaker w self no_features "microphone"
       = Some (self', "speaker_11111111")
       /\ Py.dict_get (participants self') "speaker_11111111" = Some p
       /\ Profile.avg_pitch p = 100%float
       /\ Profile.avg_pace p = 120%float
       /\ Profile.avg_energy p = 5000%float
       /\ length (participants self') = 2%nat.
Proof.
  cbv zeta. split; [vm_compute; reflexivity|].
  split; [vm_compute; reflexivity|].
  split; [vm_compute; reflexivity|].
  split; [vm_compute; reflexivity|].
  eexists _, _. split; [vm_compute; reflexivity|].
  split; [vm_compute; reflexivity|].
  repeat split.
Qed.

(** C7 fails on the energy: a sample of energy 5100 matched to a profile of
    energy 5000 leaves the profile at 5000, not at 0.3*5100 + 0.7*5000. *)
Lemma energy_is_not_smoothed :
  exists self' new,
    get_or_create_speaker (sample_world "11111111")
      (one_speaker "physical" 100 120 5000) (voice 100 120 5100)
      "microphone"
    = Some (self', "speaker_0a1b2c3d")
    /\ Py.dict_get (participants self') "speaker_0a1b2c3d" = Some new
    /\ Profile.avg_energy new = 5000%float
    /\ Profile.avg_energy new <> (0.3 * 5100 + 0.7 * 5000)%float.
Proof.
  eexists _, _. split; [vm_compute; reflexivity|].
  split; [vm_compute; reflexivity|].
  split; [vm_compute; reflexivity|].
  intros H. apply (f_equal (fun x => Py.lt x 5001)) in H.
  vm_compute in H. discriminate H.
Qed.

Lemma match_smooths_pitch_and_pace_witness :
  ids_nonempty (one_speaker "physical" 100 120 5000)
  /\ some_profile_matches (one_speaker "physical" 100 120 5000)
       (voice 110 130 5100)
  /\ exists self' new,
       get_or_create_speaker (sample_world "11111111")
         (one_speaker "physical" 100 120 5000) (voice 110 130 5100)
         "microphone"
       = Some (self', "speaker_0a1b2c3d")
       /\ Py.dict_get (participants self') "speaker_0a1b2c3d" = Some new
       /\ Profile.avg_pitch new = 103%float
       /\ Profile.avg_pace new = 123%float
       /\ Profile.avg_energy new = 5000%float.
Proof.
  assert (Hm : some_profile_matches (one_speaker "physical" 100 120 5000)
                 (voice 110 130 5100)).
  { exists "speaker_0a1b2c3d", (sample_profile "speaker_0a1b2c3d" 100 120 5000).
    split; [now left|]. vm_compute. reflexivity. }
  split; [apply one_speaker_ids|]. split; [exact Hm|].
  destruct (match_smooths_pitch_and_pace (sample_world "11111111")
              (one_speaker "physical" 100 120 5000) (voice 110 130 5100)
              "microphone" (one_speaker_ids _ _ _ _) Hm)
    as (self' & id & old & new & Heq & Hold & Hnew & Hp & Hc & He).
  assert (Hid : id = "speaker_0a1b2c3d").
  { apply dict_get_In in Hold. destruct Hold as [[= <- _]|[]]. reflexivity. }
  subst id. vm_compute in Hold. injection Hold as <-.
  exists self', new. split; [exact Heq|]. split; [exact Hnew|].
  split; [rewrite Hp; vm_compute; reflexivity|].
  split; [rewrite Hc; vm_compute; reflexivity|].
  rewrite He. vm_compute. reflexivity.
Defined.

Lemma question_mark_is_question_witness :
  Py.endswith "Ship it?" "?" = true
  /\ exists self' entry,
       add_utterance (regex := no_match) (sample_world "0a1b2c3d")
         (init "physical" "2026-01-05 10:00") "Ship it?"
         (voice 100 120 5000) "microphone"
       = Some (self', entry)
       /\ Entry.type entry = Entry.question.
Proof.
  split; [reflexivity|].
  apply (question_mark_is_question (regex := no_match)). reflexivity.
Defined.

(** The example of the specification: a remark by a second speaker right
    after a question is an answer to it, and the question stays pending. *)
Lemma answer_threading_witness :
  let self := session (regex := no_match) (firstn 1 late_answer_calls) in
  let q := Pending.mk 0 "2026-01-05T10:00:02" "speaker_0a1b2c3d" in
  unanswered_questions self = [q]
  /\ is_question (regex := no_match) "Friday works" = false
  /\ exists self' entry,
       add_utterance (regex := no_match) (sample_world "22222222") self
         "Friday works" (voice 200 120 5000) "microphone"
       = Some (self', entry)
       /\ Entry.type entry = Entry.answer
       /\ Entry.answers_question entry = Some 0%nat
       /\ unanswered_questions self' = [q].
Proof.
  intros self q.
  assert (Hstack : unanswered_questions self = ([] ++ [q])%list)
    by (vm_compute; reflexivity).
  assert (Hnq : is_question (regex := no_match) "Friday works" = false)
    by (vm_compute; reflexivity).
  split; [exact Hstack|]. split; [exact Hnq|].
  destruct (answer_threading (regex := no_match) (sample_world "22222222")
              self "Friday works" (voice 200 120 5000) "microphone" [] q
              Hstack Hnq)
    as (self' & entry & Hadd & _ & Hiff & _ & Hpop).
  cbv zeta in Hiff, Hpop.
  exists self', entry. split; [exact Hadd|].
  vm_compute in Hadd. injection Hadd as <- <-.
  assert (Hans : (Z.of_nat (length (transcript self))
                  - Z.of_nat (Pending.index q) <= 4)%Z
                 /\ "speaker_22222222" <> Pending.speaker q
                 /\ Py.endswith "Friday works" "?" = false).
  { split; [vm_compute; discriminate|].
    split; [discriminate|reflexivity]. }
  split; [apply Hiff; left; exact Hans|].
  split; [apply Hiff; left; exact Hans|].
  apply (Hpop (or_introl Hans)).
  intros [Hd|[He|Hl]].
  - vm_compute in Hd. now apply Hd.
  - discriminate He.
  - vm_compute in Hl. lia.
Defined.

Lemma answers_point_to_questions_witness :
  let self := session (regex := no_match) late_answer_calls in
  reachable (regex := no_match) self
  /\ (0 < 2)%nat
  /\ exists q,
       nth_error (transcript self) 0 = Some q
       /\ Entry.type q = Entry.question
       /\ Entry.question_id q = Some 0%nat.
Proof.
  intros self. split; [apply session_reachable|].
  refine (answers_point_to_questions (regex := no_match) self 2 _ 0
            (session_reachable late_answer_calls) _ _).
  - vm_compute. reflexivity.
  - reflexivity.
Defined.

Lemma match_increments_samples_count_witness :
  let self := session (regex := no_match) (firstn 1 late_answer_calls) in
  reachable_fresh (regex := no_match) self
  /\ fresh_id (sample_world "11111111") self
  /\ exists self' entry old new,
       add_utterance (regex := no_match) (sample_world "11111111") self
         "The sky is blue" (voice 100 120 5000) "microphone"
       = Some (self', entry)
       /\ Py.dict_get (participants self) (Entry.speaker_id entry) = Some old
       /\ Py.dict_get (participants self') (Entry.speaker_id entry)
          = Some new
       /\ Profile.samples_count new = (Profile.samples_count old + 1)%nat.
Proof.
  intros self.
  assert (Hreach : reachable_fresh (regex := no_match) self).
  { apply session_reachable_fresh. vm_compute. repeat split. }
  assert (Hfresh : fresh_id (sample_world "11111111") self)
    by (vm_compute; reflexivity).
  split; [exact Hreach|]. split; [exact Hfresh|].
  destruct (add_utterance (regex := no_match) (sample_world "11111111") self
              "The sky is blue" (voice 100 120 5000) "microphone")
    as [[self' entry]|] eqn:Hadd; [|vm_compute in Hadd; discriminate Hadd].
  destruct (match_increments_samples_count (regex := no_match) self
              (sample_world "11111111") "The sky is blue"
              (voice 100 120 5000) "microphone" self' entry Hreach Hfresh
              Hadd) as [Hmatch _].
  destruct Hmatch as (old & new & Hold & Hnew & Hcount).
  - exists "speaker_0a1b2c3d", (sample_profile "speaker_0a1b2c3d" 100 120 5000).
    split; [vm_compute; now left|]. vm_compute. reflexivity.
  - now exists self', entry, old, new.
Defined.

(** C3 fails: after a question by one speaker, a remark by the same speaker
    and an answer by a second speaker, entry 2 answers question 0 and no
    question stands between them, yet the group of question 0 has no answer:
    the scan stopped at entry 1. *)
Lemma later_answer_is_not_collected :
  let self := session (regex := no_match) late_answer_calls in
  let m := get_minutes_structure (iso := no_parse) "2026-01-05T11:00:00"
             self in
  exists g e1 e2,
    Minutes.qa_pairs m = [g]
    /\ fst (Minutes.question g) = 0%nat
    /\ nth_error (transcript self) 1 = Some e1
    /\ Entry.type e1 = Entry.statement
    /\ Entry.answers_question e1 = None
    /\ nth_error (transcript self) 2 = Some e2
    /\ Entry.answers_question e2 = Some 0%nat
    /\ Minutes.answers g = []
    /\ scan_as_specified 0 1 (skipn 1 (transcript self)) = [(2%nat, e2)].
Proof.
  cbv zeta. eexists _, _, _.
  split; [vm_compute; reflexivity|].
  split; [reflexivity|].
  split; [vm_compute; reflexivity|].
  split; [reflexivity|].
  split; [reflexivity|].
  split; [vm_compute; reflexivity|].
  split; [reflexivity|].
  split; [reflexivity|].
  vm_compute. reflexivity.
Qed.

(** The group of the second of two questions: its answers are the block
    made of the one entry that follows it. *)
Lemma group_answers_are_the_adjacent_block_witness :
  let self := session (regex := no_match) two_question_calls in
  let m := get_minutes_structure (iso := no_parse) "2026-01-05T11:00:00"
             self in
  exists g entry e2,
    nth_error (Minutes.qa_pairs m) 1 = Some g
    /\ Minutes.question g = (1%nat, entry)
    /\ nth_error (transcript self) 2 = Some e2
    /\ Entry.answers_question e2 = Some 1%nat
    /\ Minutes.answers g = [(2%nat, e2)]
    /\ exists k,
         Minutes.answers g
         = combine (seq 2 k) (firstn k (skipn 2 (transcript self)))
         /\ forall e, In e (firstn k (skipn 2 (transcript self))) ->
              Entry.answers_question e = Some 1%nat.
Proof.
  intros self m.
  destruct (nth_error (Minutes.qa_pairs m) 1) as [g|] eqn:Eg;
    [|vm_compute in Eg; discriminate Eg].
  destruct (group_answers_are_the_adjacent_block (iso := no_parse)
              "2026-01-05T11:00:00" self g (nth_error_In _ _ Eg))
    as (i & entry & k & Hq & _ & _ & _ & Ha & Hall & _).
  assert (Hi : i = 1%nat).
  { vm_compute in Eg. injection Eg as <-. now injection Hq as <- _. }
  subst i.
  destruct (nth_error (transcript self) 2) as [e2|] eqn:E2;
    [|vm_compute in E2; discriminate E2].
  exists g, entry, e2. split; [reflexivity|]. split; [exact Hq|].
  split; [reflexivity|].
  split; [vm_compute in E2; injection E2 as <-; reflexivity|].
  split; [|exists k; split; [exact Ha|exact Hall]].
  vm_compute in Eg, E2. injection Eg as <-. injection E2 as <-.
  reflexivity.
Defined.

(** C4 fails on its first half: of two questions in a row by one speaker,
    the second is recorded as the follow-up of the first group and is also
    the question of a group of its own. *)
Lemma follow_up_question_opens_a_group :
  let self := session (regex := no_match) two_question_calls in
  let m := get_minutes_structure (iso := no_parse) "2026-01-05T11:00:00"
             self in
  exists g0 g1 e1,
    Minutes.qa_pairs m = [g0; g1]
    /\ fst (Minutes.question g0) = 0%nat
    /\ Minutes.follow_up_questions g0 = [(1%nat, e1)]
    /\ Minutes.question g1 = (1%nat, e1).
Proof.
  cbv zeta. eexists _, _, _.
  split; [vm_compute; reflexivity|].
  repeat split.
Qed.

(** The meeting registered by the start route and fed one utterance. *)
Lemma minutes_deterministic_once_started_witness :
  exists meeting,
    Py.dict_get fed "m-1" = Some meeting
    /\ start_time meeting = Some "2026-01-05T10:00:00"
    /\ get_minutes_structure (iso := no_parse) "2026-01-05T11:00:00" meeting
       = get_minutes_structure (iso := no_parse) "2026-01-05T11:00:01"
           meeting
    /\ Minutes.date
         (get_minutes_structure (iso := no_parse) "2026-01-05T11:00:00"
            meeting)
       = "2026-01-05T10:00:00".
Proof.
  destruct (Py.dict_get fed "m-1") as [meeting|] eqn:E;
    [|vm_compute in E; discriminate E].
  assert (Hst : start_time meeting = Some "2026-01-05T10:00:00").
  { vm_compute in E. injection E as <-. reflexivity. }
  exists meeting. split; [reflexivity|]. split; [exact Hst|].
  refine (minutes_deterministic_once_started (iso := no_parse) meeting
            "2026-01-05T10:00:00" _ _ Hst _).
  discriminate.
Defined.

(** ** More on sessions *)

Lemma resolve_frame_sources w self vf src self1 sid :
  get_or_create_speaker w self vf src = Some (self1, sid) ->
  audio_sources self1 = audio_sources self
  /\ meeting_title self1 = meeting_title self.
Proof.
  destruct (resolve_cases w self vf src)
    as [(id & Hs & Hne & Heq)|(_ & Heq)]; rewrite Heq.
  - unfold update_speaker.
    destruct (Py.dict_get (participants self) id); [|discriminate].
    intros [= <- <-]. split; reflexivity.
  - unfold create_speaker. intros [= <- <-]. split; reflexivity.
Qed.

Lemma dict_set_new_key {V : Type} (d : list (string * V)) (k : string)
  (v : V) :
  Py.dict_get d k = None ->
  Py.dict_set d k v = (d ++ [(k, v)])%list.
Proof.
  induction d as [|[k0 v0] d IH]; simpl; [reflexivity|].
  destruct (String.eqb k0 k); [discriminate|]. intros H. now rewrite IH.
Qed.

(** Speaker resolution never removes a profile: the keys after the call
    are the keys before it, followed by the new key if one was made. *)
Lemma resolve_keys w self vf src self1 sid :
  get_or_create_speaker w self vf src = Some (self1, sid) ->
  (speaker_counter self <= speaker_counter self1)%nat
  /\ exists tail,
       map fst (participants self1)
       = (map fst (participants self) ++ tail)%list
       /\ (tail = [] \/ tail = [sid]).
Proof.
  intros Hres.
  destruct (resolve_outcome _ _ _ _ _ _ Hres)
    as [(old & Hne & Hold & ->)|Hc].
  - simpl. split; [lia|]. exists []. rewrite app_nil_r.
    split; [|now left]. now apply dict_set_keys with (v := old).
  - destruct (create_speaker_eq w self vf src) as (p & _ & Hp).
    rewrite Hp in Hc. apply pair_equal_spec in Hc. destruct Hc as [-> ->].
    simpl. split; [lia|].
    destruct (Py.dict_get (participants self) ("speaker_" ++ uuid_hex w))
      as [old|] eqn:E.
    + exists []. rewrite app_nil_r. split; [|now left].
      now apply dict_set_keys with (v := old).
    + exists ["speaker_" ++ uuid_hex w]. split; [|now right].
      rewrite (dict_set_new_key _ _ _ E), map_app. reflexivity.
Qed.

Lemma str_in_In (x : string) (xs : list string) :
  Py.str_in x xs = true <-> In x xs.
Proof.
  unfold Py.str_in. rewrite existsb_exists. split.
  - intros (y & Hin & E). apply String.eqb_eq in E. now subst.
  - intros H. exists x. split; [exact H|apply String.eqb_refl].
Qed.

Lemma set_add_In (s : list string) (x y : string) :
  In y (Py.set_add s x) <-> In y s \/ y = x.
Proof.
  unfold Py.set_add. destruct (Py.str_in x s) eqn:E.
  - apply str_in_In in E. split; [auto|]. intros [H| ->]; assumption.
  - rewrite in_app_iff. simpl. intuition congruence.
Qed.

Lemma set_add_NoDup (s : list string) (x : string) :
  NoDup s -> NoDup (Py.set_add s x).
Proof.
  intros Hs. unfold Py.set_add. destruct (Py.str_in x s) eqn:E; [exact Hs|].
  apply NoDup_app; [exact Hs|repeat constructor; intros []|].
  intros y Hy [<-|[]]. apply str_in_In in Hy. congruence.
Qed.

Lemma StronglySorted_snoc (l : list nat) (n : nat) :
  StronglySorted lt l ->
  (forall x, In x l -> (x < n)%nat) ->
  StronglySorted lt (l ++ [n]).
Proof.
  induction 1 as [|a l Hs IH Ha]; intros Hlt; simpl.
  - repeat constructor.
  - constructor.
    + apply IH. intros x Hx. apply Hlt. now right.
    + apply Forall_app. split; [exact Ha|].
      constructor; [|constructor]. apply Hlt. now left.
Qed.

Lemma StronglySorted_removelast (l : list nat) :
  StronglySorted lt l -> StronglySorted lt (removelast l).
Proof.
  induction 1 as [|a l Hs IH Ha]; simpl; [constructor|].
  destruct l as [|b l]; [constructor|].
  constructor; [exact IH|].
  apply Forall_forall. intros x Hx. apply In_removelast in Hx.
  rewrite Forall_forall in Ha. auto.
Qed.

Lemma map_removelast {A B : Type} (f : A -> B) (l : list A) :
  map f (removelast l) = removelast (map f l).
Proof.
  induction l as [|a l IH]; [reflexivity|]. simpl.
  destruct l as [|b l]; [reflexivity|]. simpl in *. now rewrite IH.
Qed.

Lemma create_speaker_profile w self vf src :
  create_speaker w self vf src
  = (set_participants
       (Py.dict_set (participants self) ("speaker_" ++ uuid_hex w)
          (created_profile w self vf src))
       (set_speaker_counter (speaker_counter self + 1) self),
     "speaker_" ++ uuid_hex w).
Proof. reflexivity. Qed.

Lemma nth_error_dict_set {V : Type} (d : list (string * V)) (k : string)
  (v : V) : forall i k' v',
  nth_error (Py.dict_set d k v) i = Some (k', v') ->
  nth_error d i = Some (k', v')
  \/ (k' = k /\ v' = v
      /\ exists old, nth_error d i = Some (k, old)
                     /\ Py.dict_get d k = Some old)
  \/ (k' = k /\ v' = v /\ i = length d /\ Py.dict_get d k = None).
Proof.
  induction d as [|[k0 v0] d IH]; intros i k' v'; simpl.
  - destruct i as [|i]; simpl; [|destruct i; discriminate].
    intros [= <- <-]. right. right. auto.
  - destruct (String.eqb k0 k) eqn:E.
    + apply String.eqb_eq in E. subst k0.
      destruct i as [|i]; simpl; [|auto].
      intros [= <- <-]. right. left. repeat split. now exists v0.
    + destruct i as [|i]; simpl; [auto|].
      intros H. destruct (IH _ _ _ H) as [H1|[(-> & -> & old & Ho & Hg)
                                            |(-> & -> & -> & Hg)]].
      * now left.
      * right. left. repeat split. now exists old.
      * right. right. auto.
Qed.

Lemma dict_get_None_keys {V : Type} (d : list (string * V)) (k : string) :
  Py.dict_get d k = None <-> ~ In k (map fst d).
Proof.
  induction d as [|[k0 v0] d IH]; simpl; [tauto|].
  destruct (String.eqb k0 k) eqn:E.
  - apply String.eqb_eq in E. split; [discriminate|]. intros H. tauto.
  - apply String.eqb_neq in E. rewrite IH. tauto.
Qed.

Lemma dict_set_length {V : Type} (d : list (string * V)) (k : string)
  (v old : V) :
  Py.dict_get d k = Some old -> length (Py.dict_set d k v) = length d.
Proof.
  intros H. rewrite <- (length_map fst (Py.dict_set d k v)),
    (dict_set_keys _ _ _ _ H). apply length_map.
Qed.

Section Sessions.

Context {regex : Regex}.

Set Default Proof Using "Type".

Lemma mark_flags_fields text sid data e :
  let e' := mark_flags text sid data e in
  Entry.type e' = Entry.type e
  /\ Entry.question_id e' = Entry.question_id e
  /\ Entry.answers_question e' = Entry.answers_question e
  /\ Entry.speaker_id e' = Entry.speaker_id e
  /\ Entry.speaker_name e' = Entry.speaker_name e
  /\ Entry.is_remote e' = Entry.is_remote e
  /\ Entry.audio_source e' = Entry.audio_source e
  /\ Entry.text e' = Entry.text e.
Proof.
  unfold mark_flags.
  destruct (detect_decision text), (detect_action_item text sid);
    repeat split.
Qed.

(** The three outcomes of the classification block. *)
Lemma thread_cases w self sid text base :
  let th := thread w self sid text base in
  let n := length (transcript self) in
  (is_question text = true
   /\ fst th = Entry.set_question n base
   /\ snd th
      = (unanswered_questions self
         ++ [Pending.mk n (now_pending w) sid])%list)
  \/ (is_question text = false
      /\ exists q,
           Py.last_item (unanswered_questions self) = Some q
           /\ fst th = Entry.set_answer (Pending.index q) base
           /\ (snd th = removelast (unanswered_questions self)
               \/ snd th = unanswered_questions self))
  \/ (is_question text = false
      /\ fst th = base
      /\ snd th = unanswered_questions self).
Proof.
  unfold thread. destruct (is_question text).
  - left. repeat split.
  - right.
    destruct (Py.last_item (unanswered_questions self)) as [q|] eqn:El.
    + destruct (is_answer_to q _ sid text).
      * left. split; [reflexivity|]. exists q. split; [reflexivity|].
        split; [reflexivity|]. destruct (pops q _ text); simpl; auto.
      * right. repeat split.
    + right. repeat split.
Qed.

(** One call of [add_utterance], field by field. *)
Lemma add_utterance_step w self text vf src self' entry :
  add_utterance w self text vf src = Some (self', entry) ->
  exists self1 sid data,
    get_or_create_speaker w self vf src = Some (self1, sid)
    /\ Py.dict_get (participants self1) sid = Some data
    /\ participants self' = participants self1
    /\ speaker_counter self' = speaker_counter self1
    /\ transcript self' = (transcript self ++ [entry])%list
    /\ audio_sources self' = Py.set_add (audio_sources self) src
    /\ start_time self' = start_time self
    /\ end_time self' = end_time self
    /\ Entry.speaker_id entry = sid
    /\ Entry.speaker_name entry = Profile.name data
    /\ Entry.is_remote entry = Profile.is_remote data
    /\ Entry.audio_source entry = src
    /\ Entry.text entry = text
    /\ let n := length (transcript self) in
       (is_question text = true
        /\ Entry.type entry = Entry.question
        /\ Entry.question_id entry = Some n
        /\ Entry.answers_question entry = None
        /\ unanswered_questions self'
           = (unanswered_questions self
              ++ [Pending.mk n (now_pending w) sid])%list)
       \/ (is_question text = false
           /\ Entry.type entry = Entry.answer
           /\ Entry.question_id entry = None
           /\ exists q,
                Py.last_item (unanswered_questions self) = Some q
                /\ Entry.answers_question entry = Some (Pending.index q)
                /\ (unanswered_questions self'
                    = removelast (unanswered_questions self)
                    \/ unanswered_questions self'
                       = unanswered_questions self))
       \/ (is_question text = false
           /\ Entry.type entry = Entry.statement
           /\ Entry.question_id entry = None
           /\ Entry.answers_question entry = None
           /\ unanswered_questions self' = unanswered_questions self).
Proof.
  intros Hadd.
  destruct (add_utterance_eq w self text vf src)
    as (self1 & sid & data & Hres & Hdata & Heq).
  rewrite Heq in Hadd. injection Hadd as Hadd.
  destruct (resolve_frame _ _ _ _ _ _ Hres) as (Htr & Hpend & _ & Hst & Hen).
  destruct (resolve_frame_sources _ _ _ _ _ _ Hres) as (Hsrc & _).
  exists self1, sid, data. split; [exact Hres|]. split; [exact Hdata|].
  unfold append_entry in Hadd. fold (base_entry w sid data text vf src) in Hadd.
  pose proof (thread_cases w self1 sid text
                (base_entry w sid data text vf src)) as Hcases.
  destruct (thread w self1 sid text (base_entry w sid data text vf src))
    as [e pending].
  pose proof (mark_flags_fields text sid data e)
    as (F1 & F2 & F3 & F4 & F5 & F6 & F7 & F8).
  injection Hadd as <- <-. simpl.
  rewrite F1, F2, F3, F4, F5, F6, F7, F8, <- Htr, <- Hpend, <- Hsrc, <- Hst,
    <- Hen.
  simpl in Hcases.
  destruct Hcases as [(Hq & -> & ->)|[(Hq & q & Hl & -> & Hp)|(Hq & -> & ->)]];
    simpl; repeat (split; [reflexivity|]).
  - left. repeat split. exact Hq.
  - right. left. repeat split; [exact Hq|]. exists q. auto.
  - right. right. repeat split. exact Hq.
Qed.

Lemma add_utterance_well_typed w self text vf src self' entry :
  well_typed self ->
  add_utterance w self text vf src = Some (self', entry) ->
  well_typed self'.
Proof.
  intros Hwt Hadd.
  destruct (add_utterance_step _ _ _ _ _ _ _ Hadd)
    as (self1 & sid & data & _ & _ & _ & _ & Htr & _ & _ & _ & _ & _ & _ & _
        & _ & Hcase).
  intros i e Hi. rewrite Htr in Hi.
  assert (Hlen : (i < length (transcript self ++ [entry]))%nat)
    by (apply nth_error_Some; congruence).
  rewrite length_app in Hlen. simpl in Hlen.
  destruct (Nat.eq_dec i (length (transcript self))) as [->|Hne].
  - rewrite nth_error_app2, Nat.sub_diag in Hi by lia.
    injection Hi as <-. unfold typed_at. simpl in Hcase.
    destruct Hcase
      as [(_ & -> & Hq & Ha & _)
         |[(_ & -> & Hq & q & _ & Ha & _)|(_ & -> & Hq & Ha & _)]];
      eauto.
  - rewrite nth_error_app1 in Hi by lia. auto.
Qed.

Lemma reachable_well_typed ok self :
  reachable_with ok self -> well_typed self.
Proof.
  induction 1 as [mt d|self t _ IH|self t _ IH
                 |self w text vf src self' entry _ IH _ Hadd].
  - intros [|i] e H; discriminate.
  - exact IH.
  - exact IH.
  - eapply add_utterance_well_typed; eassumption.
Qed.

(** X1.  In every store reachable by calls of [add_utterance], the entry
    at index [i] carries [question_id], equal to [i], exactly when its type
    is [question], and carries [answers_question] exactly when its type is
    [answer]; a statement carries neither. *)
Theorem entries_carry_the_fields_of_their_type self i e :
  reachable self ->
  nth_error (transcript self) i = Some e ->
  match Entry.type e with
  | Entry.question =>
      Entry.question_id e = Some i /\ Entry.answers_question e = None
  | Entry.answer =>
      Entry.question_id e = None
      /\ exists k, Entry.answers_question e = Some k
  | Entry.statement =>
      Entry.question_id e = None /\ Entry.answers_question e = None
  end.
Proof.
  intros Hr Hi. exact (reachable_well_typed _ _ Hr i e Hi).
Qed.

Lemma add_utterance_stack_ordered w self text vf src self' entry :
  stack_ordered self ->
  add_utterance w self text vf src = Some (self', entry) ->
  stack_ordered self'.
Proof.
  intros [Hsort Hpoint] Hadd.
  destruct (add_utterance_step _ _ _ _ _ _ _ Hadd)
    as (self1 & sid & data & _ & _ & _ & _ & Htr & _ & _ & _ & Hsid & _ & _
        & _ & _ & Hcase).
  assert (Hold : forall p, In p (unanswered_questions self) ->
            exists q,
              nth_error (transcript self') (Pending.index p) = Some q
              /\ Entry.type q = Entry.question
              /\ Entry.speaker_id q = Pending.speaker p).
  { intros p Hp. destruct (Hpoint p Hp) as (q & Hq & Hty & Hsp).
    exists q. rewrite Htr, nth_error_app1; [auto|].
    apply nth_error_Some. congruence. }
  assert (Hbound : forall x,
            In x (map Pending.index (unanswered_questions self)) ->
            (x < length (transcript self))%nat).
  { intros x Hx. apply in_map_iff in Hx. destruct Hx as (p & <- & Hp).
    destruct (Hpoint p Hp) as (q & Hq & _).
    apply nth_error_Some. congruence. }
  simpl in Hcase. unfold stack_ordered.
  destruct Hcase
    as [(_ & Hty & _ & _ & ->)
       |[(_ & _ & _ & q & _ & _ & [-> | ->])|(_ & _ & _ & _ & ->)]].
  - split.
    + rewrite map_app. simpl. now apply StronglySorted_snoc.
    + intros p Hp. apply in_app_or in Hp. destruct Hp as [Hp|[<-|[]]];
        [auto|].
      exists entry. simpl. rewrite Htr, nth_error_app2, Nat.sub_diag by lia.
      auto.
  - split.
    + rewrite map_removelast. now apply StronglySorted_removelast.
    + intros p Hp. apply Hold. now apply In_removelast.
  - split; assumption.
  - split; assumption.
Qed.

Lemma reachable_stack_ordered ok self :
  reachable_with ok self -> stack_ordered self.
Proof.
  induction 1 as [mt d|self t _ IH|self t _ IH
                 |self w text vf src self' entry _ IH _ Hadd].
  - split; [constructor|intros p []].
  - exact IH.
  - exact IH.
  - eapply add_utterance_stack_ordered; eassumption.
Qed.

(** X2.  In every reachable store the pending questions are stacked in
    strictly increasing order of index, so the top is the latest one, and
    each pending record points to an entry of type [question] spoken by
    the speaker the record names. *)
Theorem pending_stack_is_ordered self :
  reachable self ->
  StronglySorted lt (map Pending.index (unanswered_questions self))
  /\ forall p, In p (unanswered_questions self) ->
       exists q,
         nth_error (transcript self) (Pending.index p) = Some q
         /\ Entry.type q = Entry.question
         /\ Entry.speaker_id q = Pending.speaker p.
Proof.
  intros Hr. exact (reachable_stack_ordered _ _ Hr).
Qed.

Lemma add_utterance_sources w self text vf src self' entry :
  sources_recorded self ->
  add_utterance w self text vf src = Some (self', entry) ->
  sources_recorded self'.
Proof.
  intros [Hnd Hiff] Hadd.
  destruct (add_utterance_step _ _ _ _ _ _ _ Hadd)
    as (self1 & sid & data & _ & _ & _ & _ & Htr & Hsrc & _ & _ & _ & _ & _
        & Hes & _).
  unfold sources_recorded. rewrite Hsrc, Htr. split.
  - now apply set_add_NoDup.
  - intros s. rewrite set_add_In, Hiff. split.
    + intros [(e & He & Hs)| ->].
      * exists e. rewrite in_app_iff. auto.
      * exists entry. rewrite in_app_iff. simpl. auto.
    + intros (e & He & Hs). apply in_app_or in He.
      destruct He as [He|[<-|[]]]; [left; eauto|right; congruence].
Qed.

Lemma reachable_sources ok self :
  reachable_with ok self -> sources_recorded self.
Proof.
  induction 1 as [mt d|self t _ IH|self t _ IH
                 |self w text vf src self' entry _ IH _ Hadd].
  - split; [constructor|]. intros s. simpl. split; [tauto|].
    intros (e & [] & _).
  - exact IH.
  - exact IH.
  - eapply add_utterance_sources; eassumption.
Qed.

(** X3.  In every reachable store [audio_sources] holds each audio source
    once, and holds exactly the sources of the entries of the transcript. *)
Theorem audio_sources_are_those_of_the_entries self :
  reachable self ->
  NoDup (audio_sources self)
  /\ forall src,
       In src (audio_sources self)
       <-> exists e, In e (transcript self) /\ Entry.audio_source e = src.
Proof.
  intros Hr. exact (reachable_sources _ _ Hr).
Qed.

(** X4.  [add_utterance] always returns, and types the entry [question]
    exactly when [is_question] holds of the text, before any answer test:
    the question is then pushed on the pending stack with the index of the
    entry and its speaker.  With an empty stack, an utterance that is not a
    question is a statement and the stack stays empty. *)
Theorem question_test_comes_first w self text vf src :
  exists self' entry,
    add_utterance w self text vf src = Some (self', entry)
    /\ (Entry.type entry = Entry.question <-> is_question text = true)
    /\ (is_question text = true ->
        unanswered_questions self'
        = (unanswered_questions self
           ++ [Pending.mk (length (transcript self)) (now_pending w)
                 (Entry.speaker_id entry)])%list)
    /\ (is_question text = false ->
        unanswered_questions self = [] ->
        Entry.type entry = Entry.statement
        /\ unanswered_questions self' = []).
Proof.
  destruct (add_utterance_eq w self text vf src)
    as (s1 & sid0 & d0 & _ & _ & Heq).
  destruct (append_entry w s1 sid0 d0 text vf src) as [self' entry].
  exists self', entry. split; [exact Heq|].
  destruct (add_utterance_step _ _ _ _ _ _ _ Heq)
    as (self1 & sid & data & _ & _ & _ & _ & _ & _ & _ & _ & Hsid & _ & _
        & _ & _ & Hcase).
  simpl in Hcase. rewrite Hsid.
  destruct Hcase
    as [(Hq & Hty & _ & _ & Hp)
       |[(Hq & Hty & _ & q & Hl & _ & _)|(Hq & Hty & _ & _ & Hp)]];
    rewrite Hq, Hty.
  - split; [tauto|]. split; [auto|discriminate].
  - split; [split; discriminate|]. split; [discriminate|].
    intros _ He. rewrite He in Hl. discriminate.
  - split; [split; discriminate|]. split; [discriminate|].
    intros _ He. rewrite Hp, He. auto.
Qed.

(** X5.  A list of calls extends the transcript by one entry per call and
    leaves the earlier entries in place; the profiles existing before are
    all kept, in their order, and the speaker counter does not decrease. *)
Theorem run_appends calls : forall self self',
  run self calls = Some self' ->
  (exists new,
      transcript self' = (transcript self ++ new)%list
      /\ length new = length calls)
  /\ (exists tail,
        map fst (participants self')
        = (map fst (participants self) ++ tail)%list)
  /\ (speaker_counter self <= speaker_counter self')%nat.
Proof.
  induction calls as [|[[[w text] vf] src] calls IH]; intros self self';
    simpl.
  - intros [= <-]. split; [exists []; now rewrite app_nil_r|].
    split; [exists []; now rewrite app_nil_r|lia].
  - destruct (add_utterance w self text vf src) as [[self1 e]|] eqn:E;
      [|discriminate].
    intros Hrun.
    destruct (IH _ _ Hrun) as ((new & Hnew & Hlen) & (tail & Htail) & Hc).
    destruct (add_utterance_step _ _ _ _ _ _ _ E)
      as (s1 & sid & data & Hres & _ & Hps & Hcnt & Htr & _).
    destruct (resolve_keys _ _ _ _ _ _ Hres) as (Hc1 & t1 & Ht1 & _).
    split; [|split].
    + exists (e :: new). rewrite Hnew, Htr, <- app_assoc. simpl.
      split; [reflexivity|now rewrite Hlen].
    + exists (t1 ++ tail)%list. rewrite Htail, Hps, Ht1, app_assoc.
      reflexivity.
    + rewrite Hcnt in Hc. lia.
Qed.

Lemma add_utterance_numbered w self text vf src self' entry :
  profiles_numbered self ->
  fresh_id w self ->
  add_utterance w self text vf src = Some (self', entry) ->
  profiles_numbered self'.
Proof.
  intros (Hcnt & Hnd & Hnth) Hfresh Hadd.
  destruct (add_utterance_step _ _ _ _ _ _ _ Hadd)
    as (self1 & sid & data & Hres & _ & Hps & Hc & _).
  unfold profiles_numbered. rewrite Hps, Hc.
  destruct (resolve_outcome _ _ _ _ _ _ Hres)
    as [(old & Hne & Hold & ->)|Hcr].
  - simpl. split; [|split].
    + now rewrite (dict_set_length _ _ _ _ Hold).
    + now rewrite (dict_set_keys _ _ _ _ Hold).
    + intros i id p Hi.
      destruct (nth_error_dict_set _ _ _ _ _ _ Hi)
        as [H|[(-> & -> & o & Ho & Hg)|(_ & _ & _ & Hg)]].
      * exact (Hnth _ _ _ H).
      * rewrite Hold in Hg. injection Hg as <-.
        destruct (Hnth _ _ _ Ho) as (Hn & Hv & Hr).
        split; [exact Hn|]. split; [exact Hv|exact Hr].
      * congruence.
  - rewrite create_speaker_profile in Hcr.
    apply pair_equal_spec in Hcr. destruct Hcr as [-> ->]. simpl.
    rewrite (dict_set_new_key _ _ _ Hfresh). split; [|split].
    + rewrite length_app. simpl. lia.
    + rewrite map_app. simpl. apply NoDup_app; [exact Hnd| |].
      * repeat constructor. intros [].
      * intros k Hk [<-|[]]. now apply dict_get_None_keys in Hfresh.
    + intros i id p Hi.
      assert (Hlen : (i < length (participants self ++ [(
                ("speaker_" ++ uuid_hex w)%string,
                created_profile w self vf src)]))%nat)
        by (apply nth_error_Some; congruence).
      rewrite length_app in Hlen. simpl in Hlen.
      destruct (Nat.eq_dec i (length (participants self))) as [->|Hne].
      * rewrite nth_error_app2, Nat.sub_diag in Hi by lia.
        injection Hi as <- <-. rewrite <- Hcnt. repeat split.
      * rewrite nth_error_app1 in Hi by lia. exact (Hnth _ _ _ Hi).
Qed.

Lemma reachable_numbered self :
  reachable_fresh self -> profiles_numbered self.
Proof.
  induction 1 as [mt d|self t _ IH|self t _ IH
                 |self w text vf src self' entry _ IH Hok Hadd].
  - split; [reflexivity|]. split; [constructor|].
    intros [|i] id p H; discriminate.
  - exact IH.
  - exact IH.
  - eapply add_utterance_numbered; eassumption.
Qed.

(** X6.  In a session built by [add_utterance] calls with unused
    identifiers, the speaker counter is the number of profiles, the profile
    keys are pairwise distinct, and the profile created [i]-th (counting from
    0) is named "Participant {i+1}", with the suffix " (Remote)" exactly when
    its remote flag is set, which is when its audio source is one of
    tab_audio, system_audio, screen_share. *)
Theorem profiles_are_numbered_in_order self :
  reachable_fresh self ->
  speaker_counter self = length (participants self)
  /\ NoDup (map fst (participants self))
  /\ forall i id p,
       nth_error (participants self) i = Some (id, p) ->
       Profile.name p
       = "Participant " ++ Py.str_nat (i + 1)
         ++ (if Profile.is_remote p then " (Remote)" else EmptyString)
       /\ Profile.voice_id p = id
       /\ Profile.is_remote p
          = Py.str_in (Profile.audio_source p)
              ["tab_audio"; "system_audio"; "screen_share"].
Proof.
  intros Hr. exact (reachable_numbered _ Hr).
Qed.

Lemma add_utterance_denormalised w self text vf src self' entry :
  entries_denormalised self ->
  fresh_id w self ->
  add_utterance w self text vf src = Some (self', entry) ->
  entries_denormalised self'.
Proof.
  intros Hden Hfresh Hadd.
  destruct (add_utterance_step _ _ _ _ _ _ _ Hadd)
    as (self1 & sid & data & Hres & Hdata & Hps & _ & Htr & _ & _ & _ & Hsid
        & Hname & Hrem & _).
  intros e He. rewrite Htr in He. rewrite Hps.
  apply in_app_or in He. destruct He as [He|[<-|[]]].
  - destruct (Hden e He) as (p & Hp & Hn & Hr).
    destruct (resolve_outcome _ _ _ _ _ _ Hres)
      as [(old & Hne & Hold & ->)|Hcr].
    + simpl. rewrite dict_get_set.
      destruct (String.eqb sid (Entry.speaker_id e)) eqn:E.
      * apply String.eqb_eq in E. rewrite <- E, Hold in Hp.
        injection Hp as <-. eexists. split; [reflexivity|].
        split; [exact Hn|exact Hr].
      * exists p. auto.
    + rewrite create_speaker_profile in Hcr.
      apply pair_equal_spec in Hcr. destruct Hcr as [-> ->].
      unfold set_participants. cbn [participants]. rewrite dict_get_set.
      destruct (String.eqb ("speaker_" ++ uuid_hex w) (Entry.speaker_id e))
        eqn:E.
      * apply String.eqb_eq in E. unfold fresh_id in Hfresh.
        rewrite E in Hfresh. congruence.
      * exists p. auto.
  - exists data. rewrite Hsid. split; [exact Hdata|]. split; congruence.
Qed.

Lemma reachable_denormalised self :
  reachable_fresh self -> entries_denormalised self.
Proof.
  induction 1 as [mt d|self t _ IH|self t _ IH
                 |self w text vf src self' entry _ IH Hok Hadd].
  - intros e [].
  - exact IH.
  - exact IH.
  - eapply add_utterance_denormalised; eassumption.
Qed.

(** X7.  In a session built by [add_utterance] calls with unused
    identifiers, every entry's speaker has a profile, and the speaker name
    and the remote flag written in the entry are still those of that
    profile: a profile's name and remote flag never change. *)
Theorem entries_agree_with_profiles self e :
  reachable_fresh self ->
  In e (transcript self) ->
  exists p,
    Py.dict_get (participants self) (Entry.speaker_id e) = Some p
    /\ Profile.name p = Entry.speaker_name e
    /\ Profile.is_remote p = Entry.is_remote e.
Proof.
  intros Hr He. exact (reachable_denormalised _ Hr e He).
Qed.

End Sessions.

(** ** More on speaker resolution *)

(** X8.  Speaker resolution writes one profile only: the profile of every
    identifier other than the one returned is as it was before the call. *)
Theorem resolution_touches_one_profile w self vf src self' id id' :
  get_or_create_speaker w self vf src = Some (self', id) ->
  id' <> id ->
  Py.dict_get (participants self') id' = Py.dict_get (participants self) id'.
Proof.
  intros Hres Hne.
  destruct (resolve_outcome _ _ _ _ _ _ Hres)
    as [(old & _ & Hold & ->)|Hcr].
  - simpl. rewrite dict_get_set.
    destruct (String.eqb id id') eqn:E; [|reflexivity].
    apply String.eqb_eq in E. congruence.
  - rewrite create_speaker_profile in Hcr.
    apply pair_equal_spec in Hcr. destruct Hcr as [-> ->].
    unfold set_participants. cbn [participants]. rewrite dict_get_set.
    destruct (String.eqb ("speaker_" ++ uuid_hex w) id') eqn:E;
      [|reflexivity].
    apply String.eqb_eq in E. congruence.
Qed.

(** ** More on minutes synthesis *)

(** The second loop sorts the enumerated entries by the three tests. *)
Lemma bucket_fold_filter used items : forall ds acts keys,
  fold_left (bucket_step used) items (ds, acts, keys)
  = ((ds ++ filter (goes_to_decisions used) items)%list,
     (acts ++ filter (goes_to_action_items used) items)%list,
     (keys ++ filter (goes_to_key_points used) items)%list).
Proof.
  induction items as [|[i e] items IH]; intros ds acts keys; simpl.
  - now rewrite !app_nil_r.
  - unfold goes_to_decisions, goes_to_action_items, goes_to_key_points.
    simpl.
    destruct (existsb (Nat.eqb i) used); simpl; [apply IH|].
    destruct (Entry.is_decision e); simpl.
    + rewrite IH, <- app_assoc. reflexivity.
    + destruct (Entry.is_action_item e); simpl.
      * rewrite IH, <- app_assoc. reflexivity.
      * destruct (Entry.kind_eqb (Entry.type e) Entry.statement
                  && (50 <? Py.len (Entry.text e))%nat); simpl.
        -- rewrite IH, <- app_assoc. reflexivity.
        -- apply IH.
Qed.

Lemma filter_enumerate_sorted {A : Type} (f : nat * A -> bool) (l : list A) :
  forall a,
  StronglySorted lt (map fst (filter f (combine (seq a (length l)) l))).
Proof.
  induction l as [|x l IH]; intros a; simpl; [constructor|].
  assert (Htail : Forall (lt a)
            (map fst (filter f (combine (seq (S a) (length l)) l)))).
  { apply Forall_forall. intros i Hi. apply in_map_iff in Hi.
    destruct Hi as ([i' e] & <- & Hin). apply filter_In in Hin.
    destruct Hin as [Hin _]. apply In_combine_seq in Hin. simpl. lia. }
  destruct (f (a, x)); simpl; [constructor; auto|auto].
Qed.

(** The first loop of the participants: local and remote profiles, each in
    the order of the store. *)
Lemma participant_fold self ps : forall local remote,
  fold_left (participant_step self) ps (local, remote)
  = ((local
      ++ map (participant_info_of self)
           (filter (fun item => negb (Profile.is_remote (snd item))) ps))%list,
     (remote
      ++ map (participant_info_of self)
           (filter (fun item => Profile.is_remote (snd item)) ps))%list).
Proof.
  induction ps as [|[pid pdata] ps IH]; intros local remote; simpl.
  - now rewrite !app_nil_r.
  - destruct (Profile.is_remote pdata); simpl; rewrite IH, <- app_assoc;
      reflexivity.
Qed.

Lemma utterances_of_cons id e t :
  utterances_of id (e :: t)
  = ((if String.eqb (Entry.speaker_id e) id then 1 else 0)
     + utterances_of id t)%nat.
Proof.
  unfold utterances_of. simpl.
  now destruct (String.eqb (Entry.speaker_id e) id).
Qed.

Lemma one_key_counts (keys : list string) (x : string) :
  NoDup keys -> In x keys ->
  list_sum (map (fun k => if String.eqb x k then 1 else 0)%nat keys) = 1%nat.
Proof.
  induction 1 as [|k keys Hk Hnd IH]; simpl; [tauto|].
  intros [->|Hin].
  - rewrite String.eqb_refl.
    assert (Hz : list_sum (map (fun k => if String.eqb x k then 1 else 0)%nat
                             keys) = 0%nat).
    { clear IH Hnd. induction keys as [|k keys IH]; [reflexivity|]. simpl.
      destruct (String.eqb x k) eqn:E.
      - apply String.eqb_eq in E. subst. exfalso. apply Hk. now left.
      - apply IH. intros H. apply Hk. now right. }
    now rewrite Hz.
  - destruct (String.eqb x k) eqn:E.
    + apply String.eqb_eq in E. subst. contradiction.
    + now rewrite IH.
Qed.

(** Over distinct keys that include every speaker of the transcript, the
    per-speaker counts add up to the length of the transcript. *)
Lemma utterances_sum (keys : list string) (t : list Entry.t) :
  NoDup keys ->
  (forall e, In e t -> In (Entry.speaker_id e) keys) ->
  list_sum (map (fun k => utterances_of k t) keys) = length t.
Proof.
  intros Hnd. induction t as [|e t IH]; intros Hin.
  - clear Hnd Hin. induction keys as [|k keys IHk]; [reflexivity|].
    simpl. exact IHk.
  - assert (Hsplit : forall ks,
              list_sum (map (fun k => utterances_of k (e :: t)) ks)
              = (list_sum
                   (map (fun k =>
                           if String.eqb (Entry.speaker_id e) k
                           then 1 else 0)%nat ks)
                 + list_sum (map (fun k => utterances_of k t) ks))%nat).
    { induction ks as [|k ks IHk]; [reflexivity|]. simpl.
      rewrite IHk, utterances_of_cons. lia. }
    rewrite Hsplit.
    rewrite IH by (intros e' He'; apply Hin; now right).
    rewrite one_key_counts; [reflexivity|exact Hnd|apply Hin; now left].
Qed.

Lemma list_sum_filter_split {A : Type} (f : A -> nat) (p : A -> bool)
  (l : list A) :
  (list_sum (map f (filter (fun x => negb (p x)) l))
   + list_sum (map f (filter p l)))%nat
  = list_sum (map f l).
Proof.
  induction l as [|x l IH]; [reflexivity|]. simpl.
  destruct (p x); simpl; lia.
Qed.

Section MoreSynthesis.

Context {iso : IsoParser}.

Set Default Proof Using "Type".

Lemma minutes_buckets now self :
  let m := get_minutes_structure now self in
  let used :=
    snd (qa_loop (length (transcript self)) 0 (transcript self) [] []) in
  Minutes.decisions m
  = filter (goes_to_decisions used) (enumerate (transcript self))
  /\ Minutes.action_items m
     = filter (goes_to_action_items used) (enumerate (transcript self))
  /\ Minutes.key_discussion_points m
     = filter (goes_to_key_points used) (enumerate (transcript self))
  /\ forall i, existsb (Nat.eqb i) used = true <-> In i (qa_bucket m).
Proof.
  intros m used.
  destruct (minutes_fields now self) as (Hqa & Hd & Ha & Hk).
  fold m in Hqa, Hd, Ha, Hk. fold used in Hd, Ha, Hk.
  rewrite bucket_fold_filter in Hd, Ha, Hk. simpl in Hd, Ha, Hk.
  repeat (split; [assumption|]).
  intros i. rewrite existsb_eqb_In.
  pose proof (qa_loop_eq (length (transcript self)) (transcript self) 0
                [] []) as (Hg & Hused).
  simpl in Hg. unfold qa_bucket. rewrite Hqa, Hg. unfold used.
  rewrite Hused. simpl. tauto.
Qed.

(** X10.  An entry at position [i] is listed under decisions exactly when
    it is flagged as a decision and is held by no Q&A group; under action
    items exactly when it is flagged as an action item, not as a decision,
    and is held by no group; under key discussion points exactly when it is
    a statement of more than 50 characters with neither flag, held by no
    group.  So a decision or action item that is a question, a collected
    answer or a follow-up is listed in its Q&A group only. *)
Theorem bucket_membership now self i e :
  nth_error (transcript self) i = Some e ->
  let m := get_minutes_structure now self in
  (In (i, e) (Minutes.decisions m)
   <-> ~ In i (qa_bucket m) /\ Entry.is_decision e = true)
  /\ (In (i, e) (Minutes.action_items m)
      <-> ~ In i (qa_bucket m)
          /\ Entry.is_decision e = false
          /\ Entry.is_action_item e = true)
  /\ (In (i, e) (Minutes.key_discussion_points m)
      <-> ~ In i (qa_bucket m)
          /\ Entry.is_decision e = false
          /\ Entry.is_action_item e = false
          /\ Entry.type e = Entry.statement
          /\ (Py.len (Entry.text e) > 50)%nat).
Proof.
  intros Hi m.
  destruct (minutes_buckets now self) as (Hd & Ha & Hk & Hused).
  fold m in Hd, Ha, Hk, Hused.
  apply In_enumerate in Hi.
  assert (Hu : existsb (Nat.eqb i)
                 (snd (qa_loop (length (transcript self)) 0
                         (transcript self) [] [])) = false
               <-> ~ In i (qa_bucket m)).
  { rewrite <- Hused. destruct (existsb _ _); split; congruence. }
  rewrite Hd, Ha, Hk, !filter_In.
  unfold goes_to_decisions, goes_to_action_items, goes_to_key_points.
  simpl. rewrite !andb_true_iff, !negb_true_iff, Nat.ltb_lt, Hu.
  assert (Hst : Entry.kind_eqb (Entry.type e) Entry.statement = true
                <-> Entry.type e = Entry.statement).
  { destruct (Entry.type e); simpl; split; congruence. }
  rewrite Hst. unfold gt. tauto.
Qed.

(** X11.  Every list of the document follows the transcript: the Q&A
    groups by the position of their question, and the decisions, the action
    items and the key discussion points by position, each strictly
    increasing, so that no entry is listed twice in one of them. *)
Theorem minutes_lists_follow_the_transcript now self :
  let m := get_minutes_structure now self in
  StronglySorted lt
    (map (fun g => fst (Minutes.question g)) (Minutes.qa_pairs m))
  /\ StronglySorted lt (decision_bucket m)
  /\ StronglySorted lt (action_bucket m)
  /\ StronglySorted lt (discussion_bucket m).
Proof.
  intros m.
  destruct (minutes_buckets now self) as (Hd & Ha & Hk & _).
  destruct (minutes_fields now self) as (Hqa & _).
  fold m in Hd, Ha, Hk, Hqa.
  pose proof (qa_loop_eq (length (transcript self)) (transcript self) 0
                [] []) as (Hg & _).
  simpl in Hg.
  unfold decision_bucket, action_bucket, discussion_bucket.
  rewrite Hd, Ha, Hk, Hqa, Hg, groups_questions.
  unfold enumerate. repeat split; apply filter_enumerate_sorted.
Qed.

Lemma minutes_participants now self :
  let m := get_minutes_structure now self in
  Minutes.participants m
  = map (participant_info_of self)
      (filter (fun item => negb (Profile.is_remote (snd item)))
         (participants self))
  /\ Minutes.remote_participants m
     = map (participant_info_of self)
         (filter (fun item => Profile.is_remote (snd item))
            (participants self)).
Proof.
  unfold get_minutes_structure.
  rewrite participant_fold.
  destruct (qa_loop (length (transcript self)) 0 (transcript self) [] [])
    as [qa_pairs used].
  destruct (fold_left (bucket_step used) (enumerate (transcript self))
              ([], [], [])) as [[ds acts] keys].
  simpl. split; reflexivity.
Qed.

Context {regex : Regex}.

(** X12.  For a session built by [add_utterance] calls with unused
    identifiers, the document lists the profiles without the remote flag
    under participants and those with it under remote participants, each in
    order of creation, and the contribution counts of the two lists add up
    to the number of entries of the transcript. *)
Theorem speaking_times_add_up now self :
  reachable_fresh self ->
  let m := get_minutes_structure now self in
  Minutes.participants m
  = map (participant_info_of self)
      (filter (fun item => negb (Profile.is_remote (snd item)))
         (participants self))
  /\ Minutes.remote_participants m
     = map (participant_info_of self)
         (filter (fun item => Profile.is_remote (snd item))
            (participants self))
  /\ (total_speaking_time (Minutes.participants m)
      + total_speaking_time (Minutes.remote_participants m))%nat
     = length (transcript self).
Proof.
  intros Hr m.
  destruct (minutes_participants now self) as (Hl & Hrm).
  fold m in Hl, Hrm. split; [exact Hl|]. split; [exact Hrm|].
  destruct (reachable_numbered _ Hr) as (_ & Hnd & _).
  destruct (reachable_counted _ Hr) as (_ & Hknown & _).
  unfold total_speaking_time. rewrite Hl, Hrm, !map_map.
  rewrite (list_sum_filter_split
             (fun x => Minutes.speaking_time (participant_info_of self x))
             (fun item => Profile.is_remote (snd item))).
  rewrite <- (utterances_sum (map fst (participants self))
                (transcript self) Hnd).
  - rewrite map_map. reflexivity.
  - intros e He. specialize (Hknown e He).
    destruct (Py.dict_get (participants self) (Entry.speaker_id e))
      as [p|] eqn:E; [|congruence].
    apply dict_get_In in E. apply in_map_iff. now exists (Entry.speaker_id e, p).
Qed.

End MoreSynthesis.

(** ** More on the classifiers *)

Lemma drop_space_headed (l : list ascii) : headed (Py.drop_space l).
Proof.
  induction l as [|c l IH]; simpl; [exact I|].
  destruct (Py.isspace c) eqn:E; [exact IH|exact E].
Qed.

Lemma drop_space_id (l : list ascii) : headed l -> Py.drop_space l = l.
Proof.
  destruct l as [|c l]; simpl; [reflexivity|]. now intros ->.
Qed.

Lemma drop_space_split (l : list ascii) :
  exists sp,
    l = (sp ++ Py.drop_space l)%list
    /\ Forall (fun c => Py.isspace c = true) sp.
Proof.
  induction l as [|c l IH]; simpl.
  - exists []. split; [reflexivity|constructor].
  - destruct (Py.isspace c) eqn:E.
    + destruct IH as (sp & Hl & Hsp). exists (c :: sp). simpl.
      split; [now rewrite <- Hl|now constructor].
    + exists []. split; [reflexivity|constructor].
Qed.

Lemma drop_space_nil (l : list ascii) :
  Py.drop_space l = [] <-> Forall (fun c => Py.isspace c = true) l.
Proof.
  induction l as [|c l IH]; simpl.
  - split; [constructor|reflexivity].
  - destruct (Py.isspace c) eqn:E.
    + rewrite IH. split; [now constructor|now inversion 1].
    + split; [discriminate|]. inversion 1. congruence.
Qed.

(** Dropping the trailing whitespace of a list that does not start with
    whitespace leaves a list that does not start with whitespace. *)
Lemma rstrip_headed (a : list ascii) :
  headed a -> headed (rev (Py.drop_space (rev a))).
Proof.
  intros Ha. destruct (drop_space_split (rev a)) as (sp & Hl & _).
  assert (Ea : a = (rev (Py.drop_space (rev a)) ++ rev sp)%list).
  { rewrite <- rev_app_distr, <- Hl. now rewrite rev_involutive. }
  destruct (rev (Py.drop_space (rev a))) as [|c r]; [exact I|].
  rewrite Ea in Ha. exact Ha.
Qed.

Lemma strip_chars (s : string) :
  list_ascii_of_string (Py.strip s)
  = rev (Py.drop_space (rev (Py.drop_space (list_ascii_of_string s)))).
Proof.
  unfold Py.strip. apply list_ascii_of_string_of_list_ascii.
Qed.

(** [strip] leaves no whitespace at either end. *)
Lemma strip_headed (s : string) :
  headed (list_ascii_of_string (Py.strip s))
  /\ headed (rev (list_ascii_of_string (Py.strip s))).
Proof.
  rewrite strip_chars, rev_involutive. split.
  - apply rstrip_headed, drop_space_headed.
  - apply drop_space_headed.
Qed.

Lemma strip_idempotent (s : string) : Py.strip (Py.strip s) = Py.strip s.
Proof.
  destruct (strip_headed s) as (H1 & H2).
  unfold Py.strip at 1.
  rewrite (drop_space_id _ H1), (drop_space_id _ H2), rev_involutive.
  apply string_of_list_ascii_of_string.
Qed.

(** [strip] gives the empty string exactly on whitespace-only text. *)
Lemma strip_empty (s : string) :
  Py.strip s = EmptyString
  <-> Forall (fun c => Py.isspace c = true) (list_ascii_of_string s).
Proof.
  rewrite <- drop_space_nil. split.
  - intros H. apply (f_equal list_ascii_of_string) in H.
    rewrite strip_chars in H. simpl in H.
    apply (f_equal (@rev ascii)) in H. rewrite rev_involutive in H.
    simpl in H.
    destruct (drop_space_split
                (rev (Py.drop_space (list_ascii_of_string s))))
      as (sp & Hl & Hsp).
    rewrite H, app_nil_r in Hl.
    pose proof (drop_space_headed (list_ascii_of_string s)) as Hh.
    destruct (Py.drop_space (list_ascii_of_string s)) as [|c r];
      [reflexivity|].
    exfalso. simpl in Hh.
    assert (Hc : In c sp) by (rewrite <- Hl, <- in_rev; now left).
    rewrite Forall_forall in Hsp. specialize (Hsp c Hc). congruence.
  - intros H. unfold Py.strip. rewrite H. reflexivity.
Qed.

Section MoreClassifiers.

Context {regex : Regex}.

Set Default Proof Using "Type".

(** X13.  [is_question] looks at the stripped text only: whitespace
    around a text does not change the answer, whatever [re.search] finds. *)
Theorem is_question_ignores_outer_whitespace (text : string) :
  is_question (Py.strip text) = is_question text.
Proof.
  unfold is_question. now rewrite strip_idempotent.
Qed.

End MoreClassifiers.

Lemma lower_app (a b : string) :
  Py.lower (a ++ b) = Py.lower a ++ Py.lower b.
Proof.
  induction a as [|c a IH]; simpl; [reflexivity|now rewrite IH].
Qed.

Lemma prefix_app (sub s b : string) :
  String.prefix sub s = true -> String.prefix sub (s ++ b) = true.
Proof.
  revert s. induction sub as [|c sub IH]; intros s; simpl.
  - intros _. now destruct (s ++ b).
  - destruct s as [|d s]; simpl; [discriminate|].
    destruct (ascii_dec c d); [apply IH|discriminate].
Qed.

Lemma prefix_empty (sub : string) :
  String.prefix sub EmptyString = true -> sub = EmptyString.
Proof. destruct sub; [reflexivity|discriminate]. Qed.

Lemma contains_app_r (sub s b : string) :
  Py.contains sub s = true -> Py.contains sub (s ++ b) = true.
Proof.
  induction s as [|c s IH]; simpl.
  - rewrite orb_false_r. intros H. apply prefix_empty in H. subst sub.
    destruct b; reflexivity.
  - rewrite !orb_true_iff. intros [H|H].
    + left. exact (prefix_app sub (String c s) b H).
    + right. auto.
Qed.

Lemma contains_app_l (sub a s : string) :
  Py.contains sub s = true -> Py.contains sub (a ++ s) = true.
Proof.
  intros H. induction a as [|c a IH]; simpl; [exact H|].
  rewrite IH. apply orb_true_r.
Qed.

(** X14.  A text flagged as a decision stays flagged when other text is put
    before and after it: a decision marker counts wherever it stands. *)
Theorem detect_decision_in_context (before text after : string) :
  detect_decision text = true ->
  detect_decision (before ++ text ++ after) = true.
Proof.
  unfold detect_decision. rewrite !existsb_exists.
  intros (ind & Hin & Hc). exists ind. split; [exact Hin|].
  rewrite !lower_app. now apply contains_app_l, contains_app_r.
Qed.

(** ** Durations *)

Lemma to_uint_nonnil (n : nat) : Nat.to_uint n <> Decimal.Nil.
Proof.
  rewrite <- (DecimalNat.Unsigned.of_to n) at 1.
  rewrite DecimalNat.Unsigned.to_of. apply DecimalFacts.unorm_nonnil.
Qed.

(** A printed integer starts with a digit or a minus sign, so that no
    formatted duration is one of the two fixed answers. *)
Lemma str_Z_not_sentinel (z : Z) (rest : string) :
  Py.str_Z z ++ rest <> "In progress" /\ Py.str_Z z ++ rest <> "Unknown".
Proof.
  assert (Hn : forall n,
            Py.str_nat n ++ rest <> "In progress"
            /\ Py.str_nat n ++ rest <> "Unknown").
  { intros n. unfold Py.str_nat. pose proof (to_uint_nonnil n) as H.
    destruct (Nat.to_uint n); try congruence; simpl; split; discriminate. }
  destruct z as [|p|p]; unfold Py.str_Z; [apply Hn|apply Hn|].
  split; discriminate.
Qed.

Section Durations.

Context {iso : IsoParser}.

Set Default Proof Using "Type".

Lemma format_duration_not_sentinel (t : Z) :
  format_duration t <> "In progress" /\ format_duration t <> "Unknown".
Proof.
  unfold format_duration.
  destruct (0 <? t / 3600)%Z; [|destruct (0 <? t mod 3600 / 60)%Z];
    apply str_Z_not_sentinel.
Qed.

(** What [calculate_duration] returns once both timestamps are set. *)
Lemma calculate_duration_set self st en :
  start_time self = Some st -> end_time self = Some en ->
  st <> EmptyString -> en <> EmptyString ->
  calculate_duration self
  = match elapsed_seconds st en with
    | None => "Unknown"
    | Some t => format_duration t
    end.
Proof.
  intros Hs He Hst Hen. unfold calculate_duration.
  rewrite Hs, He, (truthy_nonempty _ Hst), (truthy_nonempty _ Hen).
  reflexivity.
Qed.

(** X15.  [calculate_duration] answers "In progress" exactly when the
    start or the end timestamp is absent or empty, and "Unknown" exactly
    when both are set and a line of the [try] block raises: one of the two
    does not parse, one is naive and the other aware, so that the
    subtraction is refused, or the seconds are not a finite number.  In
    every other case the answer is a formatted duration. *)
Theorem duration_sentinels self :
  (calculate_duration self = "In progress"
   <-> (start_time self = None \/ start_time self = Some EmptyString
        \/ end_time self = None \/ end_time self = Some EmptyString))
  /\ (calculate_duration self = "Unknown"
      <-> exists st en,
            start_time self = Some st /\ end_time self = Some en
            /\ st <> EmptyString /\ en <> EmptyString
            /\ (fromisoformat st = None \/ fromisoformat en = None
                \/ exists start end_,
                     fromisoformat st = Some start
                     /\ fromisoformat en = Some end_
                     /\ ((utcoffset start = None /\ utcoffset end_ <> None)
                         \/ (utcoffset start <> None
                             /\ utcoffset end_ = None)
                         \/ exists duration,
                              datetime_sub end_ start = Some duration
                              /\ Py.int (total_seconds duration) = None))).
Proof.
  destruct (start_time self) as [st|] eqn:Hs.
  2:{ unfold calculate_duration. rewrite Hs. split.
      - split; [auto|reflexivity].
      - split; [discriminate|]. intros (st0 & en0 & H & _). discriminate. }
  destruct (end_time self) as [en|] eqn:He.
  2:{ unfold calculate_duration. rewrite Hs, He. split.
      - split; [auto|reflexivity].
      - split; [discriminate|].
        intros (st0 & en0 & _ & H & _). discriminate. }
  destruct en as [|ce en'].
  { unfold calculate_duration. rewrite Hs, He. simpl. split.
    - split; [auto|reflexivity].
    - split; [discriminate|].
      intros (st0 & en0 & _ & [= <-] & _ & H & _). congruence. }
  destruct st as [|cs st'].
  { unfold calculate_duration. rewrite Hs, He. simpl. split.
    - split; [auto|reflexivity].
    - split; [discriminate|].
      intros (st0 & en0 & [= <-] & _ & H & _). congruence. }
  rewrite (calculate_duration_set self _ _ Hs He)
    by discriminate.
  set (st := String cs st') in *. set (en := String ce en') in *.
  assert (Hne : ~ (Some st = None \/ Some st = Some EmptyString
                   \/ Some en = None \/ Some en = Some EmptyString)).
  { intros [H|[H|[H|H]]]; discriminate. }
  unfold elapsed_seconds.
  destruct (fromisoformat st) as [start|] eqn:Ea.
  2:{ split; [split; [discriminate|tauto]|].
      split; [|reflexivity]. intros _. exists st, en.
      repeat (split; [reflexivity || discriminate|]). now left. }
  destruct (fromisoformat en) as [end_|] eqn:Eb.
  2:{ split; [split; [discriminate|tauto]|].
      split; [|reflexivity]. intros _. exists st, en.
      repeat (split; [reflexivity || discriminate|]). right. now left. }
  assert (Hsub : datetime_sub end_ start = None
                 <-> (utcoffset start = None /\ utcoffset end_ <> None)
                     \/ (utcoffset start <> None /\ utcoffset end_ = None)).
  { unfold datetime_sub.
    destruct (utcoffset end_), (utcoffset start); split; intros H;
      try discriminate H; try reflexivity;
      try (left; split; [reflexivity|discriminate]);
      try (right; split; [discriminate|reflexivity]);
      destruct H as [[H1 H2]|[H1 H2]]; congruence. }
  destruct (datetime_sub end_ start) as [duration|] eqn:Ed.
  2:{ split; [split; [discriminate|tauto]|].
      split; [|reflexivity]. intros _. exists st, en.
      repeat (split; [reflexivity || discriminate|]). right. right.
      exists start, end_. split; [exact Ea|]. split; [exact Eb|].
      destruct (proj1 Hsub eq_refl) as [H|H]; [now left|right; now left]. }
  destruct (Py.int (total_seconds duration)) as [t|] eqn:Et.
  2:{ split; [split; [discriminate|tauto]|].
      split; [|reflexivity]. intros _. exists st, en.
      repeat (split; [reflexivity || discriminate|]). right. right.
      exists start, end_. split; [exact Ea|]. split; [exact Eb|].
      right. right. exists duration. split; [exact Ed|exact Et]. }
  destruct (format_duration_not_sentinel t) as [Hf1 Hf2].
  split; [split; [intros H; exfalso; exact (Hf1 H)|tauto]|].
  split; [intros H; exfalso; exact (Hf2 H)|].
  intros (st0 & en0 & [= <-] & [= <-] & _ & _ & [H|[H|H]]);
    [congruence|congruence|].
  destruct H as (start0 & end0 & Ha0 & Hb0 & H).
  rewrite Ea in Ha0. rewrite Eb in Hb0.
  injection Ha0 as <-. injection Hb0 as <-.
  destruct H as [H|[H|(d & Hd & Hi)]].
  - assert (Some duration = None) by (apply Hsub; now left). discriminate.
  - assert (Some duration = None) by (apply Hsub; now right). discriminate.
  - rewrite Ed in Hd. injection Hd as <-. congruence.
Qed.

(** X16.  When the whole seconds that the code counts between start and
    end, [int(duration.total_seconds())], are [h] hours, [m] minutes and
    [s] seconds ([m], [s] below 60), the duration reads "{h}h {m}m {s}s" if
    [h > 0], else "{m}m {s}s" if [m > 0], else "{s}s": leading zero parts
    are left out. *)
Theorem duration_of_elapsed_time self st en h m s :
  start_time self = Some st -> end_time self = Some en ->
  st <> EmptyString -> en <> EmptyString ->
  elapsed_seconds st en = Some (h * 3600 + m * 60 + s)%Z ->
  (0 <= h)%Z -> (0 <= m < 60)%Z -> (0 <= s < 60)%Z ->
  calculate_duration self
  = if (0 <? h)%Z
    then Py.str_Z h ++ "h " ++ Py.str_Z m ++ "m " ++ Py.str_Z s ++ "s"
    else if (0 <? m)%Z
         then Py.str_Z m ++ "m " ++ Py.str_Z s ++ "s"
         else Py.str_Z s ++ "s".
Proof.
  intros Hs He Hst Hen Hd Hh Hm Hsec.
  rewrite (calculate_duration_set self st en Hs He Hst Hen), Hd.
  unfold format_duration.
  assert (H1 : ((h * 3600 + m * 60 + s) / 3600 = h)%Z)
    by (symmetry; apply (Z.div_unique _ _ _ (m * 60 + s)); lia).
  assert (H2 : ((h * 3600 + m * 60 + s) mod 3600 = m * 60 + s)%Z)
    by (symmetry; apply (Z.mod_unique _ _ h); lia).
  assert (H3 : ((m * 60 + s) / 60 = m)%Z)
    by (symmetry; apply (Z.div_unique _ _ _ s); lia).
  assert (H4 : ((h * 3600 + m * 60 + s) mod 60 = s)%Z)
    by (symmetry; apply (Z.mod_unique _ _ (h * 60 + m)); lia).
  cbv zeta. rewrite H1, H2, H3, H4. reflexivity.
Qed.

(** X17.  An end that the code counts [n >= 1] whole seconds before the
    start is not refused: no hours part is shown, and the minutes and
    seconds are those of [-n] taken modulo one hour, as for an end five
    and a half seconds early, which reads "59m 55s". *)
Theorem duration_of_negative_time self st en n :
  start_time self = Some st -> end_time self = Some en ->
  st <> EmptyString -> en <> EmptyString ->
  elapsed_seconds st en = Some (- n)%Z ->
  (1 <= n)%Z ->
  let r := ((- n) mod 3600)%Z in
  calculate_duration self
  = if (0 <? r / 60)%Z
    then Py.str_Z (r / 60) ++ "m " ++ Py.str_Z (r mod 60) ++ "s"
    else Py.str_Z (r mod 60) ++ "s".
Proof.
  intros Hs He Hst Hen Hd Hn r.
  rewrite (calculate_duration_set self st en Hs He Hst Hen), Hd.
  unfold format_duration. cbv zeta.
  assert (Hneg : (0 <? - n / 3600)%Z = false).
  { apply Z.ltb_ge. assert (- n / 3600 < 0)%Z; [|lia].
    apply Z.div_lt_upper_bound; lia. }
  rewrite Hneg. fold r.
  assert (Hr : (r mod 60 = - n mod 60)%Z).
  { unfold r. apply Z.mod_mod_divide. exists 60%Z. reflexivity. }
  rewrite Hr. reflexivity.
Qed.

End Durations.

(** ** The routes *)

Lemma minutes_read_start_time {iso : IsoParser} self st now1 now2 :
  start_time self = Some st ->
  st <> EmptyString ->
  get_minutes_structure now1 self = get_minutes_structure now2 self.
Proof.
  intros Hst Hne. unfold get_minutes_structure.
  now rewrite Hst, (truthy_nonempty _ Hne).
Qed.

Lemma truthy_false_empty (s : string) :
  Py.truthy s = false <-> s = EmptyString.
Proof. destruct s; simpl; split; congruence. Qed.

(** X18.  Whatever the offset asked for, [get_status] returns a final
    segment of the transcript and the full count: an offset [since >= 0]
    skips that many entries (all of them if there are fewer), an absent
    offset skips none, and a negative offset [-k] returns the last [k]
    entries (all of them if there are fewer). *)
Theorem get_status_returns_a_final_segment meetings meeting_id since meeting :
  Py.dict_get meetings meeting_id = Some meeting ->
  exists st earlier,
    get_status meetings meeting_id since = Ok st
    /\ status_total_count st = length (transcript meeting)
    /\ transcript meeting = (earlier ++ status_entries st)%list
    /\ let n := Z.of_nat (length (transcript meeting)) in
       let recent := Py.get since 0%Z in
       Z.of_nat (length earlier)
       = if (0 <=? recent)%Z then Z.min recent n else Z.max 0 (n + recent).
Proof.
  intros Hm. unfold get_status, slice_from. rewrite Hm. cbv zeta.
  destruct (0 <=? Py.get since 0)%Z eqn:E.
  - eexists.
    exists (firstn (Z.to_nat (Py.get since 0%Z)) (transcript meeting)).
    split; [reflexivity|]. split; [reflexivity|].
    cbn [status_entries]. split; [now rewrite firstn_skipn|].
    rewrite length_firstn. apply Z.leb_le in E. lia.
  - eexists.
    exists (firstn
              (Z.to_nat
                 (Z.max 0 (Z.of_nat (length (transcript meeting))
                           + Py.get since 0%Z)))
              (transcript meeting)).
    split; [reflexivity|]. split; [reflexivity|].
    cbn [status_entries]. split; [now rewrite firstn_skipn|].
    rewrite length_firstn. apply Z.leb_gt in E. lia.
Qed.

Section RouteProofs.

Context {regex : Regex}.

Set Default Proof Using "Type".

(** The outcomes of [receive_audio]. *)
Lemma receive_audio_cases w meetings meeting_id data :
  match snd (receive_audio w meetings meeting_id data) with
  | Error status error =>
      fst (receive_audio w meetings meeting_id data) = meetings
      /\ ((status = 404%nat /\ Py.dict_get meetings meeting_id = None)
          \/ (status = 400%nat
              /\ Py.dict_get meetings meeting_id <> None
              /\ (data = not_an_object false
                  \/ exists d,
                       data = object d
                       /\ (body_is_empty d = true
                           \/ exists text,
                                field_get (body_text d) EmptyString
                                = Some text
                                /\ Forall (fun c => Py.isspace c = true)
                                     (list_ascii_of_string text)))))
  | Raised e =>
      fst (receive_audio w meetings meeting_id data) = meetings
      /\ Py.dict_get meetings meeting_id <> None
      /\ ((e = HTTPException /\ data = no_json)
          \/ (e = AttributeError
              /\ (data = not_an_object true
                  \/ exists d,
                       data = object d
                       /\ body_is_empty d = false
                       /\ body_text d = other_type))
          \/ (e = TypeError
              /\ exists d text,
                   data = object d
                   /\ body_is_empty d = false
                   /\ field_get (body_text d) EmptyString = Some text
                   /\ Py.strip text <> EmptyString
                   /\ body_voice_features d = other_type))
  | Ok body =>
      exists meeting meeting' d text,
        Py.dict_get meetings meeting_id = Some meeting
        /\ data = object d
        /\ body_is_empty d = false
        /\ field_get (body_text d) EmptyString = Some text
        /\ body_voice_features d <> other_type
        /\ fst (receive_audio w meetings meeting_id data)
           = Py.dict_set meetings meeting_id meeting'
        /\ transcript meeting'
           = (transcript meeting ++ [reply_entry body])%list
        /\ Entry.text (reply_entry body) = Py.strip text
        /\ Entry.text (reply_entry body) <> EmptyString
        /\ reply_speaker_count body = length (participants meeting')
        /\ reply_audio_sources body = audio_sources meeting'
  end.
Proof.
  unfold receive_audio.
  destruct (Py.dict_get meetings meeting_id) as [meeting|] eqn:Hm.
  2:{ simpl. split; [first [reflexivity|assumption]|]. left. split; reflexivity. }
  destruct data as [|[|]|d].
  - simpl. split; [first [reflexivity|assumption]|]. split; [discriminate|]. left. now split.
  - simpl. split; [first [reflexivity|assumption]|]. split; [discriminate|]. right. left.
    split; [first [reflexivity|assumption]|]. now left.
  - simpl. split; [first [reflexivity|assumption]|]. right.
    split; [first [reflexivity|assumption]|]. split; [discriminate|]. now left.
  - destruct (body_is_empty d) eqn:Hb.
    { simpl. split; [first [reflexivity|assumption]|]. right.
      split; [first [reflexivity|assumption]|]. split; [discriminate|]. right. eauto. }
    destruct (field_get (body_text d) EmptyString) as [text|] eqn:Htxt.
    2:{ simpl. split; [first [reflexivity|assumption]|]. split; [discriminate|]. right. left.
        split; [first [reflexivity|assumption]|]. right. exists d.
        split; [first [reflexivity|assumption]|]. split; [first [reflexivity|assumption]|].
        destruct (body_text d); [discriminate|reflexivity|discriminate]. }
    cbv zeta.
    destruct (Py.truthy (Py.strip text)) eqn:Ht; cbn [negb].
    2:{ simpl. split; [first [reflexivity|assumption]|]. right.
        split; [first [reflexivity|assumption]|]. split; [discriminate|]. right.
        exists d. split; [first [reflexivity|assumption]|]. right. exists text.
        split; [first [reflexivity|assumption]|].
        apply strip_empty. now apply truthy_false_empty. }
    assert (Hne : Py.strip text <> EmptyString)
      by (intros He; rewrite He in Ht; discriminate).
    destruct (field_get (body_voice_features d) _) as [vf|] eqn:Hvf.
    2:{ simpl. split; [first [reflexivity|assumption]|]. split; [discriminate|]. right. right.
        split; [first [reflexivity|assumption]|]. exists d, text.
        split; [first [reflexivity|assumption]|]. split; [first [reflexivity|assumption]|].
        split; [first [reflexivity|assumption]|]. split; [exact Hne|].
        destruct (body_voice_features d);
          [discriminate|reflexivity|discriminate]. }
    match goal with
    | |- context [add_utterance w meeting ?t ?v ?s] =>
        destruct (add_utterance w meeting t v s)
          as [[meeting' entry]|] eqn:Hadd;
          [|destruct (add_utterance_eq w meeting t v s)
              as (? & ? & ? & _ & _ & Hsome); congruence]
    end.
    destruct (add_utterance_step _ _ _ _ _ _ _ Hadd)
      as (s1 & sid & pdata & _ & _ & _ & _ & Htr & _ & _ & _ & _ & _
          & _ & _ & Htext & _).
    simpl. exists meeting, meeting', d, text.
    split; [first [reflexivity|assumption]|]. split; [first [reflexivity|assumption]|].
    split; [first [reflexivity|assumption]|]. split; [first [reflexivity|assumption]|].
    split; [intros E; rewrite E in Hvf; discriminate|].
    split; [first [reflexivity|assumption]|].
    split; [exact Htr|]. split; [exact Htext|].
    split; [|split; reflexivity].
    rewrite Htext. exact Hne.
Qed.


(** An accepted call of [receive_audio] is one call of [add_utterance] on
    the addressed meeting, with the stripped text. *)
Lemma receive_audio_adds w meetings meeting_id data :
  match snd (receive_audio w meetings meeting_id data) with
  | Error _ _ | Raised _ =>
      fst (receive_audio w meetings meeting_id data) = meetings
  | Ok body =>
      exists meeting meeting' text vf src,
        Py.dict_get meetings meeting_id = Some meeting
        /\ add_utterance w meeting text vf src
           = Some (meeting', reply_entry body)
        /\ text <> EmptyString
        /\ Py.strip text = text
        /\ fst (receive_audio w meetings meeting_id data)
           = Py.dict_set meetings meeting_id meeting'
  end.
Proof.
  unfold receive_audio.
  destruct (Py.dict_get meetings meeting_id) as [meeting|] eqn:Hm;
    [|reflexivity].
  destruct data as [|[|]|d]; try reflexivity.
  destruct (body_is_empty d); [reflexivity|].
  destruct (field_get (body_text d) EmptyString) as [text|];
    [|reflexivity].
  cbv zeta.
  destruct (Py.truthy (Py.strip text)) eqn:Ht; cbn [negb]; [|reflexivity].
  destruct (field_get (body_voice_features d) _) as [vf0|]; [|reflexivity].
  match goal with
  | |- context [add_utterance w meeting ?t ?v ?s] =>
      destruct (add_utterance w meeting t v s)
        as [[meeting' entry]|] eqn:Hadd; [|reflexivity];
      simpl; exists meeting, meeting', t, v, s
  end.
  split; [reflexivity|]. split; [exact Hadd|].
  split; [|split; [apply strip_idempotent|reflexivity]].
  intros He. rewrite He in Ht. discriminate.
Qed.

(** X20.  A client that asks [get_status] for the entries after the count
    it knew receives, after one accepted call of [receive_audio], exactly
    the entry of that call, with a count one higher. *)
Theorem polling_returns_the_new_entry w meetings meeting_id data meeting
  meetings' body :
  Py.dict_get meetings meeting_id = Some meeting ->
  receive_audio w meetings meeting_id data = (meetings', Ok body) ->
  exists st,
    get_status meetings' meeting_id
      (Some (Z.of_nat (length (transcript meeting))))
    = Ok st
    /\ status_entries st = [reply_entry body]
    /\ status_total_count st = (length (transcript meeting) + 1)%nat.
Proof.
  intros Hm Hr.
  pose proof (receive_audio_cases w meetings meeting_id data) as Hs.
  rewrite Hr in Hs. simpl in Hs.
  destruct Hs as (m0 & meeting' & d & text & Hm0 & _ & _ & _ & _ & -> & Htr
                  & _).
  rewrite Hm in Hm0. injection Hm0 as <-.
  unfold get_status. rewrite dict_get_set, String.eqb_refl.
  eexists. split; [reflexivity|]. simpl. unfold slice_from.
  rewrite Htr, length_app. simpl.
  assert (E : (0 <=? Z.of_nat (length (transcript meeting)))%Z = true)
    by (apply Z.leb_le; lia).
  rewrite E, Nat2Z.id, skipn_app, skipn_all, Nat.sub_diag. simpl.
  split; reflexivity.
Qed.

End RouteProofs.

Section ServedProofs.

Context {regex : Regex} {iso : IsoParser}.

Set Default Proof Using "Type".


Lemma served_well meetings :
  served meetings ->
  forall meeting_id meeting,
    Py.dict_get meetings meeting_id = Some meeting -> well_served meeting.
Proof.
  induction 1 as [|uuid title_date now meetings mt _ IH Hnow
                 |w meetings mid data _ IH
                 |now meetings mid _ IH Hnow];
    intros meeting_id meeting Hget.
  - discriminate.
  - assert (Hreg : forall d,
              Py.dict_get
                (fst (register_meeting uuid title_date now meetings d))
                meeting_id = Some meeting ->
              well_served meeting).
    { intros d Hd. unfold register_meeting in Hd. cbn [fst] in Hd.
      rewrite dict_get_set in Hd.
      destruct (String.eqb uuid meeting_id); [|eauto].
      injection Hd as <-. split; [|split].
      + apply reach_start, reach_init.
      + exists now. split; [reflexivity|exact Hnow].
      + intros e []. }
    destruct mt as [|[|]|d]; cbn [start_meeting fst] in Hget; eauto.
  - pose proof (receive_audio_adds w meetings mid data) as Hc.
    destruct (snd (receive_audio w meetings mid data)).
    + destruct Hc as (m & m' & text & vf & src & Hm & Hadd & Hne & Hstrip
                      & Hfst).
      rewrite Hfst, dict_get_set in Hget.
      destruct (String.eqb mid meeting_id); [|eauto].
      injection Hget as <-.
      destruct (IH _ _ Hm) as (Hr & (st & Hst & Hstne) & Htexts).
      destruct (add_utterance_step _ _ _ _ _ _ _ Hadd)
        as (s1 & sid & pdata & _ & _ & _ & _ & Htr & _ & Hstart & _ & _ & _
            & _ & _ & Htext & _).
      split; [|split].
      * eapply reach_add; [exact Hr|exact I|exact Hadd].
      * exists st. rewrite Hstart. auto.
      * intros e He. rewrite Htr in He. apply in_app_or in He.
        destruct He as [He|[<-|[]]]; [auto|].
        rewrite Htext. auto.
    + rewrite Hc in Hget. eauto.
    + rewrite Hc in Hget. eauto.
  - unfold stop_meeting in Hget.
    destruct (Py.dict_get meetings mid) as [m|] eqn:Hm; [|eauto].
    cbn [fst] in Hget. rewrite dict_get_set in Hget.
    destruct (String.eqb mid meeting_id); [|eauto].
    injection Hget as <-.
    destruct (IH _ _ Hm) as (Hr & Hst & Htexts).
    split; [|split].
    + now apply reach_stop.
    + exact Hst.
    + exact Htexts.
Qed.

(** X22.  Every meeting of a registry produced by the routes is a session
    of the engine with its start timestamp recorded, holds only texts that
    are stripped and not empty, and has minutes that do not depend on the
    clock: two runs of [get_minutes_structure] return the same document. *)
Theorem served_meetings_are_sessions meetings meeting_id meeting now1 now2 :
  served meetings ->
  Py.dict_get meetings meeting_id = Some meeting ->
  reachable meeting
  /\ (exists st, start_time meeting = Some st /\ st <> EmptyString)
  /\ (forall e, In e (transcript meeting) ->
        Entry.text e <> EmptyString
        /\ Py.strip (Entry.text e) = Entry.text e)
  /\ get_minutes_structure now1 meeting = get_minutes_structure now2 meeting.
Proof.
  intros Hs Hget.
  destruct (served_well _ Hs _ _ Hget) as (Hr & (st & Hst & Hne) & Ht).
  split; [exact Hr|]. split; [eauto|]. split; [exact Ht|].
  exact (minutes_read_start_time meeting st now1 now2 Hst Hne).
Qed.

End ServedProofs.

(** ** More concrete runs *)

Lemma late_answer_calls_fresh :
  all_fresh (regex := no_match) (init "physical" "2026-01-05 10:00")
    late_answer_calls.
Proof. vm_compute. repeat split. Qed.

Lemma entries_carry_the_fields_of_their_type_witness :
  let self := session (regex := no_match) late_answer_calls in
  reachable (regex := no_match) self
  /\ exists e,
       nth_error (transcript self) 2 = Some e
       /\ Entry.type e = Entry.answer
       /\ Entry.question_id e = None
       /\ exists k, Entry.answers_question e = Some k.
Proof.
  intros self. split; [apply session_reachable|].
  destruct (nth_error (transcript self) 2) as [e|] eqn:E;
    [|vm_compute in E; discriminate E].
  pose proof (entries_carry_the_fields_of_their_type (regex := no_match)
                self 2 e (session_reachable late_answer_calls) E) as H.
  assert (Hty : Entry.type e = Entry.answer).
  { vm_compute in E. injection E as <-. reflexivity. }
  rewrite Hty in H. exists e. split; [reflexivity|].
  split; [exact Hty|exact H].
Defined.

Lemma pending_stack_is_ordered_witness :
  let self := session (regex := no_match) (firstn 2 two_question_calls) in
  reachable (regex := no_match) self
  /\ StronglySorted lt (map Pending.index (unanswered_questions self)).
Proof.
  intros self. split; [apply session_reachable|].
  exact (proj1 (pending_stack_is_ordered (regex := no_match) self
                  (session_reachable _))).
Defined.

Lemma audio_sources_are_those_of_the_entries_witness :
  let self := session (regex := no_match) late_answer_calls in
  reachable (regex := no_match) self /\ NoDup (audio_sources self).
Proof.
  intros self. split; [apply session_reachable|].
  exact (proj1 (audio_sources_are_those_of_the_entries (regex := no_match)
                  self (session_reachable _))).
Defined.

Lemma run_appends_witness :
  exists self' new,
    run (regex := no_match) (init "physical" "2026-01-05 10:00")
      late_answer_calls = Some self'
    /\ transcript self' = new
    /\ length new = 3%nat.
Proof.
  destruct (run (regex := no_match) (init "physical" "2026-01-05 10:00")
              late_answer_calls) as [self'|] eqn:E;
    [|vm_compute in E; discriminate E].
  destruct (run_appends (regex := no_match) late_answer_calls _ _ E)
    as ((new & Hnew & Hlen) & _).
  exists self', new. split; [reflexivity|]. split; [exact Hnew|exact Hlen].
Defined.

Lemma profiles_are_numbered_in_order_witness :
  let self := session (regex := no_match) late_answer_calls in
  reachable_fresh (regex := no_match) self
  /\ speaker_counter self = length (participants self)
  /\ NoDup (map fst (participants self)).
Proof.
  intros self.
  assert (Hr : reachable_fresh (regex := no_match) self)
    by (apply session_reachable_fresh, late_answer_calls_fresh).
  split; [exact Hr|].
  destruct (profiles_are_numbered_in_order (regex := no_match) self Hr)
    as (H1 & H2 & _).
  split; [exact H1|exact H2].
Defined.

Lemma entries_agree_with_profiles_witness :
  let self := session (regex := no_match) late_answer_calls in
  reachable_fresh (regex := no_match) self
  /\ forall e, In e (transcript self) ->
       exists p,
         Py.dict_get (participants self) (Entry.speaker_id e) = Some p
         /\ Profile.name p = Entry.speaker_name e.
Proof.
  intros self.
  assert (Hr : reachable_fresh (regex := no_match) self)
    by (apply session_reachable_fresh, late_answer_calls_fresh).
  split; [exact Hr|]. intros e He.
  destruct (entries_agree_with_profiles (regex := no_match) self e Hr He)
    as (p & Hp & Hn & _).
  exists p. split; [exact Hp|exact Hn].
Defined.

Lemma resolution_touches_one_profile_witness :
  exists self',
    get_or_create_speaker (sample_world "11111111")
      (one_speaker "physical" 100 120 5000) (voice 200 120 5000)
      "microphone"
    = Some (self', "speaker_11111111")
    /\ "speaker_0a1b2c3d" <> "speaker_11111111"
    /\ Py.dict_get (participants self') "speaker_0a1b2c3d"
       = Py.dict_get (participants (one_speaker "physical" 100 120 5000))
           "speaker_0a1b2c3d".
Proof.
  destruct (get_or_create_speaker (sample_world "11111111")
              (one_speaker "physical" 100 120 5000) (voice 200 120 5000)
              "microphone") as [[self' id]|] eqn:E;
    [|vm_compute in E; discriminate E].
  assert (Hid : id = "speaker_11111111").
  { vm_compute in E. injection E as _ <-. reflexivity. }
  subst id. exists self'. split; [reflexivity|].
  split; [discriminate|].
  apply (resolution_touches_one_profile _ _ _ _ _ _ _ E). discriminate.
Defined.

Lemma bucket_membership_witness :
  let self := session (regex := no_match) decision_calls in
  let m := get_minutes_structure (iso := no_parse) "2026-01-05T11:00:00"
             self in
  exists e,
    nth_error (transcript self) 0 = Some e
    /\ In (0%nat, e) (Minutes.decisions m).
Proof.
  intros self m.
  destruct (nth_error (transcript self) 0) as [e|] eqn:E;
    [|vm_compute in E; discriminate E].
  exists e. split; [reflexivity|].
  destruct (bucket_membership (iso := no_parse) "2026-01-05T11:00:00" self
              0 e E) as (Hd & _).
  apply Hd. vm_compute in E. injection E as <-.
  split; [|reflexivity]. vm_compute. tauto.
Defined.

Lemma speaking_times_add_up_witness :
  let self := session (regex := no_match) late_answer_calls in
  let m := get_minutes_structure (iso := no_parse) "2026-01-05T11:00:00"
             self in
  reachable_fresh (regex := no_match) self
  /\ (total_speaking_time (Minutes.participants m)
      + total_speaking_time (Minutes.remote_participants m))%nat
     = length (transcript self).
Proof.
  intros self m.
  assert (Hr : reachable_fresh (regex := no_match) self)
    by (apply session_reachable_fresh, late_answer_calls_fresh).
  split; [exact Hr|].
  destruct (speaking_times_add_up (iso := no_parse) (regex := no_match)
              "2026-01-05T11:00:00" self Hr) as (_ & _ & H).
  exact H.
Defined.

Lemma detect_decision_in_context_witness :
  detect_decision "we agreed" = true
  /\ detect_decision ("Yes, " ++ "we agreed" ++ " on it") = true.
Proof.
  split; [reflexivity|].
  apply detect_decision_in_context. reflexivity.
Defined.

(** The example of the specification: one minute and five seconds. *)
Lemma duration_of_elapsed_time_witness :
  calculate_duration (iso := sample_clock)
    (set_end_time "2026-01-05T10:01:05"
       (one_speaker "physical" 100 120 5000))
  = "1m 5s".
Proof.
  rewrite (duration_of_elapsed_time (iso := sample_clock)
             (set_end_time "2026-01-05T10:01:05"
                (one_speaker "physical" 100 120 5000))
             "2026-01-05T10:00:00" "2026-01-05T10:01:05" 0 1 5);
    [reflexivity|reflexivity|reflexivity|discriminate|discriminate
    |vm_compute; reflexivity|lia|lia|lia].
Defined.

(** An end five and a half seconds before the start. *)
Lemma duration_of_negative_time_witness :
  calculate_duration (iso := sample_clock)
    (set_end_time "2026-01-05T09:59:54.500000"
       (set_start_time "2026-01-05T10:00:00"
          (init "physical" "2026-01-05 10:00")))
  = "59m 55s".
Proof.
  rewrite (duration_of_negative_time (iso := sample_clock)
             (set_end_time "2026-01-05T09:59:54.500000"
                (set_start_time "2026-01-05T10:00:00"
                   (init "physical" "2026-01-05 10:00")))
             "2026-01-05T10:00:00" "2026-01-05T09:59:54.500000" 5);
    [reflexivity|reflexivity|reflexivity|discriminate|discriminate
    |vm_compute; reflexivity|lia].
Defined.

Lemma get_status_returns_a_final_segment_witness :
  exists meeting st earlier,
    Py.dict_get fed "m-1" = Some meeting
    /\ get_status fed "m-1" (Some (-1)%Z) = Ok st
    /\ transcript meeting = (earlier ++ status_entries st)%list
    /\ length earlier = 0%nat.
Proof.
  destruct (Py.dict_get fed "m-1") as [meeting|] eqn:E;
    [|vm_compute in E; discriminate E].
  destruct (get_status_returns_a_final_segment fed "m-1" (Some (-1)%Z)
              meeting E) as (st & earlier & Hst & _ & Htr & Hlen).
  exists meeting, st, earlier. split; [reflexivity|].
  split; [exact Hst|]. split; [exact Htr|].
  assert (Hn : length (transcript meeting) = 1%nat).
  { vm_compute in E. injection E as <-. reflexivity. }
  cbv zeta in Hlen. rewrite Hn in Hlen. simpl in Hlen. lia.
Defined.

Lemma polling_returns_the_new_entry_witness :
  exists meeting meetings' body st,
    Py.dict_get started "m-1" = Some meeting
    /\ receive_audio (regex := no_match) (sample_world "0a1b2c3d") started
         "m-1" (object ship_it)
       = (meetings', Ok body)
    /\ get_status meetings' "m-1" (Some 0%Z) = Ok st
    /\ status_entries st = [reply_entry body].
Proof.
  destruct (Py.dict_get started "m-1") as [meeting|] eqn:E;
    [|vm_compute in E; discriminate E].
  destruct (receive_audio (regex := no_match) (sample_world "0a1b2c3d")
              started "m-1" (object ship_it))
    as [meetings' [body|code msg|e]] eqn:Hr;
    [|vm_compute in Hr; discriminate Hr|vm_compute in Hr; discriminate Hr].
  destruct (polling_returns_the_new_entry (regex := no_match) _ _ _ _ _ _ _
              E Hr) as (st & Hst & Hentries & _).
  exists meeting, meetings', body, st. split; [reflexivity|].
  split; [reflexivity|]. split; [|exact Hentries].
  assert (Hn : length (transcript meeting) = 0%nat).
  { vm_compute in E. injection E as <-. reflexivity. }
  rewrite Hn in Hst. exact Hst.
Defined.


Lemma served_meetings_are_sessions_witness :
  served (regex := no_match) (iso := no_parse) fed
  /\ exists meeting,
       Py.dict_get fed "m-1" = Some meeting
       /\ get_minutes_structure (iso := no_parse) "2026-01-05T11:00:00"
            meeting
          = get_minutes_structure (iso := no_parse) "2026-01-05T11:00:01"
              meeting.
Proof.
  assert (Hs : served (regex := no_match) (iso := no_parse) fed).
  { apply served_audio.
    apply (served_start "m-1" "2026-01-05 10:00" "2026-01-05T10:00:00" []
             (object (mkStartBody None)) served_nothing).
    discriminate. }
  split; [exact Hs|].
  destruct (Py.dict_get fed "m-1") as [meeting|] eqn:E;
    [|vm_compute in E; discriminate E].
  exists meeting. split; [reflexivity|].
  destruct (served_meetings_are_sessions (regex := no_match)
              (iso := no_parse) fed "m-1" meeting "2026-01-05T11:00:00"
              "2026-01-05T11:00:01" Hs E) as (_ & _ & _ & H).
  exact H.
Defined.

(** ** Where the answers stand *)

Section Proximity.

Context {regex : Regex}.

Set Default Proof Using "Type".

(** An entry that comes out of the classification block as an answer passed
    the answer test against the pending question on top of the stack. *)
Lemma thread_answer w self sid text base i :
  Entry.answers_question base = None ->
  Entry.answers_question (fst (thread w self sid text base)) = Some i ->
  exists q,
    Py.last_item (unanswered_questions self) = Some q
    /\ Pending.index q = i
    /\ is_answer_to q (length (transcript self)) sid text = true.
Proof.
  intros Hbase. unfold thread. destruct (is_question text).
  - simpl. congruence.
  - destruct (Py.last_item (unanswered_questions self)) as [q|];
      [|simpl; congruence].
    destruct (is_answer_to q _ sid text) eqn:E; [|simpl; congruence].
    simpl. intros [= <-]. exists q. auto.
Qed.

Lemma add_utterance_answer w self text vf src self' entry i :
  add_utterance w self text vf src = Some (self', entry) ->
  Entry.answers_question entry = Some i ->
  exists q,
    In q (unanswered_questions self)
    /\ Pending.index q = i
    /\ is_answer_to q (length (transcript self)) (Entry.speaker_id entry)
         (Entry.text entry) = true.
Proof.
  intros Hadd Hans.
  destruct (add_utterance_eq w self text vf src)
    as (self1 & sid & data & Hres & Hdata & Heq).
  rewrite Heq in Hadd. injection Hadd as Hadd.
  destruct (resolve_frame _ _ _ _ _ _ Hres) as (Htr & Hpend & _).
  unfold append_entry in Hadd. fold (base_entry w sid data text vf src) in Hadd.
  pose proof (thread_answer w self1 sid text
                (base_entry w sid data text vf src) i eq_refl) as Hth.
  pose proof (thread_cases w self1 sid text
                (base_entry w sid data text vf src)) as Hcases.
  destruct (thread w self1 sid text (base_entry w sid data text vf src))
    as [e pending].
  pose proof (mark_flags_fields text sid data e)
    as (_ & _ & F3 & F4 & _ & _ & _ & F8).
  injection Hadd as _ <-. rewrite F3 in Hans. rewrite F4, F8.
  destruct (Hth Hans) as (q & Hl & Hi & Hq).
  rewrite Htr in Hq. rewrite Hpend in Hl.
  assert (He : Entry.speaker_id e = sid /\ Entry.text e = text).
  { simpl in Hcases.
    destruct Hcases as [(_ & -> & _)|[(_ & q' & _ & -> & _)|(_ & -> & _)]];
      split; reflexivity. }
  destruct He as (-> & ->).
  exists q. split; [now apply last_item_In|]. split; assumption.
Qed.

Lemma add_utterance_answers_justified w self text vf src self' entry :
  stack_ordered self ->
  answers_justified self ->
  add_utterance w self text vf src = Some (self', entry) ->
  answers_justified self'.
Proof.
  intros [_ Hpoint] Hj Hadd.
  destruct (add_utterance_step _ _ _ _ _ _ _ Hadd)
    as (self1 & sid & data & _ & _ & _ & _ & Htr & _).
  intros k e i Hk Hans. rewrite Htr in Hk |- *.
  assert (Hlen : (k < length (transcript self ++ [entry]))%nat)
    by (apply nth_error_Some; congruence).
  rewrite length_app in Hlen. simpl in Hlen.
  destruct (Nat.eq_dec k (length (transcript self))) as [->|Hne].
  - rewrite nth_error_app2, Nat.sub_diag in Hk by lia.
    injection Hk as <-.
    destruct (add_utterance_answer _ _ _ _ _ _ _ _ Hadd Hans)
      as (q & Hin & Hi & Hq).
    unfold is_answer_to in Hq.
    destruct (existsb _ answer_starters); [now left|]. right.
    apply andb_true_iff in Hq. destruct Hq as (Hq & Hend).
    apply andb_true_iff in Hq. destruct Hq as (Hnear & Hsp).
    apply negb_true_iff in Hend. apply negb_true_iff in Hsp.
    apply String.eqb_neq in Hsp. apply Z.leb_le in Hnear.
    destruct (Hpoint q Hin) as (qe & Hqe & _ & Hspk).
    split; [lia|]. split; [exact Hend|].
    exists qe. rewrite <- Hi. split; [|congruence].
    rewrite nth_error_app1; [exact Hqe|].
    apply nth_error_Some. congruence.
  - rewrite nth_error_app1 in Hk by lia.
    destruct (Hj k e i Hk Hans) as [H|(Hnear & Hend & q & Hq & Hsp)];
      [now left|right].
    split; [exact Hnear|]. split; [exact Hend|]. exists q.
    split; [|exact Hsp]. rewrite nth_error_app1; [exact Hq|].
    apply nth_error_Some. congruence.
Qed.

Lemma reachable_answers_justified ok self :
  reachable_with ok self -> answers_justified self.
Proof.
  induction 1 as [mt d|self t _ IH|self t _ IH
                 |self w text vf src self' entry Hr IH _ Hadd].
  - intros k e i Hk. destruct k; discriminate Hk.
  - exact IH.
  - exact IH.
  - eapply add_utterance_answers_justified; [|exact IH|exact Hadd].
    exact (reachable_stack_ordered _ _ Hr).
Qed.

(** X24.  In every reachable store an answer either opens with one of the
    eleven answer starters, or stands at most four entries after the
    question it answers, was spoken by another speaker than that question,
    and does not end with a question mark. *)
Theorem answers_stand_near_their_question self k e i :
  reachable self ->
  nth_error (transcript self) k = Some e ->
  Entry.answers_question e = Some i ->
  existsb (fun starter => Py.startswith (Py.lower (Entry.text e)) starter)
    answer_starters = true
  \/ ((k - i <= 4)%nat
      /\ Py.endswith (Entry.text e) "?" = false
      /\ exists q,
           nth_error (transcript self) i = Some q
           /\ Entry.speaker_id q <> Entry.speaker_id e).
Proof.
  intros Hr. exact (reachable_answers_justified _ _ Hr k e i).
Qed.

End Proximity.

Lemma answers_stand_near_their_question_witness :
  let self := session (regex := no_match) late_answer_calls in
  reachable (regex := no_match) self
  /\ exists e,
       nth_error (transcript self) 2 = Some e
       /\ Entry.answers_question e = Some 0%nat
       /\ (existsb
            (fun starter => Py.startswith (Py.lower (Entry.text e)) starter)
            answer_starters = true
          \/ ((2 - 0 <= 4)%nat
              /\ Py.endswith (Entry.text e) "?" = false
              /\ exists q,
                   nth_error (transcript self) 0 = Some q
                   /\ Entry.speaker_id q <> Entry.speaker_id e)).
Proof.
  intros self. split; [apply session_reachable|].
  destruct (nth_error (transcript self) 2) as [e|] eqn:E;
    [|vm_compute in E; discriminate E].
  assert (Ha : Entry.answers_question e = Some 0%nat).
  { vm_compute in E. injection E as <-. reflexivity. }
  exists e. split; [reflexivity|]. split; [exact Ha|].
  exact (answers_stand_near_their_question (regex := no_match) self 2 e 0
           (session_reachable late_answer_calls) E Ha).
Defined.

(** ** Deadlines and question words *)

Section Words.

Context {regex : Regex}.

Set Default Proof Using "Type".

(** X25.  A text that holds one of the nine deadline phrases, in any letter
    case and wherever it stands, is flagged as an action item, whatever
    [re.search] finds and whoever speaks. *)
Theorem deadline_phrase_makes_an_action_item
  (before d after speaker : string) :
  In (Py.lower d) deadline_words ->
  detect_action_item (before ++ d ++ after) speaker = true.
Proof.
  intros Hin. unfold detect_action_item.
  destruct (existsb _ assign_patterns); [reflexivity|].
  apply existsb_exists. exists (Py.lower d). split; [exact Hin|].
  rewrite !lower_app. apply contains_app_l, contains_app_r.
  simpl in Hin.
  repeat (destruct Hin as [<-|Hin]; [reflexivity|]). contradiction.
Qed.

End Words.

Lemma chars_app (a b : string) :
  list_ascii_of_string (a ++ b)
  = (list_ascii_of_string a ++ list_ascii_of_string b)%list.
Proof.
  induction a as [|c a IH]; simpl; [reflexivity|now rewrite IH].
Qed.

Lemma string_of_chars_app (a b : list ascii) :
  string_of_list_ascii (a ++ b)
  = string_of_list_ascii a ++ string_of_list_ascii b.
Proof.
  induction a as [|c a IH]; simpl; [reflexivity|now rewrite IH].
Qed.

Lemma chars_lower (s : string) :
  list_ascii_of_string (Py.lower s)
  = map Py.lower_char (list_ascii_of_string s).
Proof.
  induction s as [|c s IH]; simpl; [reflexivity|now rewrite IH].
Qed.

(** Lowering a character does not make it whitespace, nor the reverse. *)
Lemma isspace_lower (c : ascii) :
  Py.isspace (Py.lower_char c) = Py.isspace c.
Proof.
  destruct c as [[] [] [] [] [] [] [] []]; reflexivity.
Qed.

Lemma lower_is_word (w : string) : is_word (Py.lower w) -> is_word w.
Proof.
  intros [Hne Hall]. split.
  - intros ->. now apply Hne.
  - rewrite chars_lower in Hall. rewrite Forall_forall in Hall |- *.
    intros c Hc. rewrite <- isspace_lower. apply Hall. now apply in_map.
Qed.

Lemma lower_word_end (t : string) : word_end t -> word_end (Py.lower t).
Proof.
  destruct t as [|c t]; simpl; [auto|]. now rewrite isspace_lower.
Qed.

Lemma word_headed (l : list ascii) :
  Forall (fun c => Py.isspace c = false) l -> headed l.
Proof.
  destruct l as [|c l]; simpl; [auto|]. now inversion 1.
Qed.

Lemma drop_space_app (x y : list ascii) :
  headed y -> Py.drop_space (x ++ y) = (Py.drop_space x ++ y)%list.
Proof.
  intros Hy. induction x as [|c x IH]; simpl.
  - now apply drop_space_id.
  - destruct (Py.isspace c); [exact IH|reflexivity].
Qed.

(** Stripping a text that opens with a word keeps the word. *)
Lemma strip_word (w tail : string) :
  is_word w -> word_end tail ->
  exists tail', Py.strip (w ++ tail) = w ++ tail' /\ word_end tail'.
Proof.
  intros [Hne Hall] Hend.
  assert (Hw : headed (list_ascii_of_string w)) by now apply word_headed.
  assert (Hrw : headed (rev (list_ascii_of_string w)))
    by now apply word_headed, Forall_rev.
  assert (Hh : headed (list_ascii_of_string w
                       ++ list_ascii_of_string tail)%list).
  { destruct w as [|c w]; [congruence|exact Hw]. }
  exists (string_of_list_ascii
            (rev (Py.drop_space (rev (list_ascii_of_string tail))))).
  split.
  - unfold Py.strip.
    rewrite chars_app, (drop_space_id _ Hh), rev_app_distr,
      (drop_space_app _ _ Hrw), rev_app_distr, rev_involutive,
      string_of_chars_app, string_of_list_ascii_of_string.
    reflexivity.
  - destruct (drop_space_split (rev (list_ascii_of_string tail)))
      as (sp & Hl & _).
    apply (f_equal (@rev ascii)) in Hl.
    rewrite rev_involutive, rev_app_distr in Hl.
    destruct (rev (Py.drop_space (rev (list_ascii_of_string tail))))
      as [|c r]; [exact I|].
    destruct tail as [|c' tail]; [discriminate Hl|].
    simpl in Hl. injection Hl as -> _. exact Hend.
Qed.

Lemma split_from_word (a b : list ascii) : forall cur,
  Forall (fun c => Py.isspace c = false) a ->
  Py.split_from cur (a ++ b) = Py.split_from (rev a ++ cur) b.
Proof.
  induction a as [|c a IH]; intros cur Hall; simpl; [reflexivity|].
  inversion Hall as [|c0 a0 Hc Ha]; subst.
  rewrite Hc, (IH _ Ha), <- app_assoc. reflexivity.
Qed.

(** The first word given by [split] on a text that opens with a word. *)
Lemma split_word (u t : string) :
  is_word u -> word_end t -> exists ws, Py.split (u ++ t) = u :: ws.
Proof.
  intros [Hne Hall] Hend. unfold Py.split.
  rewrite chars_app, (split_from_word _ _ _ Hall), app_nil_r.
  assert (Hrev : string_of_list_ascii (rev (rev (list_ascii_of_string u)))
                 = u)
    by (rewrite rev_involutive; apply string_of_list_ascii_of_string).
  destruct (rev (list_ascii_of_string u)) as [|c r] eqn:E.
  - exfalso. apply Hne.
    apply (f_equal (@rev ascii)) in E. rewrite rev_involutive in E.
    rewrite <- (string_of_list_ascii_of_string u), E. reflexivity.
  - destruct t as [|c' t]; cbn [list_ascii_of_string Py.split_from].
    + rewrite Hrev. eauto.
    + simpl in Hend. rewrite Hend, Hrev. eauto.
Qed.

Lemma question_starters_are_words (u : string) :
  In u question_starters -> is_word u.
Proof.
  intros Hin. simpl in Hin.
  repeat (destruct Hin as [<-|Hin];
          [split; [discriminate|repeat constructor]|]).
  contradiction.
Qed.

Section FirstWord.

Context {regex : Regex}.

Set Default Proof Using "Type".

(** X26.  A text whose first word, in any letter case, is one of the
    twenty-one starter words is classified as a question, whatever
    [re.search] finds: the word may end the text or be followed by
    whitespace and anything else. *)
Theorem starter_word_makes_a_question (w tail : string) :
  In (Py.lower w) question_starters ->
  word_end tail ->
  is_question (w ++ tail) = true.
Proof.
  intros Hin Hend.
  pose proof (question_starters_are_words _ Hin) as Hlw.
  destruct (strip_word w tail (lower_is_word _ Hlw) Hend)
    as (tail' & Hs & Hend').
  destruct (split_word (Py.lower w) (Py.lower tail') Hlw
              (lower_word_end _ Hend')) as (ws & Hsplit).
  unfold is_question. rewrite Hs.
  destruct (Py.endswith (w ++ tail') "?"); [reflexivity|].
  rewrite lower_app, Hsplit.
  assert (Hst : Py.str_in (Py.lower w) question_starters = true).
  { unfold Py.str_in. apply existsb_exists. exists (Py.lower w).
    split; [exact Hin|apply String.eqb_refl]. }
  now rewrite Hst.
Qed.

End FirstWord.

Lemma deadline_phrase_makes_an_action_item_witness :
  detect_action_item (regex := no_match)
    ("Send the draft " ++ "By Friday" ++ ", please") "speaker_0a1b2c3d"
  = true.
Proof.
  apply (deadline_phrase_makes_an_action_item (regex := no_match)).
  simpl. right. left. reflexivity.
Defined.

Lemma starter_word_makes_a_question_witness :
  is_question (regex := no_match) ("Could" ++ " someone take notes") = true.
Proof.
  apply (starter_word_makes_a_question (regex := no_match)).
  - simpl. do 9 right. left. reflexivity.
  - reflexivity.
Defined.

(** ** The minutes and the printed document *)

Lemma answer_run_at i rest : forall j j' e,
  In (j', e) (answer_run i j rest) ->
  (j <= j')%nat
  /\ nth_error rest (j' - j) = Some e
  /\ Entry.answers_question e = Some i.
Proof.
  induction rest as [|next rest IH]; intros j j' e; simpl; [tauto|].
  destruct (answers next i) eqn:E; [|intros []].
  intros [[= <- <-]|Hin].
  - rewrite Nat.sub_diag. split; [lia|]. split; [reflexivity|].
    now apply answers_spec.
  - destruct (IH _ _ _ Hin) as (Hle & Hn & Ha).
    split; [lia|]. split; [|exact Ha].
    replace (j' - j)%nat with (S (j' - (j + 1))) by lia. exact Hn.
Qed.

Lemma follow_up_at i entry n rest : forall j j' e,
  In (j', e) (follow_up_after i entry n j rest) ->
  (j <= j')%nat
  /\ nth_error rest (j' - j) = Some e
  /\ Entry.type e = Entry.question.
Proof.
  induction rest as [|next rest IH]; intros j j' e; simpl; [tauto|].
  destruct (answers next i).
  - intros Hin. destruct (IH _ _ _ Hin) as (Hle & Hn & Ht).
    split; [lia|]. split; [|exact Ht].
    replace (j' - j)%nat with (S (j' - (j + 1))) by lia. exact Hn.
  - destruct (Entry.kind_eqb (Entry.type next) Entry.question
              && (j <? n - 1)%nat
              && String.eqb (Entry.speaker_id next) (Entry.speaker_id entry))
      eqn:E; [|intros []].
    apply andb_true_iff in E. destruct E as (E & _).
    apply andb_true_iff in E. destruct E as (E & _).
    intros [[= <- <-]|[]]. rewrite Nat.sub_diag.
    split; [lia|]. split; [reflexivity|].
    now destruct (Entry.type next).
Qed.

(** The Q&A groups hold questions and entries that carry
    [answers_question], nothing else. *)
Lemma groups_at n rest : forall i x,
  In x (flat_map qa_indices (groups n i rest)) ->
  (i <= x)%nat
  /\ exists e,
       nth_error rest (x - i) = Some e
       /\ (Entry.type e = Entry.question
           \/ exists k, Entry.answers_question e = Some k).
Proof.
  induction rest as [|entry rest IH]; intros i x; simpl; [tauto|].
  assert (Hnext : In x (flat_map qa_indices (groups n (i + 1) rest)) ->
            (i <= x)%nat
            /\ exists e,
                 nth_error (entry :: rest) (x - i) = Some e
                 /\ (Entry.type e = Entry.question
                     \/ exists k, Entry.answers_question e = Some k)).
  { intros Hin. destruct (IH _ _ Hin) as (Hle & e & Hn & He).
    split; [lia|]. exists e. split; [|exact He].
    replace (x - i)%nat with (S (x - (i + 1))) by lia. exact Hn. }
  destruct (Entry.kind_eqb (Entry.type entry) Entry.question) eqn:E;
    [|exact Hnext].
  simpl. intros [<-|Hin].
  - rewrite Nat.sub_diag. split; [lia|]. exists entry.
    split; [reflexivity|]. left. now destruct (Entry.type entry).
  - rewrite <- app_assoc in Hin.
    apply in_app_or in Hin. destruct Hin as [Hin|Hin].
    + apply in_map_iff in Hin. destruct Hin as ([j' e] & <- & Hin).
      destruct (answer_run_at _ _ _ _ _ Hin) as (Hle & Hn & Ha).
      simpl. split; [lia|]. exists e. split; [|eauto].
      replace (j' - i)%nat with (S (j' - (i + 1))) by lia. exact Hn.
    + apply in_app_or in Hin. destruct Hin as [Hin|Hin]; [|auto].
      apply in_map_iff in Hin. destruct Hin as ([j' e] & <- & Hin).
      destruct (follow_up_at _ _ _ _ _ _ _ Hin) as (Hle & Hn & Ht).
      simpl. split; [lia|]. exists e. split; [|auto].
      replace (j' - i)%nat with (S (j' - (i + 1))) by lia. exact Hn.
Qed.

Section Printed.

Context {regex : Regex} {iso : IsoParser}.

Set Default Proof Using "Type".

(** X27.  In every reachable store the key discussion points of the
    minutes are exactly the entries that [generate_pdf] selects for its
    additional discussion and that are longer than 50 characters: a
    statement is never held by a Q&A group, and the two selections differ
    only in the length they ask for, 50 against 30. *)
Theorem key_points_are_the_long_additional_entries now self e :
  reachable self ->
  ((exists i,
      In (i, e)
        (Minutes.key_discussion_points (get_minutes_structure now self)))
   <-> In e (other_entries self) /\ (Py.len (Entry.text e) > 50)%nat).
Proof.
  intros Hr.
  destruct (minutes_buckets now self) as (_ & _ & Hk & _).
  rewrite Hk. unfold other_entries, goes_to_key_points. split.
  - intros (i & Hin). apply filter_In in Hin. destruct Hin as (Hin & Hc).
    apply In_enumerate in Hin. apply nth_error_In in Hin. simpl in Hc.
    rewrite !andb_true_iff, !negb_true_iff in Hc.
    destruct Hc as (((_ & Hd) & Ha) & Hs & Hl).
    apply Nat.ltb_lt in Hl. split; [|exact Hl].
    apply filter_In. split; [exact Hin|].
    rewrite Hs, Hd, Ha. simpl. rewrite ?andb_true_r.
    apply Nat.ltb_lt. lia.
  - intros (Hin & Hl). apply filter_In in Hin. destruct Hin as (Hin & Hc).
    rewrite !andb_true_iff, !negb_true_iff in Hc.
    destruct Hc as (((Hs & _) & Hd) & Ha).
    apply In_nth_error in Hin. destruct Hin as (i & Hi).
    exists i. apply filter_In. split; [now apply In_enumerate|].
    simpl. rewrite Hs, Hd, Ha. simpl. rewrite ?andb_true_r.
    apply andb_true_iff. split; [|apply Nat.ltb_lt; exact Hl].
    apply negb_true_iff.
    destruct (existsb (Nat.eqb i) _) eqn:Eu; [exfalso|reflexivity].
    apply existsb_eqb_In in Eu.
    pose proof (qa_loop_eq (length (transcript self)) (transcript self) 0
                  [] []) as (_ & Hused).
    apply Hused in Eu. destruct Eu as [[]|Eu].
    destruct (groups_at _ _ _ _ Eu) as (_ & e' & Hn & He').
    rewrite Nat.sub_0_r, Hi in Hn. injection Hn as <-.
    pose proof (reachable_well_typed _ _ Hr i e Hi) as Ht.
    unfold typed_at in Ht.
    destruct (Entry.type e); try discriminate Hs.
    destruct Ht as (_ & Hnone).
    destruct He' as [He'|(k & He')]; congruence.
Qed.

(** X28.  Stopping a meeting of a registry produced by the routes answers
    "stopped" with a duration other than "In progress"; asked for its
    status afterwards, the meeting is reported as not active, with the
    entries and the count it had before. *)
Theorem stopped_meeting_is_reported_inactive now meetings meeting_id
  meeting since :
  served meetings ->
  now <> EmptyString ->
  Py.dict_get meetings meeting_id = Some meeting ->
  let after := fst (stop_meeting now meetings meeting_id) in
  (exists d,
     snd (stop_meeting now meetings meeting_id)
     = Ok (mkStopReply "stopped" d)
     /\ d <> "In progress")
  /\ exists before_stop after_stop,
       get_status meetings meeting_id since = Ok before_stop
       /\ get_status after meeting_id since = Ok after_stop
       /\ status_is_active after_stop = false
       /\ status_entries after_stop = status_entries before_stop
       /\ status_total_count after_stop = status_total_count before_stop.
Proof.
  intros Hs Hnow Hget after.
  destruct (served_well _ Hs _ _ Hget) as (_ & (st & Hst & Hne) & _).
  unfold after, stop_meeting, get_status. rewrite Hget.
  cbn [fst snd]. rewrite dict_get_set, String.eqb_refl. split.
  - eexists. split; [reflexivity|].
    unfold calculate_duration.
    cbn [set_end_time start_time end_time]. rewrite Hst.
    destruct now as [|cn now']; [congruence|].
    destruct st as [|cs st']; [congruence|].
    cbn [Py.truthy negb orb].
    destruct (elapsed_seconds (String cs st') (String cn now')) as [t|];
      [apply format_duration_not_sentinel|discriminate].
  - eexists _, _. split; [reflexivity|]. split; [reflexivity|].
    split; [reflexivity|]. split; reflexivity.
Qed.

End Printed.

Lemma key_points_are_the_long_additional_entries_witness :
  let self := session (regex := no_match) long_remark_calls in
  reachable (regex := no_match) self
  /\ exists e,
       nth_error (transcript self) 0 = Some e
       /\ exists i,
            In (i, e)
              (Minutes.key_discussion_points
                 (get_minutes_structure (iso := no_parse)
                    "2026-01-05T11:00:00" self)).
Proof.
  intros self. split; [apply session_reachable|].
  destruct (nth_error (transcript self) 0) as [e|] eqn:E;
    [|vm_compute in E; discriminate E].
  exists e. split; [reflexivity|].
  apply (key_points_are_the_long_additional_entries (regex := no_match)
           (iso := no_parse) "2026-01-05T11:00:00" self e
           (session_reachable long_remark_calls)).
  vm_compute in E. injection E as <-. split.
  - vm_compute. left. reflexivity.
  - vm_compute. lia.
Defined.

Lemma stopped_meeting_is_reported_inactive_witness :
  exists d after_stop,
    snd (stop_meeting (iso := sample_clock) "2026-01-05T10:01:05" fed "m-1")
    = Ok (mkStopReply "stopped" d)
    /\ d <> "In progress"
    /\ get_status
         (fst (stop_meeting (iso := sample_clock) "2026-01-05T10:01:05" fed
                 "m-1")) "m-1" None
       = Ok after_stop
    /\ status_is_active after_stop = false
    /\ status_total_count after_stop = 1%nat.
Proof.
  assert (Hs : served (regex := no_match) (iso := sample_clock) fed).
  { apply served_audio.
    apply (served_start "m-1" "2026-01-05 10:00" "2026-01-05T10:00:00" []
             (object (mkStartBody None)) served_nothing).
    discriminate. }
  destruct (Py.dict_get fed "m-1") as [meeting|] eqn:E;
    [|vm_compute in E; discriminate E].
  destruct (stopped_meeting_is_reported_inactive (regex := no_match)
              (iso := sample_clock) "2026-01-05T10:01:05" fed "m-1"
              meeting None Hs ltac:(discriminate) E)
    as ((d & Hd & Hnp) & b & a & Hb & Ha & Hact & _ & Hcount).
  exists d, a. split; [exact Hd|]. split; [exact Hnp|].
  split; [exact Ha|]. split; [exact Hact|].
  rewrite Hcount. unfold get_status in Hb. rewrite E in Hb.
  injection Hb as <-. cbn [status_total_count].
  vm_compute in E. injection E as <-. reflexivity.
Defined.

Section Started.

Context {regex : Regex} {iso : IsoParser}.

Set Default Proof Using "Type".

(** X29.  A start request that carries no JSON, or JSON that is true as a
    condition and is no object, is answered 500 and registers nothing.
    Every other request is answered with the identifier drawn, and the
    meeting is then found under it, whatever the registry held before:
    its status shows no entry, no participant, no audio source and no
    pending question, reports it as active, and gives the meeting type of
    the request, or "physical" when the request names none. *)
Theorem started_meeting_is_empty_and_active uuid title_date now meetings
  data since :
  match data with
  | no_json | not_an_object true =>
      exists e,
        start_meeting uuid title_date now meetings data
        = (meetings, Raised e)
  | not_an_object false | object _ =>
      exists answer st,
        snd (start_meeting uuid title_date now meetings data) = Ok answer
        /\ started_id answer = uuid
        /\ get_status (fst (start_meeting uuid title_date now meetings data))
             uuid since = Ok st
        /\ status_entries st = []
        /\ status_total_count st = 0%nat
        /\ status_participants st = []
        /\ status_audio_sources st = []
        /\ status_is_active st = true
        /\ status_meeting_type st
           = match data with
             | object d => Py.get (start_meeting_type d) "physical"
             | _ => "physical"
             end
        /\ status_unanswered_questions st = 0%nat
  end.
Proof.
  assert (Hreg : forall d,
            exists answer st,
              snd (register_meeting uuid title_date now meetings d)
              = Ok answer
              /\ started_id answer = uuid
              /\ get_status
                   (fst (register_meeting uuid title_date now meetings d))
                   uuid since = Ok st
              /\ status_entries st = []
              /\ status_total_count st = 0%nat
              /\ status_participants st = []
              /\ status_audio_sources st = []
              /\ status_is_active st = true
              /\ status_meeting_type st
                 = Py.get (start_meeting_type d) "physical"
              /\ status_unanswered_questions st = 0%nat).
  { intros d. unfold register_meeting, get_status. cbn [fst snd].
    rewrite dict_get_set, String.eqb_refl.
    eexists _, _. split; [reflexivity|]. split; [reflexivity|].
    split; [reflexivity|]. cbn.
    split; [|repeat split].
    unfold slice_from. cbn [length].
    destruct (0 <=? Py.get since 0%Z)%Z; apply skipn_nil. }
  destruct data as [|[|]|d]; cbn [start_meeting]; eauto.
Qed.

End Started.
